(* ===== verification/_CoqProject ===== *)
-Q . S2P
Prelude.v
PyStr.v
PyDict.v
MessageProcessor.v
DateTime.v
OrderStore.v
Csv.v
Automation.v
Reporting.v
Gateway.v
Dashboard.v
App.v
