(* ===== verification/Prelude.v ===== *)
(** * A verification development of whatsapp-order-bot

    The program ([src/]) is a Streamlit dashboard ([app.py]) over four
    Python modules: an intent and pricing engine that answers a customer's
    WhatsApp text ([utils/message_processor.py]); a rule-based responder
    with the same purpose ([utils/automation.py]); an SQLite order store
    ([utils/database.py], [models/order_model.py]); and a Twilio gateway
    that receives webhook POSTs and sends replies
    ([utils/whatsapp_integration.py]).  The dashboard reads orders from
    the store, aggregates them into reports, and writes status changes
    back.  The gateway hands inbound text to a callback and sends the
    callback's reply.

    ** Files, modules and what they model

    - [Prelude] (this file): the [result] error monad ([Ok]/[Err], with
      [let*] in [bot_scope]) for code that raises; [sumZ] for Python's
      [sum]; [count_if] for [list.count]; the hint databases [bot] and
      [bot_simpl]; the tactics [case_ifs] and [bool_prop].
    - [PyStr]: the [str] operations the sources call ([lower], [in],
      [strip], [split], [startswith], [int()], [str()], [{:,}]).  Strings
      are Latin-1: code points 0..255.
    - [PyDict]: Python's insertion-ordered [dict] as an association list
      ([dict_set], [dict_get]) refining a stdpp [gmap] ([dict_to_map_set]),
      and the accumulation loops [d[k] = d.get(k, 0) + x] ([accumulate]).
    - [MessageProcessor] (module [MessageProcessor]): [__init__] ([init]),
      [process_message], [_process_order] ([extract_items], [quote_step],
      [process_order]) and [_generate_greeting_response].  The regular
      expression [(\d+)\s*item] is a backtracking matcher ([try_digits],
      [try_spaces], [match_at], [re_search]) with [re]'s greedy, leftmost
      semantics.  An abstract engine ([classify], [render_quote],
      [respond_spec]) states the contract.
    - [DateTime] (module [DateTime]): the fields of [datetime], validity,
      CPython's [_ymd2ord]/[_ord2ymd], subtracting days, comparison,
      [isoformat(" ")], and [strptime(s, "%Y-%m-%d %H:%M:%S")] as the
      [_strptime] regular expression followed by its checks.
    - [OrderStore] (module [OrderStore]): [Order] and the
      [DatabaseManager].  The state [db] holds the rows of table [orders]
      in rowid order (or no table) and the AUTOINCREMENT counter.
      [init_db], [add_order], [get_all_orders], [get_order],
      [update_order_status], [init_sample_data] and the window queries
      are functions of that state and of the clock [now].  A [step]
      relation and [reachable] cover every method that writes.
    - [Automation] (module [Automation]): [AutomationRules.rules] and
      [process_message].  Each pattern is an alternation of literal words.
    - [Reporting] (module [Reporting]):
      [get_orders_by_status_count] and [get_top_customers].  It also
      holds the dashboard's aggregates: revenue, daily revenue, orders per
      day, menu popularity and its top 5, and orders per hour.
    - [Gateway] (module [Gateway]): [WhatsAppIntegration] over an explicit
      state, with [set_credentials], [send_message], [setup_webhook],
      [start_webhook_server], [set_message_callback], [_handle_webhook]
      ([handle_webhook]) and [validate_credentials].  The callback is the
      typeclass [Responder].  Its law is the spec's contract that a reply
      is never empty.  [MessageProcessor] and [Automation] are its two
      instances.  A [step]/[reachable] relation covers every method, and
      [app_reachable] covers what [app.py] does.
    - [Dashboard] (module [Dashboard]): the Streamlit script of [app.py].
      A page-writer monad [M] (stdpp's [mret]/[mbind]) appends elements
      and stops at the first exception.  It models the orders tab
      ([orders_tab], [render_order]) with its [list.index] [ValueError]
      and Streamlit's [DuplicateWidgetID], the metric panels, the status
      table, the top 5 customers and the raw data rows.  The buttons that
      write to the store are the relation [app_step], and
      [app_reachable] covers the store states the app reaches.
    - [Csv] (module [Csv]): [export_orders_to_csv].  It models the
      records built from [get_all_orders], the cells pandas writes for
      each column, and the text of the [csv] writer ([write_csv]).
      - The integer id is written with [str].
      - The float total is written with ".0".
      - The [datetime64] column holds dates only when every value is at
        midnight.  Otherwise it holds timestamps at the finest
        resolution the column needs.
      - A reader ([read_csv]) is a state machine with the states of
        CPython's parser.  It is the inverse the round trip is stated
        with.
    - [App] (module [App]): one run of the whole script [app.py], in a
      state-and-exception monad [R].
      - A run's state holds the page, the files on disk ([world]: the
        database and the export file) and the run's own
        [WhatsAppIntegration].
      - The inputs are the button whose press caused the run, the typed
        texts and the select-box choices.
      - The script is [header] (the components, [_init_db]), then
        [page_body]: the sidebar with the credential form, [tab1],
        [tab2] (each expander with the effect of its button), [tab3]
        with its "Proses Pesan" buttons, [tab4] with its sections and
        export buttons, and the footer.
      - [st.rerun()] stops a run.  [interact] then runs the script again
        without the click.
      - Charts are kept as their data.
      - A small Hoare logic ([hoare], [hoare_seq], [hoare_when],
        [hoare_widget], ...) composes the sections' lemmas.

    ** What the theorems show

    - Engine:
      - [process_message_refines]: [process_message] implements the
        abstract engine.
      - [extract_items_spec]: characterises the extracted items.
      - The matcher is sound, leftmost, longest and complete, and it
        equals a direct greedy matcher ([match_at_greedy_equiv]).
      - A missing quantity defaults to 1.
      - Spec scenarios are proved.
      - Two keyword-order findings, stated for every message: any text
        with "pesanan" and no menu item gets the menu listing, never the
        status reply ([status_question_gets_menu_reply]); a greeting
        keyword anywhere, even inside a word, wins over any order
        ([greeting_inside_word]).
    - Store:
      - The table invariant holds in every reachable state
        ([reachable_wf]).
      - [add_order] returns a fresh id, and the order reads back.
      - Microseconds in [created_at] make every later read raise
        ([add_order_microseconds_breaks_reads]).
      - [get_all_orders] is sorted newest first.
      - Status updates are idempotent, and updating a missing id changes
        nothing.
      - "Today" is a calendar-date window.
      - Ids are reused after [init_sample_data]: whatever the store
        held, the orders added after it get 5, 6, ... again
        ([reset_reuses_ids]).
      - Behind these stands [strptime_isoformat], a round trip of the
        stored text.
      - Helper lemmas ([wf_reachable], [strptime_of_isoformat]) carry
        the proofs other lemmas reuse.
    - Reports:
      - The status counts, the top-customer frame and the menu counts
        are characterised exactly (for example [top_customers_spec]).
      - The frames are sorted.
      - The daily revenues add up to the revenue metric.
      - The hour chart has 24 buckets that account for every order.
      - The top 5 dominate the rest.
      - Spec scenarios are proved.
    - Automation: it agrees with [MessageProcessor] on greetings and
      orders ([automation_agrees_with_classify]).
    - Gateway:
      - Round trip: a POST from "whatsapp:<n>" is answered to
        "whatsapp:<n>" with the responder's reply
        ([webhook_reply_roundtrip]).
      - A failed send answers 500 and changes nothing.
      - The app as written never replies ([app_never_replies]).
      - [validate_credentials] reports the account fetch's outcome:
        valid, a [TwilioRestException] or another exception
        ([fetch_error]); the [AttributeError] of a missing client is
        never reached ([validate_credentials_spec]).
      - From any state with a client, a failed re-configuration keeps
        the old client with the new SID and number
        ([failed_reconfiguration_mixes_accounts]).
    - Dashboard:
      - Every store state the app reaches stores only statuses the
        select box offers ([app_statuses_ok]).
      - Hence, with the store invariant and the injectivity of [str()],
        the orders tab renders without an exception
        ([orders_tab_renders]).
      - A status the select box does not offer (set by another client)
        stops the tab at that order's expander
        ([off_menu_status_breaks_orders_tab]).
      - The displayed average order value lies between the smallest and
        the largest total ([avg_order_value_bounds]).
    - Across components:
      - Adding an order raises the status histogram by one at its
        status ([status_count_after_add]).
      - Every interaction with the app completes, from any store the
        app reaches ([interact_completes]): the store reads succeed, the
        widget keys of the sidebar, the filter, the expanders, the chat
        buttons and the export buttons are all distinct, and the buttons
        that write the store lead to a rerun that completes.  The one
        exception left is "Simpan Konfigurasi" without credentials,
        which stops the run in the sidebar ([save_without_sid_stops]).
    - Export:
      - The exported file reads back as the header and the orders'
        cells, with the stored timestamp text ([export_reads_back]);
        behind it, a reader of the csv module's dialect inverts the
        writer ([read_write_csv]).
      - An empty table exports as one empty line, without a header.
    - Bounds and termination:
      - [add_order] fails with [SQLITE_FULL] exactly at the largest
        rowid ([add_order_rowid_bound]).
      - With its fuel, [str()] produces the whole canonical decimal text
        ([str_int_canonical]), and [{n:,}] cuts it into groups of three
        from the right ([fmt_thousands_groups]).

    ** Bounds, fuel and modelling choices

    - [str()] of an integer recurses on fuel
      [digit_fuel n = 1 + log2 n].  That is at least the number of
      decimal digits, so the fuel never runs out ([digits_rev_correct],
      [digits_rev_last], [str_int_canonical]).
    - All other recursion is structural:
      - the regex matcher recurses on the lengths of digit and space
        runs;
      - [strptime] tries the finitely many alternatives of each field;
      - the loops are folds over lists.
    - Integers are [Z]: Python integers are unbounded.  SQLite's rowid
      is bounded by [MAX_ROWID = 2^63 - 1], past which [add_order] fails
      with [DatabaseFull].
    - The clock ([datetime.now()]) is a parameter [now].  Twilio's
      answers are inputs of the gateway's steps.  The account fetch of
      [validate_credentials] may succeed, raise a
      [TwilioRestException] or raise another exception, each with its
      own branch.  A failed [messages.create] is represented by a
      Twilio error code: [send_message] re-raises every exception and
      [_handle_webhook] answers 500 to all of them alike.  The environment
      variables [TWILIO_ACCOUNT_SID]/[TWILIO_AUTH_TOKEN] are section
      variables.
    - Assumptions where the code's behaviour depends on a library:
      - SQLite returns rows with equal [created_at] in rowid order.
      - pandas' [sort_values(ascending=False)] is stable.
      - [strftime] pads the year to 4 digits; the app only meets such
        years.
      - The [total] column is [REAL]: totals are read back as floats.
        The model keeps them as the integers they are (the app stores
        whole rupiah).  Sums of such floats are exact below 2^53.
      - [avg_order_value] is a float division formatted with [,.0f].  The
        model rounds the exact quotient half to even.  That is the
        displayed value whenever the revenue is below 2^52: the quotient
        is then at least 1/(2q) away from a tie, which is more than half
        an ulp.
      - The app starts from a fresh [data/orders.db].
      - The export: pandas' [datetime64[ns]] covers the years the app
        writes.  Totals are below 10^16, so numpy writes them as
        "<n>.0".  The csv writer quotes a field holding a comma, a
        quote, "\n" or "\r".
      - An unkeyed widget's id is its kind and label.  Streamlit hashes
        these with its other parameters, and the labels already separate
        the widgets of [app.py].
      - The dates [interact_completes] covers are those at least 31 days
        after 0001-01-01.  Before that, [datetime.now() - timedelta(30)]
        overflows.

    ** Not modelled

    - Logging.
    - The styling of the charts, [st.set_page_config], the layout
      (columns, tabs, chat containers) and [time.sleep].  None of them
      draws anything the program reads back.
    - The [Client] object's internals.  [app.py] never sends a message.
    - The Flask HTTP layer and its thread.  The thread only forwards a
      POST to [_handle_webhook].

    ** Further work

    - The [ord2ymd]/[ymd2ord] round trip, and the weekly and monthly
      windows for every [now].
    - The store's reads after [init_sample_data].
    - An ITree model of the webhook server's loop. *)

From stdpp Require Import base list.
From Stdlib Require Import ZArith Lia.

Declare Scope bot_scope.
Delimit Scope bot_scope with bot.
Open Scope Z_scope.

(** Python's [sum(f(x) for x in xs)]: a left fold starting at 0. *)
Definition sumZ {A} (f : A -> Z) (l : list A) : Z :=
  fold_left (fun acc x => acc + f x) l 0.

(** Python's [len([x for x in xs if p(x)])] and [xs.count(v)]. *)
Definition count_if {A} (p : A -> bool) (l : list A) : nat :=
  length (List.filter p l).

(** Fallible code: a value or the exception it raises. *)
Inductive result (E A : Type) := Ok (a : A) | Err (e : E).
Arguments Ok {E A} _.
Arguments Err {E A} _.

Definition rbind {E A B} (m : result E A) (k : A -> result E B) : result E B :=
  match m with Ok a => k a | Err e => Err e end.

Definition map_err {E F A} (f : E -> F) (m : result E A) : result F A :=
  match m with Ok a => Ok a | Err e => Err (f e) end.

Notation "'let*' x ':=' m 'in' k" := (rbind m (fun x => k))
  (at level 200, x name, m at level 100, k at level 200) : bot_scope.

Create HintDb bot discriminated.
Create Rewrite HintDb bot_simpl.

Lemma fold_left_add_shift {A} (f : A -> Z) (l : list A) (a : Z) :
  fold_left (fun acc x => acc + f x) l a = a + fold_left (fun acc x => acc + f x) l 0.
Proof.
  revert a. induction l as [|x l IH]; intros a; simpl; [lia|].
  rewrite (IH (a + f x)), (IH (0 + f x)). lia.
Qed.

Lemma sumZ_nil {A} (f : A -> Z) : sumZ f [] = 0.
Proof. reflexivity. Qed.

Lemma sumZ_cons {A} (f : A -> Z) x l : sumZ f (x :: l) = f x + sumZ f l.
Proof. unfold sumZ. simpl. rewrite fold_left_add_shift. lia. Qed.

Lemma sumZ_app {A} (f : A -> Z) l1 l2 : sumZ f (l1 ++ l2) = sumZ f l1 + sumZ f l2.
Proof.
  induction l1 as [|x l1 IH]; simpl; rewrite ?sumZ_cons, ?sumZ_nil; lia.
Qed.

Lemma sumZ_nonneg {A} (f : A -> Z) l :
  Forall (fun x => 0 <= f x) l -> 0 <= sumZ f l.
Proof.
  induction 1; rewrite ?sumZ_cons, ?sumZ_nil; lia.
Qed.

Lemma sumZ_ext {A} (f g : A -> Z) l :
  (forall x, In x l -> f x = g x) -> sumZ f l = sumZ g l.
Proof.
  induction l as [|x l IH]; intros H; rewrite ?sumZ_cons, ?sumZ_nil; [done|].
  rewrite (H x) by (simpl; auto). rewrite IH; [done|].
  intros y Hy. apply H. simpl. auto.
Qed.

Lemma sumZ_filter {A} (f : A -> Z) (p : A -> bool) l :
  sumZ f (List.filter p l) = sumZ (fun x => if p x then f x else 0) l.
Proof.
  induction l as [|x l IH]; cbn [List.filter]; [done|].
  rewrite !sumZ_cons. destruct (p x) eqn:E; rewrite ?sumZ_cons, IH; lia.
Qed.

Lemma sumZ_plus {A} (f g : A -> Z) l : sumZ (fun x => f x + g x) l = sumZ f l + sumZ g l.
Proof. induction l as [|x l IH]; rewrite ?sumZ_cons, ?sumZ_nil; lia. Qed.

Lemma sumZ_map {A B} (f : B -> Z) (g : A -> B) l : sumZ f (map g l) = sumZ (fun x => f (g x)) l.
Proof. induction l as [|x l IH]; cbn [map]; rewrite ?sumZ_cons, ?sumZ_nil; lia. Qed.

Lemma sumZ_one {A} (l : list A) : sumZ (fun _ => 1) l = Z.of_nat (length l).
Proof. induction l as [|x l IH]; rewrite ?sumZ_cons, ?sumZ_nil; cbn [length]; lia. Qed.

Lemma count_if_cons {A} (p : A -> bool) x l :
  count_if p (x :: l) = ((if p x then 1 else 0) + count_if p l)%nat.
Proof. unfold count_if. simpl. by destruct (p x). Qed.

Lemma count_if_app {A} (p : A -> bool) l1 l2 :
  count_if p (l1 ++ l2) = (count_if p l1 + count_if p l2)%nat.
Proof. unfold count_if. by rewrite List.filter_app, length_app. Qed.

Lemma filter_all_true {A} (p : A -> bool) (l : list A) :
  (forall x, In x l -> p x = true) -> List.filter p l = l.
Proof.
  induction l as [|x l IH]; intros H; [done|]. cbn [List.filter].
  rewrite (H x) by (left; done). f_equal. apply IH. intros y Hy. apply H. by right.
Qed.

Lemma omap_cons_eq {A B} (f : A -> option B) (a : A) (l : list A) :
  omap f (a :: l) = match f a with Some b => b :: omap f l | None => omap f l end.
Proof. reflexivity. Qed.

(** The first result of a list-monad bind is the first result of the
    continuation on the first element, when there is one. *)
Lemma bind_head {A B} (f : A -> list B) (a : A) (l : list A) (b : B) :
  (exists t, f a = b :: t) -> exists t, (x ← a :: l; f x) = b :: t.
Proof.
  intros [t Ht]. exists (t ++ (x ← l; f x)).
  change (x ← a :: l; f x) with (f a ++ (x ← l; f x)). by rewrite Ht.
Qed.

Lemma rbind_ok {E A B} (a : A) (k : A -> result E B) : rbind (Ok a) k = k a.
Proof. reflexivity. Qed.

Lemma rbind_err {E A B} (e : E) (k : A -> result E B) : rbind (Err e) k = Err e.
Proof. reflexivity. Qed.

#[export] Hint Rewrite @rbind_ok @rbind_err : bot_simpl.

#[export] Hint Rewrite @sumZ_nil @sumZ_cons @sumZ_app @count_if_cons @count_if_app : bot_simpl.
#[export] Hint Resolve sumZ_nonneg : bot.

(** Case analysis on every [if] of the goal, keeping the equations. *)
Ltac case_ifs :=
  repeat match goal with
         | |- context [if ?b then _ else _] =>
             lazymatch b with
             | context [if _ then _ else _] => fail
             | _ => destruct b eqn:?
             end
         end.

(** Turn the boolean tests of the standard library into propositions. *)
Ltac bool_prop :=
  repeat match goal with
         | H : (_ && _)%bool = true |- _ => apply andb_prop in H as [? ?]
         | H : (_ || _)%bool = false |- _ => apply orb_false_elim in H as [? ?]
         | H : (_ && _)%bool = false |- _ => apply andb_false_iff in H as [?|?]
         | H : (_ || _)%bool = true |- _ => apply orb_true_iff in H as [?|?]
         | H : negb _ = true |- _ => apply negb_true_iff in H
         | H : negb _ = false |- _ => apply negb_false_iff in H
         | H : Z.eqb _ _ = true |- _ => apply Z.eqb_eq in H
         | H : Z.eqb _ _ = false |- _ => apply Z.eqb_neq in H
         | H : Z.leb _ _ = true |- _ => apply Z.leb_le in H
         | H : Z.leb _ _ = false |- _ => apply Z.leb_gt in H
         | H : Z.ltb _ _ = true |- _ => apply Z.ltb_lt in H
         | H : Z.ltb _ _ = false |- _ => apply Z.ltb_ge in H
         end.
