(* ===== verification/PyStr.v ===== *)
(** Python [str] operations used by the bot ([lower], [in], [strip],
    [split], [startswith], [int()] of a digit run, [str()] of an int and
    the [{n:,}] thousands format).  A Python string is modelled as a
    Stdlib [string] whose characters are the code points 0..255
    (Latin-1); every predicate below agrees with CPython on that range. *)

From stdpp Require Import base list strings.
From Stdlib Require Import String Ascii ZArith Lia DecimalString DecimalN.
From S2P Require Import Prelude.

Open Scope Z_scope.

(** ** Character classes *)

Definition code (c : ascii) : N := N_of_ascii c.

(** [c.isupper()] restricted to Latin-1: [A-Z], [À-Ö], [Ø-Þ]. *)
Definition is_upper (c : ascii) : bool :=
  let n := code c in
  ((65 <=? n) && (n <=? 90))%N || ((192 <=? n) && (n <=? 222) && negb (n =? 215))%N.

(** [c.lower()] on one code point below 256. *)
Definition lower_char (c : ascii) : ascii :=
  if is_upper c then ascii_of_N (code c + 32) else c.

(** [\d] of [re] on a [str] pattern: a Unicode decimal digit, i.e. [0-9]
    below 256. *)
Definition is_digit (c : ascii) : bool :=
  let n := code c in ((48 <=? n) && (n <=? 57))%N.

(** [\s] of [re] and [str.isspace()]: [\t\n\v\f\r], [\x1c-\x1f], space,
    [\x85] and no-break space below 256. *)
Definition is_space (c : ascii) : bool :=
  let n := code c in
  ((9 <=? n) && (n <=? 13))%N || ((28 <=? n) && (n <=? 32))%N
  || (n =? 133)%N || (n =? 160)%N.

(** ** Whole-string operations *)

(** [s.lower()] *)
Fixpoint lower (s : string) : string :=
  match s with
  | EmptyString => EmptyString
  | String c t => String (lower_char c) (lower t)
  end.

(** [needle in hay]: substring test. *)
Fixpoint contains (needle hay : string) : bool :=
  prefix needle hay ||
  match hay with
  | EmptyString => false
  | String _ t => contains needle t
  end.

(** [any(w in s for w in ws)] *)
Definition contains_any (ws : list string) (s : string) : bool :=
  existsb (fun w => contains w s) ws.

(** [s.startswith(p)] *)
Definition startswith (s p : string) : bool := prefix p s.

Fixpoint drop_while (p : ascii -> bool) (s : string) : string :=
  match s with
  | EmptyString => EmptyString
  | String c t => if p c then drop_while p t else s
  end.

Fixpoint take_while (p : ascii -> bool) (s : string) : string :=
  match s with
  | EmptyString => EmptyString
  | String c t => if p c then String c (take_while p t) else EmptyString
  end.

(** [s[n:]] *)
Fixpoint str_drop (n : nat) (s : string) : string :=
  match n, s with
  | O, _ => s
  | S _, EmptyString => EmptyString
  | S n', String _ t => str_drop n' t
  end.

(** [s[:n]] *)
Fixpoint str_take (n : nat) (s : string) : string :=
  match n, s with
  | O, _ => EmptyString
  | S _, EmptyString => EmptyString
  | S n', String c t => String c (str_take n' t)
  end.

(** [all(p(c) for c in s)] *)
Fixpoint str_all (p : ascii -> bool) (s : string) : bool :=
  match s with
  | EmptyString => true
  | String c t => p c && str_all p t
  end.

(** [str().join(parts)]: concatenation of a list of strings. *)
Fixpoint str_concat (parts : list string) : string :=
  match parts with
  | [] => EmptyString
  | p :: ps => (p ++ str_concat ps)%string
  end.

Definition str_rev (s : string) : string :=
  string_of_list_ascii (rev (list_ascii_of_string s)).

(** [s.strip()] with no argument. *)
Definition strip (s : string) : string :=
  str_rev (drop_while is_space (str_rev (drop_while is_space s))).

(** [s.split(sep)] for a one-character separator. *)
Fixpoint split_on (sep : ascii) (s : string) : list string :=
  match s with
  | EmptyString => [EmptyString]
  | String c t =>
      let parts := split_on sep t in
      if Ascii.eqb c sep then EmptyString :: parts
      else match parts with
           | p :: ps => String c p :: ps
           | [] => [String c EmptyString]
           end
  end.

(** [sep.join(parts)] *)
Fixpoint join (sep : ascii) (parts : list string) : string :=
  match parts with
  | [] => EmptyString
  | [p] => p
  | p :: ps => (p ++ String sep (join sep ps))%string
  end.

(** ** Numbers *)

Definition digit_val (c : ascii) : Z := Z.of_N (code c) - 48.

(** [int(s)] for a string of decimal digits (the regex group [(\d+)]). *)
Definition int_of_digits (s : string) : Z :=
  fold_left (fun acc c => 10 * acc + digit_val c) (list_ascii_of_string s) 0.

Definition ascii_of_digit (d : Z) : ascii := ascii_of_N (48 + Z.to_N d).

(** The decimal digits of [n >= 0], least significant first, as
    CPython's [int.__str__] produces them by repeated [divmod(n, 10)].
    [fuel] bounds the number of digits. *)
Fixpoint digits_rev (fuel : nat) (n : Z) : list ascii :=
  match fuel with
  | O => []
  | S f => ascii_of_digit (n mod 10) ::
             (if n / 10 =? 0 then [] else digits_rev f (n / 10))
  end.

(** A decimal number has at most as many digits as bits. *)
Definition digit_fuel (n : Z) : nat := S (Z.to_nat (Z.log2 n)).

(** [str(n)] for [n >= 0]. *)
Definition str_nonneg (n : Z) : string :=
  string_of_list_ascii (rev (digits_rev (digit_fuel n) n)).

(** [str(n)] for a Python [int]. *)
Definition str_int (n : Z) : string :=
  if n <? 0 then String "-" (str_nonneg (- n)) else str_nonneg n.

(** The digit groups of [{n:,}], built on the reversed digit list. *)
Fixpoint group_rev (cs : list ascii) : list ascii :=
  match cs with
  | a :: b :: c :: ((_ :: _) as rest) => a :: b :: c :: ","%char :: group_rev rest
  | _ => cs
  end.

Definition group_thousands (s : string) : string :=
  string_of_list_ascii (rev (group_rev (rev (list_ascii_of_string s)))).

(** [f"{n:,}"] for a Python [int]. *)
Definition fmt_thousands (n : Z) : string :=
  if n <? 0 then String "-" (group_thousands (str_nonneg (- n)))
  else group_thousands (str_nonneg n).

(** ** Concatenation

    stdpp declares [String.append] [simpl never]; these equations replace
    [simpl] on concatenations. *)

Lemma str_app_nil_l (s : string) : (EmptyString ++ s)%string = s.
Proof. reflexivity. Qed.

Lemma str_app_cons (c : ascii) (s t : string) : (String c s ++ t)%string = String c (s ++ t).
Proof. reflexivity. Qed.

Lemma str_app_nil_r (s : string) : (s ++ EmptyString)%string = s.
Proof. induction s as [|c s IH]; [done|]. by rewrite str_app_cons, IH. Qed.

Lemma str_app_inv_l (p x y : string) : (p ++ x)%string = (p ++ y)%string -> x = y.
Proof. induction p as [|c p IH]; [done|]. rewrite !str_app_cons. intros [= H]. by apply IH. Qed.

Lemma str_app_assoc (s t u : string) : (s ++ t ++ u)%string = ((s ++ t) ++ u)%string.
Proof. induction s as [|c s IH]; [done|]. by rewrite !str_app_cons, IH. Qed.

#[export] Hint Rewrite str_app_nil_l str_app_cons str_app_nil_r : bot_simpl.

(** ** Substring search *)

Lemma prefix_spec (p s : string) :
  prefix p s = true <-> exists r, s = (p ++ r)%string.
Proof.
  revert s. induction p as [|a p IH]; intros [|b s]; simpl.
  - split; eauto.
  - split; eauto.
  - split; [done|]. intros [r Hr]. discriminate.
  - destruct (ascii_dec a b) as [->|Hne].
    + rewrite IH. split.
      * intros [r ->]. by exists r.
      * intros [r Hr]. exists r. rewrite str_app_cons in Hr. by injection Hr.
    + split; [done|]. intros [r Hr]. rewrite str_app_cons in Hr. congruence.
Qed.

(** [n in h] holds exactly when [h] splits around an occurrence of [n]. *)
Lemma contains_spec (n h : string) :
  contains n h = true <-> exists a b, h = (a ++ n ++ b)%string.
Proof.
  induction h as [|c h IH]; cbn [contains]; rewrite orb_true_iff, prefix_spec.
  - split.
    + intros [[r Hr]|]; [|done]. exists EmptyString, r. done.
    + intros [[|x a] [b Hb]]; [left; eauto|discriminate].
  - rewrite IH. split.
    + intros [[r Hr]|[a [b Hb]]].
      * exists EmptyString, r. done.
      * exists (String c a), b. rewrite str_app_cons. congruence.
    + intros [[|x a] [b Hb]].
      * left. eauto.
      * right. exists a, b. rewrite str_app_cons in Hb. congruence.
Qed.

Lemma contains_any_spec (ws : list string) (s : string) :
  contains_any ws s = true <-> exists w, In w ws /\ contains w s = true.
Proof. apply existsb_exists. Qed.

(** ** Case folding *)

Lemma lower_app (s t : string) : lower (s ++ t) = (lower s ++ lower t)%string.
Proof. induction s as [|c s IH]; [done|]. rewrite str_app_cons. cbn [lower]. by rewrite IH, str_app_cons. Qed.

Lemma is_upper_lower_char (c : ascii) : is_upper (lower_char c) = false.
Proof.
  destruct c as [b0 b1 b2 b3 b4 b5 b6 b7].
  destruct b0, b1, b2, b3, b4, b5, b6, b7; reflexivity.
Qed.

Lemma lower_char_idem (c : ascii) : lower_char (lower_char c) = lower_char c.
Proof. unfold lower_char at 1. by rewrite is_upper_lower_char. Qed.

(** [s.lower().lower() == s.lower()] *)
Lemma lower_idem (s : string) : lower (lower s) = lower s.
Proof. induction s as [|c s IH]; simpl; [done|]. by rewrite lower_char_idem, IH. Qed.

#[export] Hint Rewrite lower_app lower_idem : bot_simpl.

(** ** [split] and [join] *)

(** [s.split(sep)] never returns an empty list. *)
Lemma split_on_nonempty (sep : ascii) (s : string) : split_on sep s <> [].
Proof.
  destruct s as [|c s]; simpl; [done|].
  destruct (Ascii.eqb c sep); [done|]. by destruct (split_on sep s).
Qed.

(** [sep.join(s.split(sep)) == s] *)
Lemma join_split (sep : ascii) (s : string) : join sep (split_on sep s) = s.
Proof.
  induction s as [|c s IH]; [done|]. cbn [split_on].
  pose proof (split_on_nonempty sep s) as Hne.
  destruct (split_on sep s) as [|p [|q ps]]; [done| |];
    destruct (Ascii.eqb_spec c sep) as [->|Hc]; cbn [join] in *;
    rewrite ?str_app_nil_l, ?str_app_cons; congruence.
Qed.


(** ** Printing and reading integers *)

Lemma digit_val_of_digit (d : Z) : 0 <= d < 10 -> digit_val (ascii_of_digit d) = d.
Proof.
  intros Hd. unfold digit_val, ascii_of_digit, code.
  rewrite N_ascii_embedding by lia. lia.
Qed.

Lemma int_of_digits_snoc (l : list ascii) (c : ascii) :
  int_of_digits (string_of_list_ascii (l ++ [c]))
  = 10 * int_of_digits (string_of_list_ascii l) + digit_val c.
Proof.
  unfold int_of_digits. rewrite !list_ascii_of_string_of_list_ascii.
  by rewrite fold_left_app.
Qed.

Lemma div10_lt (n P : Z) : 0 <= n < 2 * P -> n / 10 < P.
Proof.
  intros. pose proof (Z.div_mod n 10 ltac:(lia)).
  pose proof (Z.mod_pos_bound n 10 ltac:(lia)). lia.
Qed.

(** With [fuel] bits of room, [digits_rev] reads back to [n]. *)
Lemma digits_rev_correct (fuel : nat) (n : Z) :
  0 <= n < 2 ^ Z.of_nat fuel ->
  int_of_digits (string_of_list_ascii (rev (digits_rev fuel n))) = n.
Proof.
  revert n. induction fuel as [|f IH]; intros n Hn.
  - simpl in Hn. replace n with 0 by lia. reflexivity.
  - rewrite Nat2Z.inj_succ, Z.pow_succ_r in Hn by lia.
    cbn [digits_rev rev]. rewrite int_of_digits_snoc.
    pose proof (Z.mod_pos_bound n 10 ltac:(lia)).
    rewrite digit_val_of_digit by lia.
    destruct (Z.eqb_spec (n / 10) 0) as [Hq|Hq].
    + cbn. pose proof (Z.div_mod n 10 ltac:(lia)). rewrite Hq in *. lia.
    + rewrite IH by (split; [apply Z.div_pos; lia|by apply div10_lt]).
      pose proof (Z.div_mod n 10 ltac:(lia)). lia.
Qed.

(** [int(str(n)) == n] for [n >= 0]: [digit_fuel] is enough fuel. *)
Lemma digit_fuel_bound (n : Z) : 0 <= n -> n < 2 ^ Z.of_nat (digit_fuel n).
Proof.
  intros Hn. unfold digit_fuel. rewrite Nat2Z.inj_succ, Z2Nat.id by apply Z.log2_nonneg.
  destruct (Z.eq_dec n 0) as [->|Hn0]; [done|].
  apply Z.log2_spec. lia.
Qed.

Lemma int_of_str_nonneg (n : Z) : 0 <= n -> int_of_digits (str_nonneg n) = n.
Proof.
  intros Hn. apply digits_rev_correct. split; [done|]. by apply digit_fuel_bound.
Qed.

Lemma group_rev_step (a b c d : ascii) (rest : list ascii) :
  group_rev (a :: b :: c :: d :: rest) = [a; b; c; ","%char] ++ group_rev (d :: rest).
Proof. reflexivity. Qed.

(** ** Slicing and character runs *)

Lemma str_take_drop (n : nat) (s : string) : (str_take n s ++ str_drop n s)%string = s.
Proof.
  revert s. induction n as [|n IH]; intros [|c s]; try done.
  cbn [str_take str_drop]. by rewrite str_app_cons, IH.
Qed.

Lemma take_drop_while (p : ascii -> bool) (s : string) :
  (take_while p s ++ drop_while p s)%string = s.
Proof.
  induction s as [|c s IH]; [done|]. cbn [take_while drop_while].
  destruct (p c); [by rewrite str_app_cons, IH|done].
Qed.

Lemma str_take_drop_while (p : ascii -> bool) (s : string) :
  str_take (String.length (take_while p s)) s = take_while p s /\
  str_drop (String.length (take_while p s)) s = drop_while p s.
Proof.
  induction s as [|c s IH]; [done|]. cbn [take_while drop_while].
  destruct (p c); [|done]. cbn [String.length str_take str_drop].
  destruct IH as [-> ->]. done.
Qed.

(** The first character left by [drop_while p] fails [p]. *)
Lemma drop_while_head (p : ascii -> bool) (s : string) (c : ascii) (t : string) :
  drop_while p s = String c t -> p c = false.
Proof.
  induction s as [|d s IH]; [done|]. cbn [drop_while].
  destruct (p d) eqn:E; [done|]. intros [= -> _]. done.
Qed.

Lemma take_while_all (p : ascii -> bool) (s : string) (c : ascii) :
  In c (list_ascii_of_string (take_while p s)) -> p c = true.
Proof.
  induction s as [|d s IH]; [done|]. cbn [take_while].
  destruct (p d) eqn:E; [|done]. intros [<-|Hin]; auto.
Qed.

Lemma str_all_app (p : ascii -> bool) (s t : string) :
  str_all p (s ++ t) = str_all p s && str_all p t.
Proof.
  induction s as [|c s IH]; [done|]. rewrite str_app_cons. cbn [str_all].
  by rewrite IH, andb_assoc.
Qed.

Lemma str_all_take_while (p : ascii -> bool) (s : string) : str_all p (take_while p s) = true.
Proof.
  induction s as [|c s IH]; [done|]. cbn [take_while].
  destruct (p c) eqn:E; [|done]. cbn [str_all]. by rewrite E, IH.
Qed.

(** A prefix of length [k] of a [p]-run is a [p]-run. *)
Lemma str_all_take_le (p : ascii -> bool) (s : string) (k : nat) :
  (k <= String.length (take_while p s))%nat -> str_all p (str_take k s) = true.
Proof.
  revert k. induction s as [|c s IH]; intros [|k] Hk; try done.
  cbn [take_while] in Hk. cbn [str_take str_all].
  destruct (p c) eqn:E; [|simpl in Hk; lia].
  cbn [String.length] in Hk. rewrite IH; [done|lia].
Qed.

(** Inside a [p]-run, [s[k:]] starts with a character satisfying [p]. *)
Lemma str_drop_in_run (p : ascii -> bool) (s : string) (k : nat) :
  (k < String.length (take_while p s))%nat ->
  exists c t, str_drop k s = String c t /\ p c = true.
Proof.
  revert k. induction s as [|c s IH]; intros k Hk; [simpl in Hk; lia|].
  cbn [take_while] in Hk. destruct (p c) eqn:E; [|simpl in Hk; lia].
  destruct k as [|k]; [by exists c, s|].
  cbn [String.length] in Hk. cbn [str_drop]. apply IH. lia.
Qed.

(** A [p]-run is at least as long as any [p]-prefix. *)
Lemma take_while_length_ge (p : ascii -> bool) (d r : string) :
  str_all p d = true ->
  (String.length d <= String.length (take_while p (d ++ r)))%nat /\
  str_drop (String.length d) (d ++ r) = r.
Proof.
  induction d as [|c d IH]; intros Hd; [split; [cbn; lia|done]|].
  cbn [str_all] in Hd. apply andb_prop in Hd as [Hc Hd].
  rewrite str_app_cons. cbn [take_while String.length str_drop]. rewrite Hc.
  cbn [String.length]. destruct (IH Hd). split; [lia|done].
Qed.

Lemma str_drop_app (s t : string) : str_drop (String.length s) (s ++ t) = t.
Proof. induction s as [|c s IH]; [done|]. by rewrite str_app_cons. Qed.

Lemma str_take_app (s t : string) : str_take (String.length s) (s ++ t) = s.
Proof. induction s as [|c s IH]; [done|]. rewrite str_app_cons. cbn. by rewrite IH. Qed.

Lemma prefix_cons_inv (a b : ascii) (s t : string) :
  prefix (String a s) (String b t) = true -> a = b.
Proof. cbn. by destruct (ascii_dec a b). Qed.

Lemma prefix_app (p r : string) : prefix p (p ++ r) = true.
Proof. apply prefix_spec. eauto. Qed.

#[export] Hint Resolve str_all_take_while prefix_app : bot.

Lemma digit_not_space (c : ascii) : is_digit c = true -> is_space c = false.
Proof. destruct c as [[] [] [] [] [] [] [] []]; vm_compute; congruence. Qed.

Lemma str_length_zero (s : string) : String.length s = 0%nat -> s = EmptyString.
Proof. by destruct s. Qed.

Lemma str_app_eq_nil (a b : string) : (a ++ b)%string = EmptyString -> b = EmptyString.
Proof. by destruct a. Qed.

Lemma take_while_length_le (p : ascii -> bool) (s : string) :
  (String.length (take_while p s) <= String.length s)%nat.
Proof.
  induction s as [|c s IH]; cbn [take_while]; [done|].
  destruct (p c); cbn [String.length]; lia.
Qed.

Lemma str_take_length (k : nat) (s : string) :
  (k <= String.length s)%nat -> String.length (str_take k s) = k.
Proof.
  revert s. induction k as [|k IH]; intros [|c s] Hk; cbn in *; try lia.
  rewrite IH; lia.
Qed.

Lemma digit_val_range (c : ascii) : is_digit c = true -> 0 <= digit_val c <= 9.
Proof.
  unfold is_digit, digit_val. intros H. apply andb_prop in H as [H1 H2].
  apply N.leb_le in H1, H2. lia.
Qed.

Lemma digits_fold_nonneg (s : string) (acc : Z) :
  0 <= acc -> str_all is_digit s = true ->
  0 <= fold_left (fun acc c => 10 * acc + digit_val c) (list_ascii_of_string s) acc.
Proof.
  revert acc. induction s as [|c s IH]; intros acc Hacc Hs; [done|].
  cbn [str_all] in Hs. apply andb_prop in Hs as [Hc Hs].
  cbn [list_ascii_of_string fold_left]. apply IH; [|done].
  pose proof (digit_val_range c Hc). lia.
Qed.

(** [int(g) >= 0] for a run of digits [g]. *)
Lemma int_of_digits_nonneg (g : string) : str_all is_digit g = true -> 0 <= int_of_digits g.
Proof. intros Hg. by apply digits_fold_nonneg. Qed.

Lemma str_concat_app (l1 l2 : list string) :
  str_concat (l1 ++ l2) = (str_concat l1 ++ str_concat l2)%string.
Proof.
  induction l1 as [|x l1 IH]; [done|]. cbn [str_concat app].
  by rewrite IH, str_app_assoc.
Qed.

(** ** Digits of [str(n)] *)

Lemma is_digit_of_digit (d : Z) : 0 <= d < 10 -> is_digit (ascii_of_digit d) = true.
Proof.
  intros Hd. unfold is_digit, ascii_of_digit, code.
  rewrite N_ascii_embedding by lia. apply andb_true_intro. split; apply N.leb_le; lia.
Qed.

Lemma digits_rev_digits (fuel : nat) (n : Z) :
  0 <= n -> Forall (fun c => is_digit c = true) (digits_rev fuel n).
Proof.
  revert n. induction fuel as [|f IH]; intros n Hn; cbn [digits_rev]; [constructor|].
  constructor.
  - apply is_digit_of_digit. apply Z.mod_pos_bound. lia.
  - destruct (n / 10 =? 0); [constructor|]. apply IH. apply Z.div_pos; lia.
Qed.

Lemma digits_rev_length (fuel : nat) (n : Z) (k : nat) :
  0 <= n < 10 ^ Z.of_nat k -> (1 <= k)%nat -> (List.length (digits_rev fuel n) <= k)%nat.
Proof.
  revert n k. induction fuel as [|f IH]; intros n k Hn Hk; cbn [digits_rev List.length]; [lia|].
  destruct (Z.eqb_spec (n / 10) 0) as [|Hq]; [cbn; lia|].
  assert (Hk2 : (2 <= k)%nat).
  { destruct (Nat.le_gt_cases 2 k) as [|Hlt]; [done|]. exfalso. replace k with 1%nat in Hn by lia.
    apply Hq. apply Z.div_small. cbn in Hn. lia. }
  assert (n / 10 < 10 ^ Z.of_nat (k - 1)).
  { apply Z.div_lt_upper_bound; [lia|].
    replace (Z.of_nat k) with (Z.of_nat (k - 1) + 1) in Hn by lia.
    rewrite Z.pow_add_r in Hn by lia. lia. }
  specialize (IH (n / 10) (k - 1)%nat ltac:(split; [apply Z.div_pos|]; lia) ltac:(lia)). lia.
Qed.

(** A number of at least [10^k] has more than [k] digits, when the fuel
    allows them. *)
Lemma digits_rev_length_ge (fuel : nat) (n : Z) (k : nat) :
  10 ^ Z.of_nat k <= n -> (k < fuel)%nat -> (S k <= List.length (digits_rev fuel n))%nat.
Proof.
  revert n fuel. induction k as [|k IH]; intros n fuel Hn Hk;
    (destruct fuel as [|f]; [lia|]); cbn [digits_rev List.length]; [lia|].
  rewrite Nat2Z.inj_succ, Z.pow_succ_r in Hn by lia.
  assert (Hq : 10 ^ Z.of_nat k <= n / 10) by (apply Z.div_le_lower_bound; lia).
  pose proof (Z.pow_pos_nonneg 10 (Z.of_nat k) ltac:(lia) ltac:(lia)).
  destruct (Z.eqb_spec (n / 10) 0) as [Hz|_]; [lia|].
  specialize (IH (n / 10) f Hq ltac:(lia)). lia.
Qed.

Lemma str_all_of_list (p : ascii -> bool) (l : list ascii) :
  Forall (fun c => p c = true) l -> str_all p (string_of_list_ascii l) = true.
Proof. induction 1; [done|]. cbn. by rewrite H, IHForall. Qed.

Lemma str_length_of_list (l : list ascii) : String.length (string_of_list_ascii l) = List.length l.
Proof. induction l; cbn; congruence. Qed.

(** [str()] is injective on non-negative integers. *)
Lemma str_int_inj (a b : Z) : 0 <= a -> 0 <= b -> str_int a = str_int b -> a = b.
Proof.
  intros Ha Hb. unfold str_int. rewrite !(proj2 (Z.ltb_ge _ _)) by lia. intros H.
  rewrite <- (int_of_str_nonneg a), <- (int_of_str_nonneg b) by done. by rewrite H.
Qed.

Lemma str_nonneg_digits (n : Z) : 0 <= n -> str_all is_digit (str_nonneg n) = true.
Proof.
  intros Hn. unfold str_nonneg. apply str_all_of_list.
  apply Forall_rev. by apply digits_rev_digits.
Qed.

Lemma str_nonneg_length (n : Z) (k : nat) :
  0 <= n < 10 ^ Z.of_nat k -> (1 <= k)%nat -> (String.length (str_nonneg n) <= k)%nat.
Proof.
  intros Hn Hk. unfold str_nonneg. rewrite str_length_of_list, length_rev.
  by apply digits_rev_length.
Qed.

Lemma digits_fold_zeros (j : nat) (s : string) :
  int_of_digits (String.concat EmptyString (repeat "0"%string j) ++ s) = int_of_digits s.
Proof.
  induction j as [|j IH]; [done|].
  destruct j as [|j]; [done|].
  change (String.concat EmptyString (repeat "0"%string (S (S j))))
    with ("0" ++ String.concat EmptyString (repeat "0"%string (S j)))%string.
  rewrite <- str_app_assoc. rewrite <- IH. reflexivity.
Qed.

(** ** [strip] of a run of digits *)

Lemma str_all_forallb (p : ascii -> bool) (s : string) :
  str_all p s = forallb p (list_ascii_of_string s).
Proof. induction s as [|c s IH]; cbn; congruence. Qed.

Lemma str_rev_all (p : ascii -> bool) (s : string) : str_all p (str_rev s) = str_all p s.
Proof.
  unfold str_rev. rewrite !str_all_forallb, list_ascii_of_string_of_list_ascii.
  induction (list_ascii_of_string s) as [|c l IH]; [done|].
  cbn [rev forallb]. rewrite List.forallb_app, IH. cbn. by rewrite andb_true_r, andb_comm.
Qed.

Lemma str_rev_involutive (s : string) : str_rev (str_rev s) = s.
Proof.
  unfold str_rev. rewrite list_ascii_of_string_of_list_ascii, rev_involutive.
  apply string_of_list_ascii_of_string.
Qed.

Lemma drop_spaces_digits (s : string) : str_all is_digit s = true -> drop_while is_space s = s.
Proof.
  destruct s as [|c t]; [done|]. cbn [str_all drop_while].
  intros H. apply andb_prop in H as [Hc _]. by rewrite (digit_not_space c Hc).
Qed.

(** [s.strip() == s] for a run of digits. *)
Lemma strip_digits (s : string) : str_all is_digit s = true -> strip s = s.
Proof.
  intros Hs. unfold strip. rewrite (drop_spaces_digits s Hs).
  rewrite drop_spaces_digits by (by rewrite str_rev_all).
  apply str_rev_involutive.
Qed.


(** ** The text of [str(n)] and [f"{n:,}"] *)

Lemma string_of_list_ascii_app (l1 l2 : list ascii) :
  string_of_list_ascii (l1 ++ l2) = (string_of_list_ascii l1 ++ string_of_list_ascii l2)%string.
Proof. induction l1 as [|c l1 IH]; [done|]. cbn [app string_of_list_ascii]. by rewrite IH, str_app_cons. Qed.

(** With enough fuel, the last digit produced (the most significant one)
    is not a zero, for [n > 0]. *)
Lemma digits_rev_last (fuel : nat) (n : Z) :
  0 < n < 2 ^ Z.of_nat fuel -> exists l d, digits_rev fuel n = l ++ [ascii_of_digit d] /\ 0 < d < 10.
Proof.
  revert n. induction fuel as [|f IH]; intros n Hn; [cbn in Hn; lia|].
  rewrite Nat2Z.inj_succ, Z.pow_succ_r in Hn by lia.
  pose proof (Z.div_mod n 10 ltac:(lia)). pose proof (Z.mod_pos_bound n 10 ltac:(lia)).
  cbn [digits_rev]. destruct (Z.eqb_spec (n / 10) 0) as [Hq|Hq].
  - exists [], (n mod 10). split; [done|lia].
  - destruct (IH (n / 10)) as (l & d & Hl & Hd).
    { split; [|by apply div10_lt; lia]. pose proof (Z.div_pos n 10 ltac:(lia) ltac:(lia)). lia. }
    exists (ascii_of_digit (n mod 10) :: l), d. by rewrite Hl.
Qed.

Lemma str_nonneg_rev (n : Z) : rev (list_ascii_of_string (str_nonneg n)) = digits_rev (digit_fuel n) n.
Proof. unfold str_nonneg. by rewrite list_ascii_of_string_of_list_ascii, rev_involutive. Qed.

Lemma str_int_nonneg (n : Z) : 0 <= n -> str_int n = str_nonneg n.
Proof. intros Hn. unfold str_int. by rewrite (proj2 (Z.ltb_ge n 0)) by done. Qed.

(** C38: [str(n)] is the canonical decimal text of [n]: a minus sign for
    a negative [n], then a run of digits whose value is [|n|] and which
    is "0" or starts with a non-zero digit.  These conditions determine
    the text, so [str_int] gives the whole result of CPython's
    [int.__str__]. *)
Theorem str_int_canonical (n : Z) :
  exists s, str_int n = ((if Z.ltb n 0 then "-" else "") ++ s)%string
  /\ str_all is_digit s = true /\ int_of_digits s = Z.abs n
  /\ (s = "0"%string \/ exists c t, s = String c t /\ c <> "0"%char).
Proof.
  exists (str_nonneg (Z.abs n)). split.
  { unfold str_int. destruct (Z.ltb_spec n 0); [by rewrite Z.abs_neq by lia|by rewrite Z.abs_eq]. }
  pose proof (Z.abs_nonneg n) as Ha.
  split_and!; [by apply str_nonneg_digits|by apply int_of_str_nonneg|].
  destruct (Z.eq_dec (Z.abs n) 0) as [->|Hn]; [by left|right].
  destruct (digits_rev_last (digit_fuel (Z.abs n)) (Z.abs n)) as (l & d & Hl & Hd).
  { split; [lia|by apply digit_fuel_bound]. }
  unfold str_nonneg. rewrite Hl, rev_app_distr. cbn [rev app string_of_list_ascii].
  eexists _, _. split; [reflexivity|]. intros Hc. apply (f_equal digit_val) in Hc.
  rewrite digit_val_of_digit in Hc by lia. change (digit_val "0"%char) with 0 in Hc. lia.
Qed.

(** [sep.join(gs + [h])] *)
Lemma join_snoc (sep : ascii) (g : string) (gs : list string) (h : string) :
  join sep (g :: gs ++ [h]) = (join sep (g :: gs) ++ String sep h)%string.
Proof.
  revert g. induction gs as [|g' gs IH]; intros g; [done|]. cbn [app].
  change (join sep (g :: g' :: gs ++ [h])) with (g ++ String sep (join sep (g' :: gs ++ [h])))%string.
  change (join sep (g :: g' :: gs)) with (g ++ String sep (join sep (g' :: gs)))%string.
  by rewrite IH, <- str_app_assoc, str_app_cons.
Qed.

(** The groups of [group_rev] on a reversed digit list: a leading group
    of one to three characters, then groups of exactly three. *)
Lemma group_rev_groups (l : list ascii) :
  l <> [] ->
  exists g gs, string_of_list_ascii (rev (group_rev l)) = join "," (g :: gs)
  /\ (1 <= String.length g <= 3)%nat /\ Forall (fun h => String.length h = 3%nat) gs
  /\ str_concat (g :: gs) = string_of_list_ascii (rev l).
Proof.
  remember (List.length l) as k eqn:Hk. revert l Hk.
  induction k as [k IH] using lt_wf_ind; intros l Hk Hne.
  destruct l as [|a [|b [|c [|d rest]]]]; [done| | | |].
  1-3: eexists _, []; split_and!; [reflexivity|cbn; lia..|constructor|cbn [str_concat]; apply str_app_nil_r].
  destruct (IH (List.length (d :: rest)) ltac:(cbn in *; lia) (d :: rest) eq_refl ltac:(done))
    as (g & gs & H1 & H2 & H3 & H4).
  exists g, (gs ++ [String c (String b (String a EmptyString))]).
  rewrite group_rev_step, rev_app_distr, string_of_list_ascii_app, H1, join_snoc.
  split_and!; [reflexivity|lia|lia|by apply Forall_app; split; [|constructor]|].
  change (g :: gs ++ [?h]) with ((g :: gs) ++ [h]). rewrite str_concat_app, H4.
  replace (rev (a :: b :: c :: d :: rest)) with (rev (d :: rest) ++ [c; b; a])
    by (cbn; by rewrite <- !app_assoc).
  rewrite string_of_list_ascii_app. cbn [str_concat]. by rewrite str_app_nil_r.
Qed.

Lemma group_thousands_str (n : Z) :
  0 <= n ->
  exists g gs, group_thousands (str_nonneg n) = join "," (g :: gs)
  /\ (1 <= String.length g <= 3)%nat /\ Forall (fun h => String.length h = 3%nat) gs
  /\ str_concat (g :: gs) = str_int n.
Proof.
  intros Hn. unfold group_thousands. rewrite str_nonneg_rev.
  destruct (group_rev_groups (digits_rev (digit_fuel n) n)) as (g & gs & H1 & H2 & H3 & H4);
    [unfold digit_fuel; cbn [digits_rev]; congruence|].
  exists g, gs. split_and!; [exact H1|lia|lia|exact H3|]. by rewrite H4, str_int_nonneg.
Qed.

(** C37: [f"{n:,}"] is the text of [str(|n|)] cut into groups from the
    right: a sign for a negative [n], then a first group of one to three
    digits and groups of exactly three, joined by commas. *)
Theorem fmt_thousands_groups (n : Z) :
  exists g gs, fmt_thousands n = ((if Z.ltb n 0 then "-" else "") ++ join "," (g :: gs))%string
  /\ (1 <= String.length g <= 3)%nat /\ Forall (fun h => String.length h = 3%nat) gs
  /\ str_concat (g :: gs) = str_int (Z.abs n).
Proof.
  unfold fmt_thousands. destruct (Z.ltb_spec n 0).
  - rewrite Z.abs_neq by lia. destruct (group_thousands_str (- n)) as (g & gs & H1 & Hg); [lia|].
    exists g, gs. by rewrite H1.
  - rewrite Z.abs_eq by lia. destruct (group_thousands_str n) as (g & gs & H1 & Hg); [lia|].
    exists g, gs. by rewrite H1.
Qed.
