(* ===== verification/PyDict.v ===== *)
(** Python's [dict] as the reporting code uses it: an insertion-ordered
    association list without duplicate keys.  [d[k] = v] replaces the
    value in place when [k] is present and appends otherwise, so
    [d.keys()] lists the keys in first-insertion order.  The dict refines
    a stdpp finite map ([dict_to_map]), and the accumulation loops of the
    dashboard ([d[k] = d.get(k, 0) + x]) are summed up by one lemma. *)

From stdpp Require Import base list gmap.
From Stdlib Require Import ZArith Lia.
From S2P Require Import Prelude.

Section PyDict.
Context {K V : Type} `{EqDecision K}.

Definition dict := list (K * V).

(** [d.get(k)], the value of the (unique) entry for [k]. *)
Fixpoint dict_lookup (k : K) (d : dict) : option V :=
  match d with
  | [] => None
  | (k', v) :: d' => if decide (k = k') then Some v else dict_lookup k d'
  end.

(** [d.get(k, dflt)]. *)
Definition dict_get (d : dict) (k : K) (dflt : V) : V := default dflt (dict_lookup k d).

(** [d[k] = v]. *)
Fixpoint dict_set (d : dict) (k : K) (v : V) : dict :=
  match d with
  | [] => [(k, v)]
  | (k', v') :: d' => if decide (k = k') then (k', v) :: d' else (k', v') :: dict_set d' k v
  end.

Definition dict_keys (d : dict) : list K := map fst d.
Definition dict_values (d : dict) : list V := map snd d.

Lemma dict_lookup_set_eq (d : dict) k v : dict_lookup k (dict_set d k v) = Some v.
Proof.
  induction d as [|[k' v'] d IH]; cbn; [by rewrite decide_True|].
  destruct (decide (k = k')); cbn; [by rewrite decide_True|]. by rewrite decide_False.
Qed.

Lemma dict_lookup_set_ne (d : dict) k k' v :
  k' <> k -> dict_lookup k' (dict_set d k v) = dict_lookup k' d.
Proof.
  intros Hne. induction d as [|[k1 v1] d IH]; cbn; [by rewrite decide_False|].
  destruct (decide (k = k1)) as [->|]; cbn; [by rewrite !decide_False|].
  by destruct (decide (k' = k1)).
Qed.

Lemma dict_lookup_keys (d : dict) k : is_Some (dict_lookup k d) <-> k ∈ dict_keys d.
Proof.
  induction d as [|[k' v'] d IH]; cbn; [split; [by intros []|set_solver]|].
  rewrite elem_of_cons. destruct (decide (k = k')); [naive_solver|].
  rewrite IH. naive_solver.
Qed.

Lemma dict_lookup_In (d : dict) k v :
  NoDup (dict_keys d) -> In (k, v) d <-> dict_lookup k d = Some v.
Proof.
  unfold dict_keys. induction d as [|[k' v'] d IH]; cbn; [naive_solver|].
  intros [Hk Hnd]%NoDup_cons. destruct (decide (k = k')) as [->|Hne].
  - split; [|naive_solver]. intros [[=]|Hin]; [naive_solver|].
    exfalso. apply Hk, list_elem_of_In, (in_map fst _ (k', v) Hin).
  - rewrite <- IH by done. naive_solver.
Qed.

(** Assigning a present key keeps the key order; a new key goes last. *)
Lemma dict_keys_set (d : dict) k v :
  dict_keys (dict_set d k v) = if decide (k ∈ dict_keys d) then dict_keys d else dict_keys d ++ [k].
Proof.
  unfold dict_keys. induction d as [|[k' v'] d IH]; cbn [dict_set map fst]; [done|].
  destruct (decide (k = k')) as [->|Hne]; cbn [map fst].
  - rewrite decide_True; [done|]. by left.
  - rewrite IH. destruct (decide (k ∈ map fst d)), (decide (k ∈ k' :: map fst d));
      rewrite ?elem_of_cons in *; naive_solver.
Qed.

Lemma dict_set_fresh (d : dict) k v : k ∉ dict_keys d -> dict_set d k v = d ++ [(k, v)].
Proof.
  unfold dict_keys. induction d as [|[k' v'] d IH]; cbn; [done|].
  rewrite not_elem_of_cons. intros [Hne Hk]. rewrite decide_False by done. by rewrite IH.
Qed.

Lemma dict_set_NoDup (d : dict) k v : NoDup (dict_keys d) -> NoDup (dict_keys (dict_set d k v)).
Proof.
  intros Hnd. rewrite dict_keys_set. case_decide; [done|].
  apply NoDup_app. split_and!; [done| |by apply NoDup_singleton].
  intros x Hx ->%list_elem_of_singleton. done.
Qed.

(** ** Refinement of a finite map *)
Context `{Countable K}.

Definition dict_to_map (d : dict) : gmap K V := list_to_map d.

Lemma dict_to_map_lookup (d : dict) k : dict_to_map d !! k = dict_lookup k d.
Proof.
  unfold dict_to_map. induction d as [|[k' v'] d IH]; cbn; [by rewrite lookup_empty|].
  destruct (decide (k = k')) as [->|]; [by rewrite lookup_insert_eq|].
  by rewrite lookup_insert_ne.
Qed.

(** [d[k] = v] on the dict is [<[k:=v]>] on the map it denotes. *)
Lemma dict_to_map_set (d : dict) k v : dict_to_map (dict_set d k v) = <[k:=v]> (dict_to_map d).
Proof.
  apply map_eq. intros k'. rewrite dict_to_map_lookup.
  destruct (decide (k' = k)) as [->|Hne].
  - by rewrite dict_lookup_set_eq, lookup_insert_eq.
  - by rewrite dict_lookup_set_ne, lookup_insert_ne, dict_to_map_lookup.
Qed.

End PyDict.

Arguments dict : clear implicits.

(** ** Accumulation loops *)
Section Accumulate.
Context {K A : Type} `{EqDecision K}.

(** [d[k] = d.get(k, 0) + x], and its spelling
    [if k in d: d[k] += x else: d[k] = x]. *)
Definition dict_add (d : dict K Z) (k : K) (x : Z) : dict K Z :=
  dict_set d k (dict_get d k 0 + x).

Definition dict_add_branch (d : dict K Z) (k : K) (x : Z) : dict K Z :=
  match dict_lookup k d with
  | Some v => dict_set d k (v + x)
  | None => dict_set d k x
  end.

Lemma dict_add_branch_eq d k x : dict_add_branch d k x = dict_add d k x.
Proof. unfold dict_add_branch, dict_add, dict_get. by destruct (dict_lookup k d). Qed.

(** The loop [for a in l: d[key(a)] = d.get(key(a), 0) + val(a)]. *)
Definition accumulate (key : A -> K) (val : A -> Z) (l : list A) (d : dict K Z) : dict K Z :=
  fold_left (fun d a => dict_add d (key a) (val a)) l d.

Lemma accumulate_branch key val l d :
  fold_left (fun d a => dict_add_branch d (key a) (val a)) l d = accumulate key val l d.
Proof.
  unfold accumulate. revert d. induction l as [|a l IH]; intros d; cbn; [done|].
  by rewrite dict_add_branch_eq, IH.
Qed.

Lemma accumulate_app key val l1 l2 d :
  accumulate key val (l1 ++ l2) d = accumulate key val l2 (accumulate key val l1 d).
Proof. unfold accumulate. apply fold_left_app. Qed.

Lemma dict_get_add_eq d k x : dict_get (dict_add d k x) k 0 = dict_get d k 0 + x.
Proof. unfold dict_add, dict_get at 1. by rewrite dict_lookup_set_eq. Qed.

Lemma dict_get_add_ne d k k' x : k' <> k -> dict_get (dict_add d k x) k' 0 = dict_get d k' 0.
Proof. intros. unfold dict_add, dict_get at 1. by rewrite dict_lookup_set_ne. Qed.

(** Each key ends with its start value plus the values of its elements. *)
Lemma accumulate_get key val l d k :
  dict_get (accumulate key val l d) k 0
  = dict_get d k 0 + sumZ val (List.filter (fun a => bool_decide (key a = k)) l).
Proof.
  unfold accumulate. revert d. induction l as [|a l IH]; intros d;
    cbn [fold_left List.filter]; autorewrite with bot_simpl; [lia|].
  rewrite IH. case_bool_decide as Hk; autorewrite with bot_simpl.
  - subst. rewrite dict_get_add_eq. lia.
  - rewrite dict_get_add_ne by done. lia.
Qed.

(** The keys are those of the start dict, then the new keys in order of
    first occurrence. *)
Lemma accumulate_keys key val l d k :
  k ∈ dict_keys (accumulate key val l d) <-> k ∈ dict_keys d \/ exists a, In a l /\ key a = k.
Proof.
  unfold accumulate. revert d. induction l as [|a l IH]; intros d; cbn [fold_left]; [naive_solver|].
  rewrite IH.
  unfold dict_add. rewrite dict_keys_set.
  case_decide; rewrite ?elem_of_app, ?list_elem_of_singleton; naive_solver.
Qed.

Lemma accumulate_NoDup key val l d :
  NoDup (dict_keys d) -> NoDup (dict_keys (accumulate key val l d)).
Proof.
  revert d. induction l as [|a l IH]; intros d Hd; [done|].
  apply IH. by apply dict_set_NoDup.
Qed.

Lemma sumZ_dict_set (d : dict K Z) k v :
  sumZ snd (dict_set d k v) = sumZ snd d - dict_get d k 0 + v.
Proof.
  unfold dict_get. induction d as [|[k' v'] d IH]; cbn [dict_set dict_lookup];
    autorewrite with bot_simpl; cbn; [lia|].
  destruct (decide (k = k')); autorewrite with bot_simpl; cbn; [lia|].
  rewrite IH. lia.
Qed.

(** The values of the dict always sum to the start total plus the sum
    of the accumulated values. *)
Lemma accumulate_sum key val l d :
  sumZ snd (accumulate key val l d) = sumZ snd d + sumZ val l.
Proof.
  unfold accumulate. revert d. induction l as [|a l IH]; intros d;
    cbn [fold_left]; autorewrite with bot_simpl; [lia|].
  rewrite IH.
  unfold dict_add. rewrite sumZ_dict_set. lia.
Qed.

End Accumulate.
