(* ===== verification/MessageProcessor.v ===== *)
(** The intent and pricing engine: [src/utils/message_processor.py],
    class [MessageProcessor].  [process_message] lower-cases the text,
    tries the greeting, order and status keyword tests in that order,
    and for an order extracts (item, quantity, price) triples from the
    menu with the regular expression [(\d+)\s*<item>], then drafts a
    priced quote.  The regular expression is modelled by a backtracking
    matcher that follows [re]'s greedy, leftmost semantics. *)

From stdpp Require Import base list strings.
From Stdlib Require Import String Ascii ZArith Lia.
From S2P Require Import Prelude PyStr.

Open Scope Z_scope.

Module MessageProcessor.

(** ** State: the three attributes set by [__init__] *)

Record t := mk {
  greeting_keywords : list string;
  order_keywords : list string;
  (** [self.menu_items]: a dict, kept in insertion order *)
  menu_items : list (string * Z)
}.

Definition init : t := {|
  greeting_keywords := ["halo"; "hai"; "hello"; "hi"; "selamat"]%string;
  order_keywords := ["pesan"; "order"; "mau"; "ingin"; "beli"]%string;
  menu_items := [("nasi goreng", 25000); ("ayam bakar", 35000);
                 ("mie goreng", 20000); ("es teh", 5000); ("es jeruk", 6000)]%string
|}.

(** ** [re.search(r'(\d+)\s*' + re.escape(item), message)]

    At one start position the engine takes the longest run of digits for
    [\d+], then the longest run of white space for [\s*], and backtracks
    (fewer spaces first, then fewer digits) until [item] follows. *)

(** [\s*] with at most [j] characters, longest first, then [item]. *)
Fixpoint try_spaces (item s : string) (j : nat) : bool :=
  prefix item (str_drop j s) ||
  match j with
  | O => false
  | S j' => try_spaces item s j'
  end.

(** [\s*item] matched at the start of [rest]. *)
Definition spaces_then_item (item rest : string) : bool :=
  try_spaces item rest (String.length (take_while is_space rest)).

(** [\d+] with at most [k] characters, longest first; the number of
    digits of the first successful choice. *)
Fixpoint try_digits (item s : string) (k : nat) : option nat :=
  match k with
  | O => None
  | S k' => if spaces_then_item item (str_drop k s) then Some k else try_digits item s k'
  end.

(** The match of [(\d+)\s*item] starting exactly at [s], as group 1. *)
Definition match_at (item s : string) : option string :=
  match try_digits item s (String.length (take_while is_digit s)) with
  | Some k => Some (str_take k s)
  | None => None
  end.

(** [re.search]: the leftmost start position that matches. *)
Fixpoint re_search (item s : string) : option string :=
  match match_at item s with
  | Some g => Some g
  | None =>
      match s with
      | EmptyString => None
      | String _ t => re_search item t
      end
  end.

(** The same match without backtracking: all leading digits, all
    following spaces, then [item]. *)
Definition match_at_greedy (item s : string) : option string :=
  let d := take_while is_digit s in
  match d with
  | EmptyString => None
  | String _ _ =>
      if prefix item (drop_while is_space (drop_while is_digit s)) then Some d else None
  end.

(** ** Replies *)

Definition nl : string := String "010"%char EmptyString.

(** [_generate_greeting_response]: the sender is not used. *)
Definition generate_greeting_response (sender : string) : string :=
  "Halo! Terima kasih telah menghubungi kami. Ada yang bisa saya bantu untuk dipesan?".

Definition status_reply : string :=
  "Terima kasih telah menghubungi kami. Untuk mengecek status pesanan, silakan berikan nomor pesanan Anda.".

Definition default_reply : string :=
  "Terima kasih telah menghubungi kami. Silakan pesan dengan menyebutkan menu yang Anda inginkan.".

Definition unknown_order_reply : string :=
  "Maaf, saya tidak mengerti pesanan Anda. Silakan sebutkan menu yang ingin dipesan. Menu kami: nasi goreng (Rp 25,000), ayam bakar (Rp 35,000), mie goreng (Rp 20,000), es teh (Rp 5,000), es jeruk (Rp 6,000).".

Definition confirm_prompt : string :=
  "Silakan konfirmasi dengan mengetik 'ya' untuk memesan atau 'tidak' untuk membatalkan.".

Definition quote_header : string := ("Terima kasih atas pesanan Anda:" ++ nl)%string.

(** ** [_process_order] *)

(** One found item: (item, quantity, price). *)
Definition found := (string * Z * Z)%type.

(** [quantity = int(match.group(1)) if match else 1] *)
Definition quantity_of (item message : string) : Z :=
  match re_search item message with
  | Some g => int_of_digits g
  | None => 1
  end.

(** The first loop of [_process_order]: [found_items.append] for every
    menu entry whose name occurs in the message, in menu order. *)
Definition extract_items (mp : t) (message : string) : list found :=
  fold_left (fun acc '(item, price) =>
               if contains item message
               then acc ++ [(item, quantity_of item message, price)]
               else acc)
            (menu_items mp) [].

(** [f"- {quantity} {item} @ Rp {price:,} = Rp {item_total:,}\n"] *)
Definition quote_line (it : found) : string :=
  let '(item, quantity, price) := it in
  ("- " ++ str_int quantity ++ " " ++ item ++ " @ Rp " ++ fmt_thousands price
   ++ " = Rp " ++ fmt_thousands (quantity * price) ++ nl)%string.

(** The second loop: [response += ...; total += item_total]. *)
Definition quote_step (acc : string * Z) (it : found) : string * Z :=
  let '(response, total) := acc in
  let '(_, quantity, price) := it in
  ((response ++ quote_line it)%string, total + quantity * price).

Definition process_order (mp : t) (message sender : string) : string :=
  match extract_items mp message with
  | [] => unknown_order_reply
  | found_items =>
      let '(response, total) := fold_left quote_step found_items (quote_header, 0) in
      (response ++ nl ++ "Total: Rp " ++ fmt_thousands total ++ nl ++ confirm_prompt)%string
  end.

(** ** [process_message] *)

Definition process_message (mp : t) (message sender : string) : string :=
  let message_lower := lower message in
  if contains_any (greeting_keywords mp) message_lower then generate_greeting_response sender
  else if contains_any (order_keywords mp) message_lower then process_order mp message_lower sender
  else if contains "status" message_lower || contains "kapan" message_lower then status_reply
  else default_reply.

(** ** Abstract specification

    The engine classifies a message into one of four intents, first
    match wins, and a quote is a list of priced lines with their sum. *)

Inductive intent := Greeting | OrderIntent | StatusInquiry | Unknown.

Definition classify (mp : t) (message : string) : intent :=
  let m := lower message in
  if contains_any (greeting_keywords mp) m then Greeting
  else if contains_any (order_keywords mp) m then OrderIntent
  else if contains "status" m || contains "kapan" m then StatusInquiry
  else Unknown.

Definition line_total (it : found) : Z := let '(_, q, p) := it in q * p.

Definition render_quote (items : list found) : string :=
  (quote_header ++ str_concat (map quote_line items) ++ nl ++ "Total: Rp "
   ++ fmt_thousands (sumZ line_total items) ++ nl ++ confirm_prompt)%string.

(** What the engine promises for each intent. *)
Definition respond_spec (mp : t) (message sender : string) : string :=
  match classify mp message with
  | Greeting => generate_greeting_response sender
  | OrderIntent =>
      match extract_items mp (lower message) with
      | [] => unknown_order_reply
      | items => render_quote items
      end
  | StatusInquiry => status_reply
  | Unknown => default_reply
  end.

(** ** The regular expression *)

(** Python's notion of a match of [(\d+)\s*item] at the start of [s]
    with group 1 equal to [g]. *)
Definition regex_match (item s g : string) : Prop :=
  exists w r, s = (g ++ w ++ item ++ r)%string /\ g <> EmptyString /\
              str_all is_digit g = true /\ str_all is_space w = true.

Lemma try_spaces_spec (item s : string) (j : nat) :
  try_spaces item s j = true <->
  exists j', (j' <= j)%nat /\ prefix item (str_drop j' s) = true.
Proof.
  induction j as [|j IH]; cbn [try_spaces]; rewrite orb_true_iff.
  - split.
    + intros [H|H]; [|done]. exists 0%nat. split; [lia|done].
    + intros [j' [Hj H]]. left. by replace j' with 0%nat in H by lia.
  - rewrite IH. split.
    + intros [H|[j' [Hj H]]]; [exists (S j)|exists j']; split; first [done|lia].
    + intros [j' [Hj H]]. destruct (decide (j' = S j)) as [->|Hne]; [by left|].
      right. exists j'. split; [lia|done].
Qed.

Lemma try_digits_some (item s : string) (k k' : nat) :
  try_digits item s k = Some k' ->
  (1 <= k' <= k)%nat /\ spaces_then_item item (str_drop k' s) = true /\
  (forall k'', (k' < k'' <= k)%nat -> spaces_then_item item (str_drop k'' s) = false).
Proof.
  induction k as [|k IH]; cbn [try_digits]; [done|].
  destruct (spaces_then_item item (str_drop (S k) s)) eqn:E.
  - intros [= <-]. split; [lia|]. split; [done|]. intros; lia.
  - intros H. destruct (IH H) as (Hk & Hok & Hfirst). split; [lia|]. split; [done|].
    intros k'' Hk''. destruct (decide (k'' = S k)) as [->|Hne]; [done|].
    apply Hfirst. lia.
Qed.

Lemma try_digits_none (item s : string) (k : nat) :
  (forall k', (1 <= k' <= k)%nat -> spaces_then_item item (str_drop k' s) = false) ->
  try_digits item s k = None.
Proof.
  induction k as [|k IH]; intros H; cbn [try_digits]; [done|].
  rewrite H by lia. apply IH. intros k' Hk'. apply H. lia.
Qed.

Lemma regex_match_digits (item s g : string) :
  regex_match item s g ->
  g = str_take (String.length g) s /\
  (1 <= String.length g <= String.length (take_while is_digit s))%nat /\
  spaces_then_item item (str_drop (String.length g) s) = true.
Proof.
  intros (w & r & -> & Hne & Hg & Hw).
  destruct (take_while_length_ge is_digit g (w ++ item ++ r) Hg) as [Hlen Hdrop].
  split; [|split].
  - by rewrite str_take_app.
  - destruct g; [done|]. cbn [String.length] in *. lia.
  - rewrite Hdrop. unfold spaces_then_item. apply try_spaces_spec.
    destruct (take_while_length_ge is_space w (item ++ r) Hw) as [Hw1 Hw2].
    exists (String.length w). split; [done|]. rewrite Hw2. apply prefix_app.
Qed.

(** Soundness: a reported group is a run of digits followed by white
    space and the item. *)
Theorem match_at_sound (item s g : string) :
  match_at item s = Some g -> regex_match item s g.
Proof.
  unfold match_at. destruct (try_digits _ _ _) as [k|] eqn:E; [|done]. intros [= <-].
  destruct (try_digits_some _ _ _ _ E) as (Hk & Hok & _).
  unfold spaces_then_item in Hok. apply try_spaces_spec in Hok as (j & Hj & Hp).
  apply prefix_spec in Hp as [r Hr].
  exists (str_take j (str_drop k s)), r. split; [|split; [|split]].
  - by rewrite <- Hr, !str_take_drop.
  - intros Hnil. apply (f_equal String.length) in Hnil. revert Hnil Hk. clear.
    revert k. induction s as [|c s IH]; intros [|k] H Hk; cbn in *; lia.
  - apply str_all_take_le. lia.
  - by apply str_all_take_le.
Qed.

Lemma try_digits_none_inv (item s : string) (k : nat) :
  try_digits item s k = None ->
  forall k', (1 <= k' <= k)%nat -> spaces_then_item item (str_drop k' s) = false.
Proof.
  induction k as [|k IH]; cbn [try_digits]; intros H k' Hk'; [lia|].
  destruct (spaces_then_item item (str_drop (S k) s)) eqn:E; [done|].
  destruct (decide (k' = S k)) as [->|Hne]; [done|]. apply IH; [done|lia].
Qed.

Lemma try_digits_complete (item s g : string) :
  regex_match item s g ->
  exists k, try_digits item s (String.length (take_while is_digit s)) = Some k /\
            (String.length g <= k <= String.length (take_while is_digit s))%nat.
Proof.
  intros Hm. destruct (regex_match_digits _ _ _ Hm) as (_ & Hlen & Hok).
  destruct (try_digits item s (String.length (take_while is_digit s))) as [k|] eqn:E.
  - destruct (try_digits_some _ _ _ _ E) as (Hk & _ & Hfirst). exists k. split; [done|].
    destruct (Nat.le_gt_cases (String.length g) k); [lia|].
    rewrite Hfirst in Hok by lia. discriminate.
  - by rewrite (try_digits_none_inv _ _ _ E) in Hok.
Qed.

(** C20: Completeness and priority: when the pattern matches at [s] with
    some group, the engine reports a match, and its group is the
    longest one, as [\d+] is greedy. *)
Theorem match_at_longest (item s g : string) :
  regex_match item s g ->
  exists g', match_at item s = Some g' /\ (String.length g <= String.length g')%nat.
Proof.
  intros Hm. destruct (try_digits_complete _ _ _ Hm) as (k & E & Hk).
  unfold match_at. rewrite E. eexists; split; [reflexivity|].
  pose proof (take_while_length_le is_digit s).
  rewrite str_take_length by lia. lia.
Qed.

Lemma re_search_cons (item : string) (c : ascii) (s : string) :
  re_search item (String c s) =
  match match_at item (String c s) with Some g => Some g | None => re_search item s end.
Proof. reflexivity. Qed.

(** C39: [re.search] reports the match at the leftmost position where the
    pattern matches: no earlier position matches. *)
Theorem re_search_leftmost (item s g : string) :
  re_search item s = Some g ->
  exists a t, s = (a ++ t)%string /\ match_at item t = Some g /\
    forall a1 a2, a = (a1 ++ a2)%string -> a2 <> EmptyString ->
                  match_at item (a2 ++ t) = None.
Proof.
  induction s as [|c s IH].
  - (* no match can start in the empty string *) done.
  - rewrite re_search_cons. destruct (match_at item (String c s)) eqn:E.
    + intros [= <-]. exists EmptyString, (String c s). split; [done|]. split; [done|].
      intros a1 a2 Ha Hne. symmetry in Ha. by apply str_app_eq_nil in Ha.
    + intros H. destruct (IH H) as (a & t & -> & Hm & Hleft).
      exists (String c a), t. split; [by rewrite str_app_cons|]. split; [done|].
      intros [|c1 a1] a2 Ha Hne.
      * rewrite str_app_nil_l in Ha. subst a2. by rewrite str_app_cons.
      * rewrite str_app_cons in Ha. injection Ha as -> Ha. by apply (Hleft a1 a2).
Qed.

(** [re.search] finds a match whenever the pattern occurs. *)
Theorem re_search_complete (item a t g : string) :
  regex_match item t g -> exists g', re_search item (a ++ t) = Some g'.
Proof.
  intros Hm. induction a as [|c a IH].
  - destruct (try_digits_complete _ _ _ Hm) as (k & E & _).
    exists (str_take k t). rewrite str_app_nil_l.
    destruct t; cbn [re_search]; unfold match_at; by rewrite E.
  - rewrite str_app_cons, re_search_cons.
    destruct (match_at item (String c (a ++ t))); eauto.
Qed.

Lemma try_spaces_none (item s : string) (j : nat) :
  (forall j', (j' <= j)%nat -> prefix item (str_drop j' s) = false) ->
  try_spaces item s j = false.
Proof.
  induction j as [|j IH]; intros H; cbn [try_spaces]; rewrite H by lia; [done|].
  apply IH. intros j' Hj. apply H. lia.
Qed.

(** An item that does not start with white space can only follow the
    whole run of white space: backtracking into [\s*] never helps. *)
Lemma spaces_then_item_greedy (c : ascii) (item rest : string) :
  is_space c = false ->
  spaces_then_item (String c item) rest = prefix (String c item) (drop_while is_space rest).
Proof.
  intros Hc. unfold spaces_then_item.
  pose proof (str_take_drop_while is_space rest) as [_ Hdrop].
  assert (Hrun : forall j, (j < String.length (take_while is_space rest))%nat ->
                 prefix (String c item) (str_drop j rest) = false).
  { intros j Hj. destruct (str_drop_in_run _ _ _ Hj) as (c' & t & -> & Hc').
    destruct (prefix _ (String c' t)) eqn:Hp; [|done].
    apply prefix_cons_inv in Hp. congruence. }
  destruct (String.length (take_while is_space rest)) as [|m] eqn:Em.
  - cbn [try_spaces]. by rewrite orb_false_r, <- Hdrop.
  - cbn [try_spaces]. rewrite <- Hdrop, try_spaces_none, orb_false_r; [done|].
    intros j' Hj'. apply Hrun. lia.
Qed.

(** C29: For an item that starts with neither a digit nor white space, the
    backtracking matcher equals the greedy one: take every leading
    digit, skip every following space, then compare with the item. *)
Theorem match_at_greedy_equiv (c : ascii) (item s : string) :
  is_digit c = false -> is_space c = false ->
  match_at (String c item) s = match_at_greedy (String c item) s.
Proof.
  intros Hd Hs. unfold match_at, match_at_greedy.
  destruct (String.length (take_while is_digit s)) as [|n] eqn:En.
  - cbn [try_digits]. by rewrite (str_length_zero _ En).
  - pose proof (str_take_drop_while is_digit s) as [Htake Hdrop].
    rewrite En in Htake, Hdrop.
    assert (Hshort : forall k, (1 <= k <= n)%nat ->
                     spaces_then_item (String c item) (str_drop k s) = false).
    { intros k Hk. destruct (str_drop_in_run is_digit s k ltac:(lia)) as (c' & t & -> & Hc').
      rewrite spaces_then_item_greedy by done. cbn [drop_while].
      rewrite (digit_not_space _ Hc').
      destruct (prefix _ (String c' t)) eqn:Hp; [|done].
      apply prefix_cons_inv in Hp. congruence. }
    cbn [try_digits]. rewrite Hdrop, spaces_then_item_greedy by done.
    destruct (take_while is_digit s) as [|c0 d0] eqn:Etw; [done|].
    destruct (prefix _ (drop_while is_space (drop_while is_digit s))); [by rewrite Htake|].
    by rewrite try_digits_none.
Qed.

(** ** [_process_order] *)

Lemma extract_items_acc (message : string) (menu : list (string * Z)) (acc : list found) :
  fold_left (fun acc '(item, price) =>
               if contains item message
               then acc ++ [(item, quantity_of item message, price)]
               else acc) menu acc
  = acc ++ flat_map (fun '(item, price) =>
                       if contains item message
                       then [(item, quantity_of item message, price)] else []) menu.
Proof.
  revert acc. induction menu as [|[item price] menu IH]; intros acc; cbn.
  - by rewrite app_nil_r.
  - rewrite IH. destruct (contains item message); [by rewrite <- app_assoc|done].
Qed.

(** C2: The first loop keeps, in menu order, exactly the menu entries whose
    name occurs in the message, each with its extracted quantity. *)
Theorem extract_items_spec (mp : t) (message item : string) (q price : Z) :
  In (item, q, price) (extract_items mp message) <->
  In (item, price) (menu_items mp) /\ contains item message = true /\
  q = quantity_of item message.
Proof.
  unfold extract_items. rewrite extract_items_acc, app_nil_l, in_flat_map.
  split.
  - intros [[item' price'] [Hin Hq]].
    destruct (contains item' message) eqn:E; [|done].
    destruct Hq as [[= -> -> ->]|[]]. auto.
  - intros (Hin & Hc & ->). exists (item, price). split; [done|]. rewrite Hc. by left.
Qed.

(** The second loop accumulates the concatenated lines and the sum of
    the line totals. *)
Lemma quote_loop (items : list found) (response : string) (total : Z) :
  fold_left quote_step items (response, total)
  = ((response ++ str_concat (map quote_line items))%string, total + sumZ line_total items).
Proof.
  revert response total. induction items as [|[[item q] p] items IH]; intros response total.
  - cbn. by rewrite str_app_nil_r, Z.add_0_r.
  - cbn [fold_left map str_concat]. unfold quote_step at 2. rewrite IH, sumZ_cons.
    cbn [line_total]. f_equal; [by rewrite str_app_assoc|lia].
Qed.

(** C1: Refinement: [process_message] implements the abstract engine:
    classification with first match winning, and for an order the quote
    of the extracted items with the sum of their line totals. *)
Theorem process_message_refines (mp : t) (message sender : string) :
  process_message mp message sender = respond_spec mp message sender.
Proof.
  unfold process_message, respond_spec, classify.
  destruct (contains_any (greeting_keywords mp) (lower message)); [done|].
  destruct (contains_any (order_keywords mp) (lower message)); [|by destruct (_ || _)].
  unfold process_order. destruct (extract_items mp (lower message)) as [|it its]; [done|].
  rewrite quote_loop. unfold render_quote. cbn [sumZ]. rewrite Z.add_0_l.
  by rewrite <- !str_app_assoc.
Qed.

(** Messaging-gateway contract: every reply is a non-empty string. *)
Theorem process_message_nonempty (mp : t) (message sender : string) :
  process_message mp message sender <> EmptyString.
Proof.
  unfold process_message, process_order.
  repeat case_ifs; try discriminate.
  destruct (extract_items mp (lower message)); [discriminate|].
  rewrite quote_loop. discriminate.
Qed.

(** Case does not matter: the engine only sees [message.lower()]. *)
Theorem process_message_case_insensitive (mp : t) (message sender : string) :
  process_message mp (lower message) sender = process_message mp message sender.
Proof. unfold process_message. by rewrite lower_idem. Qed.

(** ** Quantities *)

Lemma re_search_match_at (item s g : string) :
  re_search item s = Some g -> exists a t, s = (a ++ t)%string /\ match_at item t = Some g.
Proof.
  induction s as [|c s IH]; [done|]. rewrite re_search_cons.
  destruct (match_at item (String c s)) eqn:E.
  - intros [= <-]. by exists EmptyString, (String c s).
  - intros H. destruct (IH H) as (a & t & -> & Hm). exists (String c a), t.
    by rewrite str_app_cons.
Qed.

(** C19: Soundness of [re.search]: the reported group is a run of digits
    that, after optional white space, is followed by the item. *)
Theorem re_search_sound (item message g : string) :
  re_search item message = Some g ->
  exists a w r, message = (a ++ g ++ w ++ item ++ r)%string /\ g <> EmptyString /\
                str_all is_digit g = true /\ str_all is_space w = true.
Proof.
  intros E. destruct (re_search_match_at _ _ _ E) as (a & t & -> & Hm).
  destruct (match_at_sound _ _ _ Hm) as (w & r & -> & H). by exists a, w, r.
Qed.

(** Quantities are read from a run of digits: never negative. *)
Theorem quantity_of_nonneg (item message : string) : 0 <= quantity_of item message.
Proof.
  unfold quantity_of. destruct (re_search item message) as [g|] eqn:E; [|lia].
  destruct (re_search_match_at _ _ _ E) as (a & t & _ & Hm).
  destruct (match_at_sound _ _ _ Hm) as (w & r & _ & _ & Hg & _).
  by apply int_of_digits_nonneg.
Qed.

(** When no occurrence of the item is preceded by digits and optional
    white space, the quantity defaults to 1. *)
Theorem quantity_default_one (item message : string) :
  (forall a g w r, message = (a ++ g ++ w ++ item ++ r)%string -> g <> EmptyString ->
     str_all is_digit g = true -> str_all is_space w = true -> False) ->
  quantity_of item message = 1.
Proof.
  intros Hnone. unfold quantity_of.
  destruct (re_search item message) as [g|] eqn:E; [|done].
  destruct (re_search_match_at _ _ _ E) as (a & t & -> & Hm).
  destruct (match_at_sound _ _ _ Hm) as (w & r & -> & Hne & Hg & Hw).
  destruct (Hnone a g w r eq_refl Hne Hg Hw).
Qed.

Lemma no_digit_no_group (message : string) :
  str_all (fun c => negb (is_digit c)) message = true ->
  forall a g w r item, message = (a ++ g ++ w ++ item ++ r)%string -> g <> EmptyString ->
     str_all is_digit g = true -> str_all is_space w = true -> False.
Proof.
  intros Hm a [|c g] w r item -> Hne Hg _; [done|].
  rewrite !str_all_app in Hm. cbn [str_all] in Hm, Hg.
  apply andb_prop in Hg as [Hc _]. rewrite Hc in Hm.
  destruct (str_all _ a); simpl in Hm; discriminate.
Qed.

(** The quote's total is the sum of non-negative line totals. *)
Theorem quote_total_nonneg (mp : t) (message : string) :
  Forall (fun e => 0 <= snd e) (menu_items mp) ->
  0 <= sumZ line_total (extract_items mp message).
Proof.
  intros Hprices. apply sumZ_nonneg, List.Forall_forall.
  intros [[item q] price] Hin.
  unfold extract_items in Hin. rewrite extract_items_acc, app_nil_l, in_flat_map in Hin.
  destruct Hin as [[item' price'] [Hin Hq]].
  destruct (contains item' message); [|done]. destruct Hq as [[= <- <- <-]|[]].
  rewrite List.Forall_forall in Hprices. specialize (Hprices _ Hin). cbn in *.
  pose proof (quantity_of_nonneg item' message). lia.
Qed.

(** ** The deployed configuration *)

(** The fixed "please specify" reply names every menu item with its
    price, formatted as [f"{price:,}"]. *)
Theorem unknown_order_reply_lists_menu (item : string) (price : Z) :
  In (item, price) (menu_items init) ->
  contains (item ++ " (Rp " ++ fmt_thousands price ++ ")")%string unknown_order_reply = true.
Proof.
  intros Hin. cbn in Hin.
  repeat destruct Hin as [Heq|Hin]; try contradiction;
    injection Heq as <- <-; vm_compute; reflexivity.
Qed.

(** ** Scenarios of the specification and of the dashboard demo *)

(** Two items with explicit quantities: 2 x 25,000 + 1 x 5,000. *)
Theorem spec_two_items_quote (sender : string) :
  extract_items init (lower "saya mau pesan 2 nasi goreng dan 1 es teh")
    = [("nasi goreng", 2, 25000); ("es teh", 1, 5000)]%string /\
  process_message init "saya mau pesan 2 nasi goreng dan 1 es teh" sender
    = render_quote [("nasi goreng", 2, 25000); ("es teh", 1, 5000)]%string /\
  sumZ line_total [("nasi goreng", 2, 25000); ("es teh", 1, 5000)]%string = 55000.
Proof. split; [|split]; vm_compute; reflexivity. Qed.

(** No quantity given: the quantity defaults to 1. *)
Theorem spec_default_quantity_quote (sender : string) :
  process_message init "mau pesan ayam bakar" sender
    = render_quote [("ayam bakar", 1, 35000)]%string.
Proof. vm_compute. reflexivity. Qed.

(** An order without a known item gets the menu listing. *)
Theorem spec_unknown_item_reply (sender : string) :
  process_message init "saya mau pesan pizza" sender = unknown_order_reply.
Proof. vm_compute. reflexivity. Qed.

(** No menu name in the message: the first loop finds nothing. *)
Lemma extract_items_none (mp : t) (message : string) :
  Forall (fun it => contains (fst it) message = false) (menu_items mp) ->
  extract_items mp message = [].
Proof.
  intros Hnone. unfold extract_items. rewrite extract_items_acc, app_nil_l.
  induction Hnone as [|[item price] menu Hc _ IH]; [done|]. cbn in Hc |- *. by rewrite Hc.
Qed.

(** C35: every message about an order ("pesanan") that names no menu
    item and greets with no keyword is classified as an order, because
    [pesan] occurs inside [pesanan], and is answered with the menu
    listing; the status reply, meant for questions with "status" or
    "kapan", is never given to such a message, so the dashboard's own
    sample question "Pesanan saya kapan sampai?" never gets it. *)
Theorem status_question_gets_menu_reply (message sender : string) :
  contains "pesanan" (lower message) = true ->
  contains_any (greeting_keywords init) (lower message) = false ->
  Forall (fun it => contains (fst it) (lower message) = false) (menu_items init) ->
  process_message init message sender = unknown_order_reply.
Proof.
  intros Hp Hg Hnone. unfold process_message. rewrite Hg.
  assert (Ho : contains_any (order_keywords init) (lower message) = true).
  { apply contains_any_spec. exists "pesan"%string. split; [by left|].
    apply contains_spec in Hp as (x & y & Hxy). apply contains_spec.
    exists x, ("an" ++ y)%string. rewrite Hxy. reflexivity. }
  rewrite Ho. unfold process_order. by rewrite extract_items_none.
Qed.

(** C36: keywords are matched as substrings, with no word boundary: a
    greeting keyword anywhere in the text, inside any word (as [hi] in
    the name "Chika") and whatever order precedes or follows it, turns
    the message into a greeting, and the order is not quoted. *)
Theorem greeting_inside_word (a w b sender : string) :
  In w (greeting_keywords init) ->
  process_message init (a ++ w ++ b) sender = generate_greeting_response sender.
Proof.
  intros Hw. assert (Hlw : lower w = w) by (cbn in Hw; intuition (subst; reflexivity)).
  unfold process_message. rewrite !lower_app, Hlw.
  assert (Hg : contains_any (greeting_keywords init) (lower a ++ w ++ lower b) = true).
  { apply contains_any_spec. exists w. split; [done|]. apply contains_spec. eauto. }
  by rewrite Hg.
Qed.

(** A quantity of 0 is accepted and quoted at a total of Rp 0. *)
Theorem zero_quantity_quoted (sender : string) :
  process_message init "mau 0 nasi goreng" sender
    = render_quote [("nasi goreng", 0, 25000)]%string /\
  sumZ line_total [("nasi goreng", 0, 25000)]%string = 0.
Proof. split; vm_compute; reflexivity. Qed.

(** ** Witnesses: the theorems applied at concrete inputs *)

Lemma regex_match_witness : regex_match "es teh" "12 es teh!" "12".
Proof. exists " "%string, "!"%string. vm_compute. repeat split; discriminate. Qed.

Lemma match_at_longest_witness :
  regex_match "es teh" "12 es teh!" "12" /\
  exists g', match_at "es teh" "12 es teh!" = Some g' /\
             (String.length "12" <= String.length g')%nat.
Proof.
  split; [exact regex_match_witness|].
  apply (match_at_longest "es teh" "12 es teh!" "12"). exact regex_match_witness.
Defined.

Lemma re_search_complete_witness :
  regex_match "es teh" "12 es teh!" "12" /\
  exists g', re_search "es teh" ("mau " ++ "12 es teh!") = Some g'.
Proof.
  split; [exact regex_match_witness|].
  apply (re_search_complete "es teh" "mau " "12 es teh!" "12"). exact regex_match_witness.
Defined.

Lemma re_search_leftmost_witness :
  re_search "es teh" "mau 1 es teh dan 2 es teh" = Some "1"%string /\
  exists a t, "mau 1 es teh dan 2 es teh"%string = (a ++ t)%string /\
    match_at "es teh" t = Some "1"%string /\
    forall a1 a2, a = (a1 ++ a2)%string -> a2 <> EmptyString ->
                  match_at "es teh" (a2 ++ t) = None.
Proof.
  split; [vm_compute; reflexivity|].
  apply re_search_leftmost. vm_compute. reflexivity.
Defined.

Lemma re_search_sound_witness :
  re_search "nasi goreng" "mau 3  nasi goreng" = Some "3"%string /\
  exists a w r, "mau 3  nasi goreng"%string = (a ++ "3" ++ w ++ "nasi goreng" ++ r)%string /\
    "3"%string <> EmptyString /\ str_all is_digit "3" = true /\ str_all is_space w = true.
Proof.
  split; [vm_compute; reflexivity|].
  apply re_search_sound. vm_compute. reflexivity.
Defined.

Lemma match_at_greedy_equiv_witness :
  is_digit "n" = false /\ is_space "n" = false /\
  match_at (String "n" "asi goreng") "2 nasi goreng" = match_at_greedy (String "n" "asi goreng") "2 nasi goreng".
Proof.
  split; [reflexivity|]. split; [reflexivity|].
  apply match_at_greedy_equiv; reflexivity.
Defined.

Lemma quantity_default_one_witness :
  quantity_of "ayam bakar" "mau pesan ayam bakar" = 1.
Proof.
  apply quantity_default_one. intros a g w r Heq.
  exact (no_digit_no_group "mau pesan ayam bakar" ltac:(vm_compute; reflexivity)
           a g w r "ayam bakar" Heq).
Defined.

Lemma quote_total_nonneg_witness :
  Forall (fun e => 0 <= snd e) (menu_items init) /\
  0 <= sumZ line_total (extract_items init "mau 2 es teh").
Proof.
  assert (H : Forall (fun e => 0 <= snd e) (menu_items init)).
  { repeat constructor; cbn; lia. }
  split; [exact H|]. apply quote_total_nonneg. exact H.
Defined.

Lemma unknown_order_reply_lists_menu_witness :
  In ("es jeruk", 6000)%string (menu_items init) /\
  contains ("es jeruk" ++ " (Rp " ++ fmt_thousands 6000 ++ ")")%string unknown_order_reply = true.
Proof.
  assert (H : In ("es jeruk", 6000)%string (menu_items init)) by (cbn; tauto).
  split; [exact H|]. apply unknown_order_reply_lists_menu. exact H.
Defined.

Lemma status_question_gets_menu_reply_witness :
  contains "pesanan" (lower "Pesanan saya kapan sampai?") = true
  /\ contains_any (greeting_keywords init) (lower "Pesanan saya kapan sampai?") = false
  /\ Forall (fun it => contains (fst it) (lower "Pesanan saya kapan sampai?") = false) (menu_items init)
  /\ process_message init "Pesanan saya kapan sampai?" "+628112233445" = unknown_order_reply.
Proof.
  assert (H1 : contains "pesanan" (lower "Pesanan saya kapan sampai?") = true) by (vm_compute; reflexivity).
  assert (H2 : contains_any (greeting_keywords init) (lower "Pesanan saya kapan sampai?") = false)
    by (vm_compute; reflexivity).
  assert (H3 : Forall (fun it => contains (fst it) (lower "Pesanan saya kapan sampai?") = false)
                 (menu_items init)) by (repeat constructor).
  exact (conj H1 (conj H2 (conj H3 (status_question_gets_menu_reply _ "+628112233445" H1 H2 H3)))).
Defined.

Lemma greeting_inside_word_witness :
  In "hi"%string (greeting_keywords init)
  /\ process_message init ("Pesan 2 es teh untuk C" ++ "hi" ++ "ka") "+628123456789"
     = generate_greeting_response "+628123456789".
Proof.
  assert (H : In "hi"%string (greeting_keywords init)) by (right; right; right; left; reflexivity).
  exact (conj H (greeting_inside_word "Pesan 2 es teh untuk C" "hi" "ka" "+628123456789" H)).
Defined.

End MessageProcessor.
