(* ===== verification/DateTime.v ===== *)
(** Python's naive [datetime] as the order store uses it: the record of
    its fields, validity, [toordinal]/[fromordinal] (CPython's
    [_ymd2ord]/[_ord2ymd]), subtraction of whole days, comparison, the
    sqlite3 adapter [isoformat(" ")], the date text [%Y-%m-%d], and [strptime(s, "%Y-%m-%d %H:%M:%S")] as
    CPython's [_strptime] does it: a regular expression built from the
    format, matched with [re.match] (first success in priority order),
    then the "unconverted data remains" check and the range checks of
    the [date] and [datetime] constructors. *)

From stdpp Require Import base list strings.
From Stdlib Require Import String Ascii ZArith Lia.
From S2P Require Import Prelude PyStr.

Open Scope Z_scope.

Module DateTime.

Record datetime := mk {
  year : Z; month : Z; day : Z;
  hour : Z; minute : Z; second : Z; microsecond : Z
}.

(** ** Calendar *)

Definition is_leap (y : Z) : bool :=
  (y mod 4 =? 0) && (negb (y mod 100 =? 0) || (y mod 400 =? 0)).

Definition days_in_month (y m : Z) : Z :=
  if m =? 2 then (if is_leap y then 29 else 28)
  else if (m =? 4) || (m =? 6) || (m =? 9) || (m =? 11) then 30
  else 31.

(** [_DAYS_BEFORE_MONTH[m] + (m > 2 and is_leap(y))] *)
Definition days_before_month (y m : Z) : Z :=
  nth (Z.to_nat m) [0; 0; 31; 59; 90; 120; 151; 181; 212; 243; 273; 304; 334] 0
  + (if (2 <? m) && is_leap y then 1 else 0).

Definition days_before_year (y : Z) : Z :=
  let y1 := y - 1 in y1 * 365 + y1 / 4 - y1 / 100 + y1 / 400.

(** [date.toordinal()]: day 1 is 0001-01-01. *)
Definition ymd2ord (y m d : Z) : Z := days_before_year y + days_before_month y m + d.

(** [date.fromordinal(n)], CPython's [_ord2ymd]. *)
Definition ord2ymd (n : Z) : Z * Z * Z :=
  let n := n - 1 in
  let n400 := n / 146097 in let n := n mod 146097 in
  let n100 := n / 36524 in let n := n mod 36524 in
  let n4 := n / 1461 in let n := n mod 1461 in
  let n1 := n / 365 in let n := n mod 365 in
  let y := n400 * 400 + 1 + n100 * 100 + n4 * 4 + n1 in
  if (n1 =? 4) || (n100 =? 4) then (y - 1, 12, 31)
  else
    let leap := (n1 =? 3) && (negb (n4 =? 24) || (n100 =? 3)) in
    let m := Z.shiftr (n + 50) 5 in
    let preceding := days_before_month (if leap then 4 else 1) m in
    let '(m, preceding) :=
      if n <? preceding
      then (m - 1, preceding - (days_in_month (if leap then 4 else 1) (m - 1)))
      else (m, preceding) in
    (y, m, n - preceding + 1).

Definition MAXORDINAL : Z := 3652059.

(** The range checks of the [date] and [datetime] constructors. *)
Definition valid (dt : datetime) : bool :=
  (1 <=? year dt) && (year dt <=? 9999) && (1 <=? month dt) && (month dt <=? 12)
  && (1 <=? day dt) && (day dt <=? days_in_month (year dt) (month dt))
  && (0 <=? hour dt) && (hour dt <=? 23) && (0 <=? minute dt) && (minute dt <=? 59)
  && (0 <=? second dt) && (second dt <=? 59)
  && (0 <=? microsecond dt) && (microsecond dt <=? 999999).

Definition toordinal (dt : datetime) : Z := ymd2ord (year dt) (month dt) (day dt).

(** [dt.date()] *)
Definition date_of (dt : datetime) : Z * Z * Z := (year dt, month dt, day dt).

(** ** Errors of the [datetime] module *)

Inductive error :=
| ValueErrorNoMatch            (** time data does not match format *)
| ValueErrorUnconverted (rest : string)  (** unconverted data remains *)
| ValueErrorRange              (** a field out of range for [date]/[datetime] *)
| OverflowErrorRange.          (** result out of range *)

(** [dt - timedelta(days=n)]: ordinal arithmetic, the time of day kept. *)
Definition sub_days (dt : datetime) (n : Z) : result error datetime :=
  let o := toordinal dt - n in
  if (0 <? o) && (o <=? MAXORDINAL) then
    let '(y, m, d) := ord2ymd o in
    Ok (mk y m d (hour dt) (minute dt) (second dt) (microsecond dt))
  else Err OverflowErrorRange.

(** [a >= b] on naive datetimes: CPython's [_cmp] compares the field
    tuples lexicographically. *)
Definition fields (dt : datetime) : list Z :=
  [year dt; month dt; day dt; hour dt; minute dt; second dt; microsecond dt].

Fixpoint lex_compare (a b : list Z) : comparison :=
  match a, b with
  | x :: a', y :: b' => match Z.compare x y with Eq => lex_compare a' b' | c => c end
  | _, _ => Eq
  end.

Definition geb (a b : datetime) : bool :=
  match lex_compare (fields a) (fields b) with Lt => false | _ => true end.

(** ** Formatting *)

(** ["%0{w}d" % n] for [n >= 0]. *)
Definition zpad (w : nat) (n : Z) : string :=
  let s := str_nonneg n in
  (String.concat EmptyString (repeat "0"%string (w - String.length s)) ++ s)%string.

Definition date_text (dt : datetime) : string :=
  (zpad 4 (year dt) ++ "-" ++ zpad 2 (month dt) ++ "-" ++ zpad 2 (day dt))%string.

(** [dt.isoformat(" ")], which sqlite3's default adapter stores for a
    [datetime] parameter: microseconds only when they are non-zero. *)
Definition isoformat (dt : datetime) : string :=
  (date_text dt ++ " " ++ zpad 2 (hour dt) ++ ":" ++ zpad 2 (minute dt) ++ ":"
   ++ zpad 2 (second dt)
   ++ (if Z.eqb (microsecond dt) 0 then EmptyString else "." ++ zpad 6 (microsecond dt)))%string.

(** ** [datetime.strptime(s, "%Y-%m-%d %H:%M:%S")] *)

Definition rng (lo hi : ascii) (c : ascii) : bool :=
  ((code lo <=? code c) && (code c <=? code hi))%N.
Definition dig : ascii -> bool := rng "0" "9".

(** A field pattern: alternatives in priority order, each a sequence of
    character classes. *)
Definition pattern := list (list (ascii -> bool)).

Definition pat_Y : pattern := [[dig; dig; dig; dig]].
Definition pat_m : pattern := [[rng "1" "1"; rng "0" "2"]; [rng "0" "0"; rng "1" "9"]; [rng "1" "9"]].
Definition pat_d : pattern :=
  [[rng "3" "3"; rng "0" "1"]; [rng "1" "2"; dig]; [rng "0" "0"; rng "1" "9"];
   [rng "1" "9"]; [rng " " " "; rng "1" "9"]].
Definition pat_H : pattern := [[rng "2" "2"; rng "0" "3"]; [rng "0" "1"; dig]; [dig]].
Definition pat_M : pattern := [[rng "0" "5"; dig]; [dig]].
Definition pat_S : pattern := [[rng "6" "6"; rng "0" "1"]; [rng "0" "5"; dig]; [dig]].

Fixpoint match_seq (ps : list (ascii -> bool)) (s : string) : option (string * string) :=
  match ps, s with
  | [], _ => Some (EmptyString, s)
  | p :: ps', String c t =>
      if p c then
        match match_seq ps' t with
        | Some (g, r) => Some (String c g, r)
        | None => None
        end
      else None
  | _ :: _, EmptyString => None
  end.

(** Every way a field matches a prefix of [s], in priority order. *)
Definition match_pat (p : pattern) (s : string) : list (string * string) :=
  omap (fun alt => match_seq alt s) p.

(** A literal character of the format. *)
Definition match_lit (c : ascii) (s : string) : list string :=
  match s with
  | String c' t => if Ascii.eqb c c' then [t] else []
  | EmptyString => []
  end.

(** [\s+], which replaces the space of the format: longest first. *)
Definition match_spaces (s : string) : list string :=
  map (fun k => str_drop k s) (rev (seq 1 (String.length (take_while is_space s)))).

(** The matches of the whole format, in the order the regular
    expression engine tries them: the six groups and the rest. *)
Definition format_matches (s : string) : list (list string * string) :=
  '(y, s) ← match_pat pat_Y s; s ← match_lit "-" s;
  '(m, s) ← match_pat pat_m s; s ← match_lit "-" s;
  '(d, s) ← match_pat pat_d s; s ← match_spaces s;
  '(hh, s) ← match_pat pat_H s; s ← match_lit ":" s;
  '(mi, s) ← match_pat pat_M s; s ← match_lit ":" s;
  '(ss, s) ← match_pat pat_S s;
  [([y; m; d; hh; mi; ss], s)].

Definition strptime (s : string) : result error datetime :=
  match format_matches s with
  | [] => Err ValueErrorNoMatch
  | (groups, rest) :: _ =>
      match rest with
      | String _ _ => Err (ValueErrorUnconverted rest)
      | EmptyString =>
          match map (fun g => int_of_digits (strip g)) groups with
          | [y; m; d; hh; mi; ss] =>
              let dt := mk y m d hh mi ss 0 in
              if valid dt then Ok dt else Err ValueErrorRange
          | _ => Err ValueErrorNoMatch
          end
      end
  end.

(** ** Zero padding *)

Lemma zpad_length (w : nat) (n : Z) :
  (1 <= w)%nat -> 0 <= n < 10 ^ Z.of_nat w -> String.length (zpad w n) = w.
Proof.
  intros Hw Hn. unfold zpad.
  pose proof (str_nonneg_length n w Hn Hw) as Hl.
  generalize (str_nonneg n) Hl. intros s Hs.
  assert (H : forall j, String.length (String.concat EmptyString (repeat "0"%string j) ++ s)
                        = (j + String.length s)%nat).
  { induction j as [|[|j] IH]; [done|done|].
    change (String.concat EmptyString (repeat "0"%string (S (S j))))
      with ("0" ++ String.concat EmptyString (repeat "0"%string (S j)))%string.
    rewrite <- str_app_assoc, str_app_cons, str_app_nil_l. cbn [String.length]. rewrite IH. lia. }
  rewrite H. lia.
Qed.

Lemma zpad_digits (w : nat) (n : Z) : 0 <= n -> str_all is_digit (zpad w n) = true.
Proof.
  intros Hn. unfold zpad. rewrite str_all_app, str_nonneg_digits by done.
  rewrite andb_true_r. generalize (w - String.length (str_nonneg n))%nat as j.
  induction j as [|[|j] IH]; [done|done|].
  change (String.concat EmptyString (repeat "0"%string (S (S j))))
    with ("0" ++ String.concat EmptyString (repeat "0"%string (S j)))%string.
  by rewrite str_all_app, IH.
Qed.

Lemma zpad_value (w : nat) (n : Z) : 0 <= n -> int_of_digits (zpad w n) = n.
Proof. intros Hn. unfold zpad. rewrite digits_fold_zeros. by apply int_of_str_nonneg. Qed.

(** ** The field patterns on their canonical texts *)

Lemma match_seq_app (ps : list (ascii -> bool)) (s rest : string) :
  (List.length ps <= String.length s)%nat ->
  match_seq ps (s ++ rest) =
  match match_seq ps s with Some (g, r) => Some (g, (r ++ rest)%string) | None => None end.
Proof.
  revert s. induction ps as [|p ps IH]; intros s Hl; [done|].
  destruct s as [|c s]; [cbn in Hl; lia|]. rewrite str_app_cons. cbn [match_seq].
  destruct (p c); [|done]. rewrite IH by (cbn in Hl; lia).
  by destruct (match_seq ps s) as [[g r]|].
Qed.

Lemma match_pat_app (p : pattern) (s rest : string) :
  Forall (fun alt => (List.length alt <= String.length s)%nat) p ->
  match_pat p (s ++ rest) = map (fun '(g, r) => (g, (r ++ rest)%string)) (match_pat p s).
Proof.
  induction 1 as [|alt p Halt Hp IH]; [done|]. unfold match_pat in *. rewrite !omap_cons_eq.
  rewrite match_seq_app by done.
  destruct (match_seq alt s) as [[g r]|]; cbn [map]; by rewrite IH.
Qed.

(** A field whose canonical text is matched whole by the first
    alternative that applies. *)
Lemma match_pat_head (p : pattern) (s rest : string) :
  Forall (fun alt => (List.length alt <= String.length s)%nat) p ->
  head (match_pat p s) = Some (s, EmptyString) ->
  exists tl, match_pat p (s ++ rest) = (s, rest) :: tl.
Proof.
  intros Hl Hh. rewrite match_pat_app by done.
  destruct (match_pat p s) as [|[g r] tl]; [done|]. injection Hh as -> ->.
  by exists (map (fun '(g, r) => (g, (r ++ rest)%string)) tl).
Qed.

Lemma two_digit_field (p : pattern) (lo hi v : Z) (rest : string) :
  Forall (fun alt => (List.length alt <= 2)%nat) p ->
  forallb (fun v => match head (match_pat p (zpad 2 v)) with
                    | Some (g, r) => String.eqb g (zpad 2 v) && String.eqb r EmptyString
                    | None => false
                    end) (seqZ lo (hi - lo + 1)) = true ->
  0 <= lo -> lo <= v <= hi -> hi < 100 ->
  exists tl, match_pat p (zpad 2 v ++ rest) = (zpad 2 v, rest) :: tl.
Proof.
  intros Hl Hcheck Hlo Hv Hhi. apply match_pat_head.
  - rewrite zpad_length by (cbn; lia). done.
  - apply List.forallb_forall with (x := v) in Hcheck; [|apply list_elem_of_In, elem_of_seqZ; lia].
    destruct (head _) as [[g r]|]; [|done].
    apply andb_prop in Hcheck as [Hg Hr].
    apply String.eqb_eq in Hg, Hr. by subst.
Qed.

Lemma match_lit_same (c : ascii) (t : string) : match_lit c (String c t) = [t].
Proof. unfold match_lit. by rewrite Ascii.eqb_refl. Qed.

Lemma match_spaces_single (s rest : string) :
  str_all is_digit s = true -> s <> EmptyString ->
  match_spaces (String " " (s ++ rest)) = [(s ++ rest)%string].
Proof.
  intros Hs Hne. destruct s as [|c t]; [done|]. cbn [str_all] in Hs.
  apply andb_prop in Hs as [Hc _]. unfold match_spaces. rewrite str_app_cons.
  cbn [take_while]. replace (is_space " ") with true by reflexivity.
  cbn [take_while]. by rewrite (digit_not_space c Hc).
Qed.

Lemma year_field (y : Z) (rest : string) :
  0 <= y <= 9999 -> match_pat pat_Y (zpad 4 y ++ rest) = [(zpad 4 y, rest)].
Proof.
  intros Hy. pose proof (zpad_length 4 y ltac:(lia) ltac:(cbn; lia)) as Hl.
  pose proof (zpad_digits 4 y ltac:(lia)) as Hd.
  rewrite match_pat_app by (repeat constructor; cbn; lia).
  destruct (zpad 4 y) as [|a [|b [|c [|d [|e t]]]]]; cbn in Hl; try lia.
  cbn [str_all] in Hd. rewrite !andb_true_r in Hd. bool_prop.
  unfold match_pat, pat_Y, dig. cbn [omap list_omap match_seq].
  change (rng "0" "9") with is_digit. rewrite H, H1, H2, H0. reflexivity.
Qed.

Lemma nonempty_of_length (s : string) (w : nat) :
  String.length s = w -> (1 <= w)%nat -> s <> EmptyString.
Proof. intros <- Hw ->. cbn in Hw. lia. Qed.

Ltac field_step :=
  apply bind_head; cbv beta iota.

(** Rewrite a two-digit field of the goal to its canonical match. *)
Ltac field2 p lo hi v :=
  match goal with
  | |- context [match_pat p (zpad 2 v ++ ?r)] =>
      let tl := fresh "tl" in let E := fresh "E" in
      destruct (two_digit_field p lo hi v r ltac:(repeat constructor; cbn; lia)
                  ltac:(vm_compute; reflexivity) ltac:(lia) ltac:(lia) ltac:(lia)) as [tl E];
      rewrite E
  end.

(** The regular expression of ["%Y-%m-%d %H:%M:%S"] matches
    [isoformat dt] first with the six canonical fields and leaves the
    microsecond suffix. *)
Lemma format_matches_isoformat (dt : datetime) :
  valid dt = true ->
  exists tl, format_matches (isoformat dt) =
    ([zpad 4 (year dt); zpad 2 (month dt); zpad 2 (day dt); zpad 2 (hour dt);
      zpad 2 (minute dt); zpad 2 (second dt)],
     if Z.eqb (microsecond dt) 0 then EmptyString
     else ("." ++ zpad 6 (microsecond dt))%string) :: tl.
Proof.
  intros Hv. destruct dt as [y m d hh mi ss us]. unfold valid in Hv. cbn in Hv.
  bool_prop.
  assert (Hdim : days_in_month y m <= 31) by (unfold days_in_month; case_ifs; lia).
  unfold isoformat, date_text. cbn [year month day hour minute second microsecond].
  rewrite <- !str_app_assoc, !str_app_cons, !str_app_nil_l.
  unfold format_matches.
  rewrite year_field by lia. field_step.
  rewrite match_lit_same. field_step.
  field2 pat_m 1 12 m.
  field_step. rewrite match_lit_same. field_step.
  field2 pat_d 1 31 d.
  field_step.
  rewrite match_spaces_single; [|apply zpad_digits; lia
                               |apply (nonempty_of_length _ 2); [apply zpad_length; cbn; lia|lia]].
  field_step.
  field2 pat_H 0 23 hh.
  field_step. rewrite match_lit_same. field_step.
  field2 pat_M 0 59 mi.
  field_step. rewrite match_lit_same. field_step.
  field2 pat_S 0 59 ss.
  field_step. by exists [].
Qed.

(** [int(g.strip())] of a padded field gives the field back. *)
Lemma read_zpad (w : nat) (n : Z) : 0 <= n -> int_of_digits (strip (zpad w n)) = n.
Proof. intros Hn. rewrite strip_digits by (by apply zpad_digits). by apply zpad_value. Qed.

(** Reading back the text of [isoformat(" ")]. *)
Lemma strptime_of_isoformat (dt : datetime) :
  valid dt = true ->
  strptime (isoformat dt) =
    if Z.eqb (microsecond dt) 0 then Ok dt
    else Err (ValueErrorUnconverted ("." ++ zpad 6 (microsecond dt))).
Proof.
  intros Hv. unfold strptime. destruct (format_matches_isoformat dt Hv) as [tl ->].
  destruct (Z.eqb_spec (microsecond dt) 0) as [Hus|Hus];
    [|by rewrite str_app_cons, str_app_nil_l].
  destruct dt as [y m d hh mi ss us]. cbn in Hus |- *. subst us.
  assert (0 <= y /\ 0 <= m /\ 0 <= d /\ 0 <= hh /\ 0 <= mi /\ 0 <= ss)
    by (unfold valid in Hv; cbn in Hv; bool_prop; lia).
  cbn [map]. rewrite !read_zpad by lia. by rewrite Hv.
Qed.

(** C7: sqlite3 stores a [datetime] as [isoformat(" ")].  Reading it back
    with [strptime(s, "%Y-%m-%d %H:%M:%S")] gives the same datetime when
    it has no microseconds, and raises [ValueError] ("unconverted data
    remains: .ffffff") when it has some. *)
Theorem strptime_isoformat (dt : datetime) :
  valid dt = true ->
  strptime (isoformat dt) =
    if Z.eqb (microsecond dt) 0 then Ok dt
    else Err (ValueErrorUnconverted ("." ++ zpad 6 (microsecond dt))).
Proof. apply strptime_of_isoformat. Qed.

(** ** Witnesses *)

Lemma strptime_isoformat_witness :
  valid (mk 2024 1 15 10 30 0 123456) = true /\
  strptime (isoformat (mk 2024 1 15 10 30 0 123456)) =
    if Z.eqb (microsecond (mk 2024 1 15 10 30 0 123456)) 0 then Ok (mk 2024 1 15 10 30 0 123456)
    else Err (ValueErrorUnconverted ("." ++ zpad 6 (microsecond (mk 2024 1 15 10 30 0 123456)))).
Proof.
  split; [vm_compute; reflexivity|].
  apply strptime_isoformat. vm_compute. reflexivity.
Defined.

End DateTime.
