(* ===== verification/OrderStore.v ===== *)
(** The order store: [src/models/order_model.py] ([Order]) and the
    [DatabaseManager] of [src/utils/database.py] over an explicit state
    of the SQLite database: the rows of table [orders] in rowid order
    (or no table) and the table's AUTOINCREMENT counter from
    [sqlite_sequence].  Every method is a function of that state (and of
    the clock for [datetime.now()]); a method that can raise returns a
    [result]. *)

From stdpp Require Import base list strings.
From Stdlib Require Import String Ascii ZArith Lia Sorted Permutation.
From S2P Require Import Prelude PyStr DateTime.

Open Scope Z_scope.
Local Open Scope bot_scope.

Module OrderStore.

Import DateTime.

(** ** [models/order_model.py] *)

Record Order := mkOrder {
  id : option Z;
  customer_name : string;
  customer_wa : string;
  customer_address : string;
  items : string;
  total : Z;
  status : string;
  created_at : datetime
}.

(** [Order(id, ..., created_at)]: [created_at if created_at else datetime.now()]. *)
Definition Order_init (now : datetime) (id : option Z) (name wa address items : string)
    (total : Z) (status : string) (created_at : option datetime) : Order :=
  mkOrder id name wa address items total status
          (match created_at with Some c => c | None => now end).

(** ** The database *)

(** A row of [orders]; [created_at] holds the text SQLite stores. *)
Record row := mkRow {
  rid : Z;
  r_name : string;
  r_wa : string;
  r_address : string;
  r_items : string;
  r_total : Z;
  r_status : string;
  r_created : string
}.

Record db := mkDb {
  orders : option (list row);   (** [None]: no table [orders] *)
  seq : Z                        (** [sqlite_sequence] for [orders] *)
}.

(** The largest rowid SQLite can assign. *)
Definition MAX_ROWID : Z := 2 ^ 63 - 1.

Inductive store_error :=
| NoSuchTable                    (** sqlite3.OperationalError: no such table *)
| DatabaseFull                   (** sqlite3.OperationalError: database or disk is full *)
| DateError (e : DateTime.error). (** ValueError raised by [datetime.strptime] *)

(** [ORDER BY created_at DESC] compares texts with the BINARY collation:
    bytewise, which on UTF-8 is code point order. *)
Fixpoint text_compare (a b : string) : comparison :=
  match a, b with
  | EmptyString, EmptyString => Eq
  | EmptyString, String _ _ => Lt
  | String _ _, EmptyString => Gt
  | String c a', String d b' =>
      match N.compare (code c) (code d) with Eq => text_compare a' b' | r => r end
  end.

Definition text_ltb (a b : string) : bool :=
  match text_compare a b with Lt => true | _ => false end.

(** Insertion into a list sorted by descending [created_at]; a row goes
    after the rows with an equal key, so ties keep rowid order. *)
Fixpoint insert_desc (r : row) (l : list row) : list row :=
  match l with
  | [] => [r]
  | r' :: l' => if text_ltb (r_created r') (r_created r) then r :: l else r' :: insert_desc r l'
  end.

Definition sort_desc (l : list row) : list row := fold_left (fun acc r => insert_desc r acc) l [].

(** ** [DatabaseManager] *)

(** [_init_db]: [CREATE TABLE IF NOT EXISTS orders]. *)
Definition init_db (d : db) : db :=
  match orders d with
  | Some _ => d
  | None => mkDb (Some []) 0
  end.

Definition max_rid (rows : list row) : Z := fold_left (fun m r => Z.max m (rid r)) rows 0.

(** AUTOINCREMENT: one more than the largest rowid the table has ever
    had, or [SQLITE_FULL] past the largest rowid. *)
Definition next_rowid (rows : list row) (s : Z) : result store_error Z :=
  let n := Z.max s (max_rid rows) + 1 in
  if n <=? MAX_ROWID then Ok n else Err DatabaseFull.

(** [add_order]: INSERT the order (sqlite3 adapts [created_at] with
    [isoformat(" ")]) and return [lastrowid]. *)
Definition add_order (d : db) (o : Order) : result store_error (db * Z) :=
  match orders d with
  | None => Err NoSuchTable
  | Some rows =>
      let* n := next_rowid rows (seq d) in
      let r := mkRow n (customer_name o) (customer_wa o) (customer_address o) (items o)
                     (total o) (status o) (isoformat (created_at o)) in
      Ok (mkDb (Some (rows ++ [r])) n, n)
  end.

(** The [Order(...)] built from a fetched row, parsing [created_at]. *)
Definition row_to_order (r : row) : result store_error Order :=
  let* c := map_err DateError (strptime (r_created r)) in
  Ok (mkOrder (Some (rid r)) (r_name r) (r_wa r) (r_address r) (r_items r)
              (r_total r) (r_status r) c).

Fixpoint rows_to_orders (rows : list row) : result store_error (list Order) :=
  match rows with
  | [] => Ok []
  | r :: rs => let* o := row_to_order r in let* os := rows_to_orders rs in Ok (o :: os)
  end.

(** [get_all_orders]: [SELECT * FROM orders ORDER BY created_at DESC]. *)
Definition get_all_orders (d : db) : result store_error (list Order) :=
  match orders d with
  | None => Err NoSuchTable
  | Some rows => rows_to_orders (sort_desc rows)
  end.

(** [get_order]: [SELECT * FROM orders WHERE id = ?]; [None] when absent. *)
Definition get_order (d : db) (order_id : Z) : result store_error (option Order) :=
  match orders d with
  | None => Err NoSuchTable
  | Some rows =>
      match List.find (fun r => Z.eqb (rid r) order_id) rows with
      | None => Ok None
      | Some r => let* o := row_to_order r in Ok (Some o)
      end
  end.

Definition set_status (new_status : string) (r : row) : row :=
  mkRow (rid r) (r_name r) (r_wa r) (r_address r) (r_items r) (r_total r) new_status (r_created r).

(** [update_order_status]: [UPDATE orders SET status = ? WHERE id = ?]. *)
Definition update_order_status (d : db) (order_id : Z) (new_status : string) : result store_error db :=
  match orders d with
  | None => Err NoSuchTable
  | Some rows =>
      Ok (mkDb (Some (map (fun r => if Z.eqb (rid r) order_id then set_status new_status r else r) rows))
               (seq d))
  end.

(** The four rows of [init_sample_data]. *)
Definition sample_orders : list (string * string * string * string * Z * string * string) := [
  ("Budi Santoso", "+628123456789", "Jl. Merdeka No. 123", "2 Nasi Goreng, 1 Es Teh", 55000, "completed", "2024-01-15 10:30:00");
  ("Siti Rahayu", "+628987654321", "Jl. Sudirman No. 45", "1 Ayam Bakar, 2 Es Jeruk", 47000, "processing", "2024-01-15 11:15:00");
  ("Ahmad Wijaya", "+628112233445", "Jl. Gatot Subroto No. 67", "3 Mie Goreng, 1 Es Teh", 65000, "confirmed", "2024-01-15 12:00:00");
  ("Dewi Lestari", "+628556677889", "Jl. Thamrin No. 89", "1 Nasi Goreng, 1 Ayam Bakar", 60000, "pending", "2024-01-15 09:45:00")
]%string.

(** [executemany(INSERT ...)] of the sample rows into an empty table. *)
Definition insert_samples (rows : list row) (s : Z)
    (samples : list (string * string * string * string * Z * string * string)) : list row * Z :=
  fold_left (fun '(rows, s) '(name, wa, address, its, tot, st, created) =>
               let n := s + 1 in (rows ++ [mkRow n name wa address its tot st created], n))
            samples (rows, s).

(** [init_sample_data]: DROP TABLE (which also drops its
    [sqlite_sequence] entry), CREATE TABLE, insert the samples. *)
Definition init_sample_data (d : db) : db :=
  let '(rows, s) := insert_samples [] 0 sample_orders in mkDb (Some rows) s.

(** ** Queries over [get_all_orders] *)

Definition filter_orders (p : Order -> bool) (d : db) : result store_error (list Order) :=
  let* all := get_all_orders d in Ok (List.filter p all).

Definition date_eqb (a b : Z * Z * Z) : bool :=
  let '(y1, m1, d1) := a in let '(y2, m2, d2) := b in
  Z.eqb y1 y2 && Z.eqb m1 m2 && Z.eqb d1 d2.

(** [get_today_orders]: [order.created_at.date() == datetime.now().date()]. *)
Definition get_today_orders (now : datetime) (d : db) : result store_error (list Order) :=
  filter_orders (fun o => date_eqb (date_of (created_at o)) (date_of now)) d.

(** [datetime.now() - timedelta(days=n)], then [created_at >= ...]. *)
Definition get_orders_since (now : datetime) (ndays : Z) (d : db) : result store_error (list Order) :=
  let* since := map_err DateError (sub_days now ndays) in
  filter_orders (fun o => geb (created_at o) since) d.

Definition get_weekly_orders (now : datetime) (d : db) := get_orders_since now 7 d.
Definition get_monthly_orders (now : datetime) (d : db) := get_orders_since now 30 d.

Definition is_pending_status (s : string) : bool :=
  existsb (String.eqb s) ["pending"; "confirmed"; "processing"]%string.

(** [get_pending_orders] *)
Definition get_pending_orders (d : db) : result store_error (list Order) :=
  filter_orders (fun o => is_pending_status (status o)) d.

(** [get_orders_by_status] *)
Definition get_orders_by_status (d : db) (s : string) : result store_error (list Order) :=
  filter_orders (fun o => String.eqb (status o) s) d.

(** ** The store as a state machine *)

(** Successive [add_order] calls, as a client makes them: the ids they
    return, or the first error. *)
Fixpoint add_orders (d : db) (os : list Order) : result store_error (db * list Z) :=
  match os with
  | [] => Ok (d, [])
  | o :: os' =>
      match add_order d o with
      | Err e => Err e
      | Ok (d1, n) =>
          match add_orders d1 os' with
          | Err e => Err e
          | Ok (d2, ns) => Ok (d2, n :: ns)
          end
      end
  end.

(** A fresh database file: no table, no [sqlite_sequence] entry. *)
Definition empty_db : db := mkDb None 0.

(** The methods that change the database, as steps. *)
Inductive step : db -> db -> Prop :=
| step_init_db d : step d (init_db d)
| step_add_order d o d' n : add_order d o = Ok (d', n) -> step d d'
| step_update_status d i s d' : update_order_status d i s = Ok d' -> step d d'
| step_init_sample_data d : step d (init_sample_data d).

(** [DatabaseManager()] runs [_init_db] on a fresh file; then any
    sequence of steps. *)
Inductive reachable : db -> Prop :=
| reachable_new : reachable (init_db empty_db)
| reachable_step d d' : reachable d -> step d d' -> reachable d'.

(** The table invariant: rowids strictly increase in rowid order, lie
    in [1, seq], and [seq] is within SQLite's rowid range. *)
Definition wf (d : db) : Prop :=
  0 <= seq d <= MAX_ROWID /\
  match orders d with
  | None => True
  | Some rows => StronglySorted (fun a b => rid a < rid b) rows /\
                 Forall (fun r => 1 <= rid r <= seq d) rows
  end.

(** ** Helper lemmas *)

Lemma max_rid_bound (rows : list row) (s : Z) :
  0 <= s -> Forall (fun r => rid r <= s) rows -> max_rid rows <= s.
Proof.
  intros Hs Hrows. unfold max_rid.
  assert (H : forall m, m <= s -> fold_left (fun m r => Z.max m (rid r)) rows m <= s).
  { induction Hrows as [|r rows Hr Hrows IH]; intros m Hm; [done|]. cbn. apply IH. lia. }
  by apply H.
Qed.

Lemma StronglySorted_snoc {A} (R : A -> A -> Prop) (l : list A) (x : A) :
  StronglySorted R l -> Forall (fun y => R y x) l -> StronglySorted R (l ++ [x]).
Proof.
  induction 1 as [|y l Hl IH Hy]; intros Hx; cbn.
  - repeat constructor.
  - inversion Hx as [|? ? Hyx Hx']; subst. constructor; [by apply IH|].
    apply Forall_app. by split; [|repeat constructor].
Qed.

Lemma next_rowid_wf (rows : list row) (s n : Z) :
  0 <= s -> Forall (fun r => 1 <= rid r <= s) rows ->
  next_rowid rows s = Ok n -> n = s + 1 /\ n <= MAX_ROWID.
Proof.
  intros Hs Hrows. unfold next_rowid.
  assert (max_rid rows <= s).
  { apply max_rid_bound; [done|]. eapply Forall_impl; [exact Hrows|]. cbn. lia. }
  destruct (Z.leb_spec (Z.max s (max_rid rows) + 1) MAX_ROWID); [|done].
  intros [= <-]. lia.
Qed.

Lemma add_order_ok (d : db) (o : Order) (d' : db) (n : Z) :
  wf d -> add_order d o = Ok (d', n) ->
  exists rows, orders d = Some rows /\ n = seq d + 1 /\ n <= MAX_ROWID /\
    d' = mkDb (Some (rows ++ [mkRow n (customer_name o) (customer_wa o) (customer_address o)
                                    (items o) (total o) (status o) (isoformat (created_at o))]))
              n.
Proof.
  intros [Hs Hrows] Hadd. unfold add_order in Hadd.
  destruct (orders d) as [rows|]; [|done]. destruct Hrows as [_ Hrows].
  destruct (next_rowid rows (seq d)) as [m|] eqn:En; [|done].
  cbn in Hadd. injection Hadd as <- <-.
  destruct (next_rowid_wf rows (seq d) m ltac:(lia) Hrows En) as [-> ?].
  by exists rows.
Qed.

Lemma wf_init_db (d : db) : wf d -> wf (init_db d).
Proof.
  unfold init_db. destruct (orders d); [done|]. intros _.
  split; [cbn; unfold MAX_ROWID; lia|]. cbn. split; constructor.
Qed.

Lemma wf_add_order (d : db) (o : Order) (d' : db) (n : Z) :
  wf d -> add_order d o = Ok (d', n) -> wf d'.
Proof.
  intros Hwf Hadd. destruct (add_order_ok _ _ _ _ Hwf Hadd) as (rows & Hr & -> & Hmax & ->).
  destruct Hwf as [Hs Hrows]. rewrite Hr in Hrows. destruct Hrows as [Hsort Hb].
  split; [cbn; lia|]. cbn. split.
  - apply StronglySorted_snoc; [done|]. eapply Forall_impl; [exact Hb|]. cbn. lia.
  - apply Forall_app. split.
    + eapply Forall_impl; [exact Hb|]. cbn. lia.
    + repeat constructor; cbn; lia.
Qed.

Lemma map_status_rids (i : Z) (s : string) (rows : list row) :
  map rid (map (fun r => if Z.eqb (rid r) i then set_status s r else r) rows) = map rid rows.
Proof. induction rows as [|r rows IH]; [done|]. cbn. by destruct (Z.eqb (rid r) i); rewrite IH. Qed.

Lemma wf_update_status (d : db) (i : Z) (s : string) (d' : db) :
  wf d -> update_order_status d i s = Ok d' -> wf d'.
Proof.
  unfold update_order_status, wf. destruct (orders d) as [rows|]; [|done].
  intros [Hs [Hsort Hb]] [= <-]. cbn. split; [done|]. split.
  - induction Hsort as [|r rows Hsort IH Hr]; cbn; constructor.
    + apply IH. by inversion Hb.
    + destruct (Z.eqb (rid r) i); apply Forall_forall; intros x Hx;
        apply list_elem_of_In, in_map_iff in Hx as (y & <- & Hy);
        rewrite Forall_forall in Hr; specialize (Hr y (proj2 (list_elem_of_In _ _) Hy));
        destruct (Z.eqb (rid y) i); done.
  - apply Forall_forall. intros x Hx.
    apply list_elem_of_In, in_map_iff in Hx as (y & <- & Hy).
    rewrite Forall_forall in Hb. specialize (Hb y (proj2 (list_elem_of_In _ _) Hy)).
    by destruct (Z.eqb (rid y) i).
Qed.

Lemma wf_init_sample_data (d : db) : wf (init_sample_data d).
Proof.
  split; [cbn; unfold MAX_ROWID; lia|]. cbn.
  split; repeat constructor; cbn; lia.
Qed.

Lemma wf_step (d d' : db) : wf d -> step d d' -> wf d'.
Proof.
  intros Hwf Hstep. destruct Hstep.
  - by apply wf_init_db.
  - by eapply wf_add_order.
  - by eapply wf_update_status.
  - apply wf_init_sample_data.
Qed.

Lemma find_app_none {A} (p : A -> bool) (l1 l2 : list A) :
  List.find p l1 = None -> List.find p (l1 ++ l2) = List.find p l2.
Proof. induction l1 as [|x l1 IH]; [done|]. cbn. by destruct (p x). Qed.

Lemma find_none_forall {A} (p : A -> bool) (l : list A) :
  Forall (fun x => p x = false) l -> List.find p l = None.
Proof. induction 1 as [|x l Hx _ IH]; [done|]. cbn. by rewrite Hx. Qed.

Lemma row_to_order_isoformat (n : Z) (name wa address its : string) (tot : Z) (st : string)
    (c : datetime) :
  valid c = true -> microsecond c = 0 ->
  row_to_order (mkRow n name wa address its tot st (isoformat c))
  = Ok (mkOrder (Some n) name wa address its tot st c).
Proof.
  intros Hv Hus. unfold row_to_order. cbn [r_created].
  rewrite strptime_of_isoformat, Hus by done. reflexivity.
Qed.

Lemma rows_to_orders_err (l : list row) (r : row) (e : store_error) :
  In r l -> row_to_order r = Err e -> exists e', rows_to_orders l = Err e'.
Proof.
  induction l as [|r' l IH]; [done|]. intros [->|Hin] Hr; cbn.
  - rewrite Hr. by eexists.
  - destruct (row_to_order r'); cbn; [|by eexists].
    destruct (IH Hin Hr) as [e' ->]. by eexists.
Qed.

Lemma rows_to_orders_date_error (l : list row) (e : store_error) :
  rows_to_orders l = Err e -> exists e0, e = DateError e0.
Proof.
  induction l as [|r l IH]; [done|]. cbn. unfold row_to_order.
  destruct (strptime (r_created r)) as [c|e0]; cbn.
  - destruct (rows_to_orders l); cbn; [done|]. intros [= ->]. by apply IH.
  - intros [= <-]. by exists e0.
Qed.

Lemma insert_desc_perm (r : row) (l : list row) : Permutation (insert_desc r l) (r :: l).
Proof.
  induction l as [|r' l IH]; cbn; [done|].
  destruct (text_ltb (r_created r') (r_created r)); [done|].
  rewrite IH. apply perm_swap.
Qed.

Lemma sort_desc_perm (l : list row) : Permutation (sort_desc l) l.
Proof.
  unfold sort_desc.
  assert (H : forall acc, Permutation (fold_left (fun acc r => insert_desc r acc) l acc) (acc ++ l)).
  { induction l as [|r l IH]; intros acc; cbn; [by rewrite app_nil_r|].
    rewrite IH, insert_desc_perm. cbn. apply Permutation_middle. }
  apply H.
Qed.

Lemma text_compare_antisym (a b : string) : text_compare b a = CompOpp (text_compare a b).
Proof.
  revert b. induction a as [|c a IH]; intros [|d b]; try done. cbn.
  rewrite (N.compare_antisym (code c) (code d)).
  destruct (N.compare (code c) (code d)); cbn; auto.
Qed.

(** [a] sorts at or before [b] in [ORDER BY created_at DESC]. *)
Definition desc_le (a b : row) : Prop := text_compare (r_created a) (r_created b) <> Lt.

Lemma insert_desc_hdrel (r' r : row) (l : list row) :
  desc_le r' r -> HdRel desc_le r' l -> HdRel desc_le r' (insert_desc r l).
Proof.
  intros H1 H2. destruct l as [|r'' l]; cbn; [by constructor|].
  destruct (text_ltb _ _); constructor; [done|]. by inversion H2.
Qed.

Lemma insert_desc_sorted (r : row) (l : list row) :
  Sorted desc_le l -> Sorted desc_le (insert_desc r l).
Proof.
  induction 1 as [|r' l Hl IH Hhd]; cbn; [repeat constructor|].
  unfold text_ltb. destruct (text_compare (r_created r') (r_created r)) eqn:E.
  - constructor; [done|]. apply insert_desc_hdrel; [unfold desc_le; by rewrite E|done].
  - constructor; [by constructor|]. constructor. unfold desc_le.
    by rewrite text_compare_antisym, E.
  - constructor; [done|]. apply insert_desc_hdrel; [unfold desc_le; by rewrite E|done].
Qed.

Lemma set_status_twice (s : string) (r : row) : set_status s (set_status s r) = set_status s r.
Proof. reflexivity. Qed.

Lemma find_map_status (i j : Z) (s : string) (rows : list row) :
  List.find (fun r => Z.eqb (rid r) j)
            (map (fun r => if Z.eqb (rid r) i then set_status s r else r) rows)
  = option_map (fun r => if Z.eqb (rid r) i then set_status s r else r)
               (List.find (fun r => Z.eqb (rid r) j) rows).
Proof.
  induction rows as [|r rows IH]; [done|]. cbn.
  destruct (Z.eqb (rid r) i) eqn:Ei; cbn [rid set_status];
    destruct (Z.eqb (rid r) j); cbn; by rewrite ?Ei.
Qed.

(** ** Theorems *)

Lemma wf_reachable (d : db) : reachable d -> wf d.
Proof.
  induction 1 as [|d d' _ IH Hstep].
  - apply wf_init_db. split; [unfold MAX_ROWID; cbn; lia|done].
  - by apply (wf_step d).
Qed.

(** C4: Every state the methods can reach satisfies the table invariant. *)
Theorem reachable_wf (d : db) : reachable d -> wf d.
Proof. apply wf_reachable. Qed.

(** C5: AUTOINCREMENT: the id [add_order] returns is one more than the
    table's counter and larger than every id in the table. *)
Theorem add_order_fresh_id (d : db) (o : Order) (d' : db) (n : Z) :
  reachable d -> add_order d o = Ok (d', n) ->
  n = seq d + 1 /\ seq d' = n /\
  exists rows, orders d = Some rows /\ Forall (fun r => rid r < n) rows.
Proof.
  intros Hr Hadd. pose proof (wf_reachable d Hr) as Hwf.
  destruct (add_order_ok _ _ _ _ Hwf Hadd) as (rows & Hrows & -> & _ & ->).
  split; [done|]. split; [done|]. exists rows. split; [done|].
  destruct Hwf as [_ Hb]. rewrite Hrows in Hb. destruct Hb as [_ Hb].
  eapply Forall_impl; [exact Hb|]. cbn. lia.
Qed.

(** C6: Reading back: after [add_order], [get_order] of the returned id
    gives the order with that id, when its timestamp has no
    microseconds. *)
Theorem get_order_after_add (d : db) (o : Order) (d' : db) (n : Z) :
  wf d -> valid (created_at o) = true -> microsecond (created_at o) = 0 ->
  add_order d o = Ok (d', n) ->
  get_order d' n = Ok (Some (mkOrder (Some n) (customer_name o) (customer_wa o)
                                     (customer_address o) (items o) (total o) (status o)
                                     (created_at o))).
Proof.
  intros Hwf Hv Hus Hadd.
  destruct (add_order_ok _ _ _ _ Hwf Hadd) as (rows & Hrows & Hn & _ & ->).
  destruct Hwf as [_ Hb]. rewrite Hrows in Hb. destruct Hb as [_ Hb].
  unfold get_order. cbn [orders]. rewrite find_app_none.
  - cbn. rewrite Z.eqb_refl, row_to_order_isoformat by done. reflexivity.
  - apply find_none_forall. eapply Forall_impl; [exact Hb|]. intros r Hr.
    cbn in Hr. apply Z.eqb_neq. lia.
Qed.

(** C8: [datetime.now()] has microseconds: once [add_order] stores such a
    timestamp, [get_all_orders] raises [ValueError] from [strptime], and
    so does every query built on it, such as [get_pending_orders]. *)
Theorem add_order_microseconds_breaks_reads (d : db) (o : Order) (d' : db) (n : Z) :
  wf d -> valid (created_at o) = true -> microsecond (created_at o) <> 0 ->
  add_order d o = Ok (d', n) ->
  exists e, get_all_orders d' = Err (DateError e) /\ get_pending_orders d' = Err (DateError e).
Proof.
  intros Hwf Hv Hus Hadd.
  destruct (add_order_ok _ _ _ _ Hwf Hadd) as (rows & _ & _ & _ & ->).
  set (r := mkRow n _ _ _ _ _ _ _).
  assert (Hr : row_to_order r = Err (DateError (ValueErrorUnconverted
                 ("." ++ zpad 6 (microsecond (created_at o)))))).
  { unfold row_to_order, r. cbn [r_created]. rewrite strptime_of_isoformat by done.
    by destruct (Z.eqb_spec (microsecond (created_at o)) 0). }
  assert (Hin : In r (sort_desc (rows ++ [r]))).
  { eapply Permutation_in; [symmetry; apply sort_desc_perm|]. apply in_or_app. by right; left. }
  destruct (rows_to_orders_err _ _ _ Hin Hr) as [e' He'].
  destruct (rows_to_orders_date_error _ _ He') as [e0 ->].
  exists e0. unfold get_pending_orders, filter_orders, get_all_orders. cbn [orders].
  by rewrite He'.
Qed.

(** C28: [get_all_orders] lists every row once, most recent [created_at]
    text first. *)
Theorem get_all_orders_sorted (rows : list row) :
  Permutation (sort_desc rows) rows /\ Sorted desc_le (sort_desc rows).
Proof.
  split; [apply sort_desc_perm|]. unfold sort_desc.
  assert (H : forall acc, Sorted desc_le acc ->
              Sorted desc_le (fold_left (fun acc r => insert_desc r acc) rows acc)).
  { induction rows as [|r rows IH]; intros acc Hacc; [done|]. cbn.
    apply IH. by apply insert_desc_sorted. }
  apply H. constructor.
Qed.

(** [update_order_status] twice with the same status is the same as
    once, and never fails on an existing table. *)
Theorem update_order_status_idempotent (d d' : db) (i : Z) (s : string) :
  update_order_status d i s = Ok d' -> update_order_status d' i s = Ok d'.
Proof.
  unfold update_order_status. destruct (orders d) as [rows|]; [|done].
  intros [= <-]. cbn. do 2 f_equal. rewrite map_map. f_equal.
  apply map_ext. intros r. destruct (Z.eqb (rid r) i) eqn:E; [|by rewrite E].
  cbn [rid set_status]. by rewrite E.
Qed.

(** Updating the status of an id that is not in the table changes
    nothing. *)
Theorem update_order_status_missing (d : db) (i : Z) (s : string) :
  get_order d i = Ok None -> update_order_status d i s = Ok d.
Proof.
  unfold get_order, update_order_status. destruct d as [[rows|] sq]; cbn; [|done].
  destruct (List.find (fun r => Z.eqb (rid r) i) rows) eqn:E; [by destruct (row_to_order r)|].
  intros _. do 3 f_equal. rewrite <- (map_id rows) at 2. apply map_ext_in.
  intros r Hr. destruct (Z.eqb (rid r) i) eqn:Er; [|done].
  exfalso. eapply find_none in E; [|exact Hr]. cbn in E. congruence.
Qed.

(** C27: [update_order_status] sets the status of the order with that id
    and leaves every other order as it was. *)
Theorem get_order_after_update (d d' : db) (i j : Z) (s : string) :
  update_order_status d i s = Ok d' ->
  get_order d' j =
    match get_order d j with
    | Ok (Some o) =>
        Ok (Some (if Z.eqb j i
                  then mkOrder (id o) (customer_name o) (customer_wa o) (customer_address o)
                               (items o) (total o) s (created_at o)
                  else o))
    | r => r
    end.
Proof.
  unfold update_order_status, get_order. destruct (orders d) as [rows|]; [|done].
  intros [= <-]. cbn [orders]. rewrite find_map_status.
  destruct (List.find (fun r => Z.eqb (rid r) j) rows) as [r|] eqn:E; [|done]. cbn.
  apply find_some in E as [_ Ej]. apply Z.eqb_eq in Ej. subst j.
  destruct (Z.eqb (rid r) i) eqn:Ei; unfold row_to_order; cbn [r_created set_status];
    destruct (strptime (r_created r)); done.
Qed.

(** ** Scenarios *)

(** The ids and names [get_all_orders]-based queries return, for
    stating scenarios. *)
Definition ids_of (r : result store_error (list Order)) : option (list (option Z)) :=
  match r with Ok l => Some (map id l) | Err _ => None end.

(** "Today" is the calendar date of [now]: at 00:30 an order of 23:59
    the day before is not counted although it is 31 minutes old, and
    an order of 00:10 is. *)
Theorem today_is_calendar_date :
  match add_order (init_db empty_db)
          (mkOrder None "A" "+6281" "Jl. 1" "1 Es Teh" 5000 "pending"
                   (DateTime.mk 2024 1 14 23 59 0 0)) with
  | Ok (d, _) =>
      match add_order d (mkOrder None "B" "+6282" "Jl. 2" "1 Es Jeruk" 6000 "pending"
                                 (DateTime.mk 2024 1 15 0 10 0 0)) with
      | Ok (d', _) =>
          ids_of (get_today_orders (DateTime.mk 2024 1 15 0 30 0 0) d') = Some [Some 2] /\
          ids_of (get_all_orders d') = Some [Some 2; Some 1]
      | Err _ => False
      end
  | Err _ => False
  end.
Proof. vm_compute. split; reflexivity. Qed.

(** The weekly window includes its lower bound: an order exactly seven
    days old is counted, one a second older is not. *)
Theorem weekly_window_inclusive :
  match add_order (init_db empty_db)
          (mkOrder None "A" "+6281" "Jl. 1" "1 Es Teh" 5000 "pending"
                   (DateTime.mk 2024 3 3 12 0 0 0)) with
  | Ok (d, _) =>
      match add_order d (mkOrder None "B" "+6282" "Jl. 2" "1 Es Jeruk" 6000 "pending"
                                 (DateTime.mk 2024 3 3 11 59 59 0)) with
      | Ok (d', _) => ids_of (get_weekly_orders (DateTime.mk 2024 3 10 12 0 0 0) d') = Some [Some 1]
      | Err _ => False
      end
  | Err _ => False
  end.
Proof. vm_compute. reflexivity. Qed.

(** With room below the largest rowid, [add_order] appends a row with
    the next id. *)
Lemma add_order_next (d : db) (o : Order) (rows : list row) :
  wf d -> orders d = Some rows -> seq d < MAX_ROWID ->
  exists rows', orders d = Some rows /\ add_order d o = Ok (mkDb (Some rows') (seq d + 1), seq d + 1).
Proof.
  intros [Hs Hb] Hrows Hlt. rewrite Hrows in Hb. destruct Hb as [_ Hb].
  assert (max_rid rows <= seq d).
  { apply max_rid_bound; [lia|]. eapply Forall_impl; [exact Hb|]. cbn. lia. }
  unfold add_order, next_rowid. rewrite Hrows.
  replace (Z.max (seq d) (max_rid rows)) with (seq d) by lia.
  rewrite (proj2 (Z.leb_le _ _)) by lia. cbn. by eexists.
Qed.

(** [add_orders] hands out the ids after the counter, one by one. *)
Lemma add_orders_ids (d : db) (os : list Order) (rows : list row) :
  wf d -> orders d = Some rows -> seq d + Z.of_nat (List.length os) <= MAX_ROWID ->
  exists d', add_orders d os = Ok (d', map (fun k => seq d + 1 + Z.of_nat k) (List.seq 0 (List.length os))).
Proof.
  revert d rows. induction os as [|o os IH]; intros d rows Hwf Hrows Hlen; [by eexists|].
  cbn [List.length] in Hlen.
  destruct (add_order_next d o rows Hwf Hrows ltac:(lia)) as (rows' & _ & Hadd).
  pose proof (wf_add_order _ _ _ _ Hwf Hadd) as Hwf'.
  destruct (IH _ rows' Hwf' eq_refl ltac:(cbn; lia)) as (d' & Hd').
  exists d'. cbn [add_orders]. rewrite Hadd, Hd'. cbn [seq].
  cbn [List.length List.seq map]. rewrite <- seq_shift, map_map. do 3 f_equal; [lia|].
  apply map_ext. intros k. lia.
Qed.

(** C33: [init_sample_data] drops the table together with its
    AUTOINCREMENT counter ([sqlite_sequence] row): whatever the store
    held before, the orders added after the reset get the ids 5, 6, ...
    again, so when the store had already handed out that many ids,
    every id given after the reset is one that named another order
    before it. *)
Theorem reset_reuses_ids (d : db) (os : list Order) :
  reachable d -> 4 + Z.of_nat (List.length os) <= seq d ->
  exists d' ids, add_orders (init_sample_data d) os = Ok (d', ids)
  /\ ids = map (fun k => 5 + Z.of_nat k) (List.seq 0 (List.length os))
  /\ Forall (fun n => n <= seq d) ids.
Proof.
  intros Hr Hlen. destruct (wf_reachable d Hr) as [[_ Hmax] _].
  destruct (add_orders_ids (init_sample_data d) os _ (wf_init_sample_data d) eq_refl) as (d' & Hd');
    [cbn; lia|].
  exists d', (map (fun k => 5 + Z.of_nat k) (List.seq 0 (List.length os))). split_and!; [exact Hd'|done|].
  apply List.Forall_forall. intros n (k & <- & Hk%in_seq)%in_map_iff. lia.
Qed.

(** Whatever the state, [init_sample_data] leaves exactly the four
    sample orders, most recent first: the store cannot be reset to an
    empty or another seed. *)
Theorem init_sample_data_contents (d : db) :
  ids_of (get_all_orders (init_sample_data d)) = Some [Some 3; Some 2; Some 1; Some 4].
Proof. vm_compute. reflexivity. Qed.

(** ** Witnesses *)

Lemma reachable_wf_witness : reachable (init_db empty_db) /\ wf (init_db empty_db).
Proof. split; [constructor|]. apply reachable_wf. constructor. Defined.

Lemma add_order_fresh_id_witness :
  reachable (init_sample_data (init_db empty_db)) /\
  match add_order (init_sample_data (init_db empty_db))
          (mkOrder None "Rina" "+62811" "Jl. Kenanga 1" "2 Nasi Goreng" 50000 "pending"
                   (DateTime.mk 2024 1 16 9 0 0 0)) with
  | Ok (d', n) =>
      n = seq (init_sample_data (init_db empty_db)) + 1 /\ seq d' = n /\
      exists rows, orders (init_sample_data (init_db empty_db)) = Some rows /\
                   Forall (fun r => rid r < n) rows
  | Err _ => False
  end.
Proof.
  assert (Hr : reachable (init_sample_data (init_db empty_db))).
  { eapply reachable_step; [apply reachable_new|apply step_init_sample_data]. }
  split; [exact Hr|].
  destruct (add_order _ _) as [[d' n]|e] eqn:E; [|vm_compute in E; discriminate].
  exact (add_order_fresh_id _ _ _ _ Hr E).
Defined.

Lemma reset_reuses_ids_witness :
  match add_order (init_sample_data (init_db empty_db))
          (mkOrder None "Rina" "+62811" "Jl. Kenanga 1" "2 Nasi Goreng" 50000 "pending"
                   (DateTime.mk 2024 1 16 9 0 0 0)) with
  | Ok (d, _) =>
      reachable d /\ 4 + 1 <= seq d
      /\ exists d' ids,
           add_orders (init_sample_data d)
             [mkOrder None "Joko" "+62822" "Jl. Melati 2" "1 Es Teh" 5000 "pending"
                      (DateTime.mk 2024 1 17 9 0 0 0)] = Ok (d', ids)
           /\ ids = map (fun k => 5 + Z.of_nat k) (List.seq 0 1) /\ Forall (fun n => n <= seq d) ids
  | Err _ => False
  end.
Proof.
  assert (Hr : reachable (init_sample_data (init_db empty_db))).
  { eapply reachable_step; [apply reachable_new|apply step_init_sample_data]. }
  destruct (add_order _ _) as [[d n]|e] eqn:E; [|vm_compute in E; discriminate].
  assert (Hd : reachable d) by (eapply reachable_step; [exact Hr|eapply step_add_order; exact E]).
  assert (Hs : 4 + 1 <= seq d) by (vm_compute in E; injection E as <- _; vm_compute; discriminate).
  exact (conj Hd (conj Hs (reset_reuses_ids d
    [mkOrder None "Joko" "+62822" "Jl. Melati 2" "1 Es Teh" 5000 "pending" (DateTime.mk 2024 1 17 9 0 0 0)]
    Hd Hs))).
Defined.

Lemma get_order_after_add_witness :
  wf (init_db empty_db) /\
  match add_order (init_db empty_db)
          (mkOrder None "Rina" "+62811" "Jl. Kenanga 1" "2 Nasi Goreng" 50000 "pending"
                   (DateTime.mk 2024 1 16 9 0 0 0)) with
  | Ok (d', n) =>
      get_order d' n = Ok (Some (mkOrder (Some n) "Rina" "+62811" "Jl. Kenanga 1" "2 Nasi Goreng"
                                         50000 "pending" (DateTime.mk 2024 1 16 9 0 0 0)))
  | Err _ => False
  end.
Proof.
  assert (Hw : wf (init_db empty_db)) by (apply wf_reachable; constructor).
  split; [exact Hw|].
  destruct (add_order _ _) as [[d' n]|e] eqn:E; [|vm_compute in E; discriminate].
  refine (get_order_after_add _ _ _ _ Hw _ _ E); vm_compute; reflexivity.
Defined.

Lemma add_order_microseconds_breaks_reads_witness :
  match add_order (init_sample_data (init_db empty_db))
          (mkOrder None "Rina" "+62811" "Jl. Kenanga 1" "2 Nasi Goreng" 50000 "pending"
                   (DateTime.mk 2024 1 16 9 0 0 250000)) with
  | Ok (d', n) =>
      exists e, get_all_orders d' = Err (DateError e) /\ get_pending_orders d' = Err (DateError e)
  | Err _ => False
  end.
Proof.
  destruct (add_order _ _) as [[d' n]|e] eqn:E; [|vm_compute in E; discriminate].
  refine (add_order_microseconds_breaks_reads _ _ _ _ (wf_init_sample_data _) _ _ E);
    [vm_compute; reflexivity|cbn; lia].
Defined.

Lemma update_order_status_idempotent_witness :
  match update_order_status (init_sample_data empty_db) 2 "completed" with
  | Ok d' => update_order_status d' 2 "completed" = Ok d'
  | Err _ => False
  end.
Proof.
  destruct (update_order_status _ _ _) as [d'|e] eqn:E; [|vm_compute in E; discriminate].
  exact (update_order_status_idempotent _ _ _ _ E).
Defined.

Lemma update_order_status_missing_witness :
  get_order (init_sample_data empty_db) 9 = Ok None /\
  update_order_status (init_sample_data empty_db) 9 "cancelled" = Ok (init_sample_data empty_db).
Proof.
  split; [vm_compute; reflexivity|].
  apply update_order_status_missing. vm_compute. reflexivity.
Defined.

Lemma get_order_after_update_witness :
  match update_order_status (init_sample_data empty_db) 4 "confirmed" with
  | Ok d' =>
      get_order d' 4 =
        match get_order (init_sample_data empty_db) 4 with
        | Ok (Some o) =>
            Ok (Some (if Z.eqb 4 4
                      then mkOrder (id o) (customer_name o) (customer_wa o) (customer_address o)
                                   (items o) (total o) "confirmed" (created_at o)
                      else o))
        | r => r
        end
  | Err _ => False
  end.
Proof.
  destruct (update_order_status _ _ _) as [d'|e] eqn:E; [|vm_compute in E; discriminate].
  exact (get_order_after_update _ _ _ _ _ E).
Defined.

(** ** The rowid bound *)

(** C17: [add_order] on a table whose invariant holds gives the next id,
    between 1 and SQLite's largest rowid; it fails with [SQLITE_FULL]
    exactly when the counter has reached that largest rowid. *)
Theorem add_order_rowid_bound (d : db) (o : Order) :
  wf d -> orders d <> None ->
  match add_order d o with
  | Ok (d', n) => n = seq d + 1 /\ 1 <= n <= MAX_ROWID
  | Err e => e = DatabaseFull /\ seq d = MAX_ROWID
  end.
Proof.
  intros (Hs & Hrows) Ht. unfold add_order, next_rowid.
  destruct (orders d) as [rows|]; [|done]. destruct Hrows as [_ Hb].
  assert (Hm : max_rid rows <= seq d).
  { apply max_rid_bound; [lia|]. eapply Forall_impl; [exact Hb|]. cbn. lia. }
  rewrite Z.max_l by done. cbv zeta.
  destruct (Z.leb_spec (seq d + 1) MAX_ROWID); cbn; split_and!; first [done|lia].
Qed.

Definition full_db : db := mkDb (Some []) MAX_ROWID.

Definition ex_new_order : Order :=
  mkOrder None "Budi" "628111" "Jl. Merdeka 1" "nasi goreng" 15000 "pending" (mk 2024 1 15 10 30 0 0).

Lemma add_order_rowid_bound_witness :
  wf full_db /\ orders full_db <> None
  /\ match add_order full_db ex_new_order with
     | Ok (d', n) => n = seq full_db + 1 /\ 1 <= n <= MAX_ROWID
     | Err e => e = DatabaseFull /\ seq full_db = MAX_ROWID
     end.
Proof.
  assert (Hwf : wf full_db) by (split; [vm_compute; split; discriminate|split; constructor]).
  assert (Ht : orders full_db <> None) by discriminate.
  exact (conj Hwf (conj Ht (add_order_rowid_bound full_db ex_new_order Hwf Ht))).
Defined.

End OrderStore.
