(* ===== verification/Csv.v ===== *)
(** The CSV export of [src/utils/database.py], [export_orders_to_csv]:
    the records it builds from [get_all_orders], the cells pandas'
    [DataFrame.to_csv(index=False)] writes for its columns, and the text
    of the [csv] module's writer (excel dialect, [QUOTE_MINIMAL], line
    terminator "\n").  A reader of that text (the [csv] module's reader
    on "\n"-terminated records, as a state machine over the characters)
    inverts the writer: every list of records reads back as itself. *)

From stdpp Require Import base list strings.
From Stdlib Require Import String Ascii ZArith Lia.
From S2P Require Import Prelude PyStr DateTime OrderStore.

Open Scope Z_scope.
Local Open Scope bot_scope.

Module Csv.

Import DateTime.DateTime OrderStore.OrderStore.

(** ** The writer *)

Definition dq : ascii := "034"%char.   (* the quote character *)
Definition lf : ascii := "010"%char.   (* "\n" *)
Definition cr : ascii := "013"%char.   (* "\r" *)

(** A character that forces a field into quotes: the delimiter, the
    quote character, or a line break. *)
Definition special (c : ascii) : bool :=
  Ascii.eqb c "," || Ascii.eqb c dq || Ascii.eqb c lf || Ascii.eqb c cr.

Definition plain (f : string) : bool := str_all (fun c => negb (special c)) f.

(** [doublequote=True]: a quote inside a quoted field is written twice. *)
Fixpoint double_quotes (f : string) : string :=
  match f with
  | EmptyString => EmptyString
  | String c t => if Ascii.eqb c dq then String dq (String dq (double_quotes t))
                  else String c (double_quotes t)
  end.

Definition write_field (f : string) : string :=
  if plain f then f else String dq (double_quotes f ++ String dq EmptyString).

(** [writer.writerow(fields)]: the fields joined by commas, then the
    line terminator; a record of one empty field is written [""], so
    that it differs from an empty record. *)
Definition writerow (fields : list string) : string :=
  match fields with
  | [EmptyString] => String dq (String dq (String lf EmptyString))
  | _ => (join "," (map write_field fields) ++ String lf EmptyString)%string
  end.

Definition write_csv (records : list (list string)) : string := str_concat (map writerow records).

(** ** The reader *)

(** The states of the [csv] module's parser. *)
Inductive rstate := StartRecord | StartField | InField | InQuoted | QuoteInQuoted.

(** The field read so far is kept reversed. *)
Definition field (fld : list ascii) : string := string_of_list_ascii (rev fld).

(** [read_go st fld rec s]: the records of [s], in state [st], with the
    current field [fld] and the fields [rec] of the current record
    (reversed). *)
Fixpoint read_go (st : rstate) (fld : list ascii) (rec : list string) (s : string)
    : list (list string) :=
  match s with
  | EmptyString =>
      match st with
      | StartRecord => []
      | _ => [rev (field fld :: rec)]
      end
  | String c t =>
      match st with
      | StartRecord | StartField =>
          if Ascii.eqb c lf then
            match st with
            | StartRecord => [] :: read_go StartRecord [] [] t
            | _ => rev (EmptyString :: rec) :: read_go StartRecord [] [] t
            end
          else if Ascii.eqb c dq then read_go InQuoted [] rec t
          else if Ascii.eqb c "," then read_go StartField [] (EmptyString :: rec) t
          else read_go InField [c] rec t
      | InField =>
          if Ascii.eqb c lf then rev (field fld :: rec) :: read_go StartRecord [] [] t
          else if Ascii.eqb c "," then read_go StartField [] (field fld :: rec) t
          else read_go InField (c :: fld) rec t
      | InQuoted =>
          if Ascii.eqb c dq then read_go QuoteInQuoted fld rec t
          else read_go InQuoted (c :: fld) rec t
      | QuoteInQuoted =>
          if Ascii.eqb c dq then read_go InQuoted (dq :: fld) rec t
          else if Ascii.eqb c "," then read_go StartField [] (field fld :: rec) t
          else if Ascii.eqb c lf then rev (field fld :: rec) :: read_go StartRecord [] [] t
          else read_go InField (c :: fld) rec t
      end
  end.

Definition read_csv (s : string) : list (list string) := read_go StartRecord [] [] s.

(** ** [export_orders_to_csv] *)

(** The keys of the dicts of [orders_data], in order: the columns. *)
Definition csv_header : list string :=
  ["ID"; "Nama Pelanggan"; "WhatsApp"; "Alamat"; "Items"; "Total"; "Status"; "Tanggal"]%string.

(** A cell of the [ID] column ([int64]); the store always gives an id. *)
Definition id_text (i : option Z) : string :=
  match i with Some n => str_int n | None => EmptyString end.

(** A cell of the [Total] column ([float64], written with numpy's [str]):
    a whole number below 10^16 is written with ".0". *)
Definition float_text (x : Z) : string := (str_int x ++ ".0")%string.

(** The [Tanggal] column ([datetime64]).  When every value is at
    midnight pandas writes dates only; otherwise it writes
    "<year>-<mm>-<dd> <HH>:<MM>:<SS>" with a fraction of the finest
    resolution the column needs: none, milliseconds or microseconds. *)
Definition is_midnight (dt : datetime) : bool :=
  (hour dt =? 0) && (minute dt =? 0) && (second dt =? 0) && (microsecond dt =? 0).

Inductive resolution := Seconds | Millis | Micros.

Definition column_resolution (dts : list datetime) : resolution :=
  if existsb (fun dt => negb (microsecond dt mod 1000 =? 0)) dts then Micros
  else if existsb (fun dt => negb (microsecond dt =? 0)) dts then Millis
  else Seconds.

Definition timestamp_text (r : resolution) (dt : datetime) : string :=
  (str_int (year dt) ++ "-" ++ zpad 2 (month dt) ++ "-" ++ zpad 2 (day dt) ++ " "
   ++ zpad 2 (hour dt) ++ ":" ++ zpad 2 (minute dt) ++ ":" ++ zpad 2 (second dt)
   ++ match r with
      | Seconds => EmptyString
      | Millis => "." ++ zpad 3 (microsecond dt / 1000)
      | Micros => "." ++ zpad 6 (microsecond dt)
      end)%string.

Definition datetime_column (dts : list datetime) : list string :=
  if forallb is_midnight dts then map date_text dts
  else map (timestamp_text (column_resolution dts)) dts.

(** The record of one order: the values of its dict, as their cells. *)
Definition order_record (order : Order) (tanggal : string) : list string :=
  [id_text (id order); customer_name order; customer_wa order; customer_address order;
   items order; float_text (total order); status order; tanggal].

(** [pd.DataFrame(orders_data)]: no orders give a frame without columns,
    whose header is an empty record. *)
Definition export_records (orders : list Order) : list (list string) :=
  match orders with
  | [] => [nil]
  | _ => csv_header :: zip_with order_record orders (datetime_column (map created_at orders))
  end.

(** [export_orders_to_csv]: the text written to [data/orders_export.csv]. *)
Definition export_orders_to_csv (d : db) : result store_error string :=
  let* orders := get_all_orders d in
  Ok (write_csv (export_records orders)).

(** ** The round trip *)

Lemma field_of_string (s : string) : field (rev (list_ascii_of_string s)) = s.
Proof. unfold field. by rewrite rev_involutive, string_of_list_ascii_of_string. Qed.

Lemma read_plain (f t : string) (fld : list ascii) (rec : list string) :
  plain f = true ->
  read_go InField fld rec (f ++ t) = read_go InField (rev (list_ascii_of_string f) ++ fld) rec t.
Proof.
  revert fld. induction f as [|c f IH]; intros fld; [done|].
  unfold plain. cbn [str_all]. intros [Hc Hf]%andb_prop. apply negb_true_iff in Hc.
  unfold special in Hc. apply orb_false_elim in Hc as [Hc _].
  apply orb_false_elim in Hc as [Hc Hlf]. apply orb_false_elim in Hc as [Hcomma _].
  rewrite str_app_cons. cbn [read_go]. rewrite Hlf, Hcomma.
  rewrite IH by done. cbn [list_ascii_of_string rev]. by rewrite <- app_assoc.
Qed.

Lemma read_quoted (f t : string) (fld : list ascii) (rec : list string) :
  read_go InQuoted fld rec (double_quotes f ++ String dq t)
  = read_go QuoteInQuoted (rev (list_ascii_of_string f) ++ fld) rec t.
Proof.
  revert fld. induction f as [|c f IH]; intros fld; [done|].
  cbn [double_quotes list_ascii_of_string rev]. rewrite <- app_assoc.
  destruct (Ascii.eqb_spec c dq) as [->|Hne]; rewrite !str_app_cons; cbn [read_go app].
  - by rewrite IH.
  - apply Ascii.eqb_neq in Hne. rewrite Hne. by rewrite IH.
Qed.

(** What follows a field: a comma continues the record, a line break
    ends it. *)
Definition is_sep (c : ascii) : Prop := c = ","%char \/ c = lf.

Definition after_sep (c : ascii) (rec : list string) (t : string) : list (list string) :=
  if Ascii.eqb c lf then rev rec :: read_go StartRecord [] [] t
  else read_go StartField [] rec t.

Lemma read_sep (st : rstate) (fld : list ascii) (rec : list string) (c : ascii) (t : string) :
  st = InField \/ st = QuoteInQuoted -> is_sep c ->
  read_go st fld rec (String c t) = after_sep c (field fld :: rec) t.
Proof. unfold after_sep. intros [-> | ->] [-> | ->]; reflexivity. Qed.

(** One written field, from the start of a field (or of a record, when
    the field cannot be mistaken for an empty line), then a separator. *)
Lemma read_field (st : rstate) (rec : list string) (f : string) (c : ascii) (t : string) :
  st = StartField \/ (st = StartRecord /\ (f <> EmptyString \/ c = ","%char)) -> is_sep c ->
  read_go st [] rec (write_field f ++ String c t) = after_sep c (f :: rec) t.
Proof.
  intros Hst Hc. assert (Hstart : st = StartField \/ st = StartRecord) by tauto.
  unfold write_field. destruct (plain f) eqn:Hp.
  - destruct f as [|c0 f].
    + rewrite str_app_nil_l. unfold after_sep.
      destruct Hst as [-> | [-> [Hne | ->]]]; [destruct Hc as [-> | ->]; reflexivity|done|reflexivity].
    + unfold plain in Hp. cbn [str_all] in Hp. apply andb_prop in Hp as [Hc0 Hp].
      apply negb_true_iff in Hc0. unfold special in Hc0.
      apply orb_false_elim in Hc0 as [Hc0 _]. apply orb_false_elim in Hc0 as [Hc0 Hlf].
      apply orb_false_elim in Hc0 as [Hcomma Hdq].
      rewrite str_app_cons.
      assert (E : read_go st [] rec (String c0 (f ++ String c t))
                  = read_go InField [c0] rec (f ++ String c t))
        by (destruct Hstart as [-> | ->]; cbn [read_go]; by rewrite Hlf, Hdq, Hcomma).
      rewrite E, read_plain by done. rewrite read_sep by (tauto || done).
      by rewrite <- (field_of_string (String c0 f)).
  - rewrite str_app_cons, <- str_app_assoc, str_app_cons, str_app_nil_l.
    assert (E : read_go st [] rec (String dq (double_quotes f ++ String dq (String c t)))
                = read_go InQuoted [] rec (double_quotes f ++ String dq (String c t)))
      by (destruct Hstart as [-> | ->]; reflexivity).
    rewrite E, read_quoted, read_sep by (tauto || done). by rewrite app_nil_r, field_of_string.
Qed.

(** The fields of a record, joined by commas, then the line break. *)
Lemma read_fields (st : rstate) (rec : list string) (fs : list string) (t : string) :
  fs <> [] -> st = StartField \/ (st = StartRecord /\ fs <> [EmptyString]) ->
  read_go st [] rec (join "," (map write_field fs) ++ String lf t)
  = (rev rec ++ fs) :: read_go StartRecord [] [] t.
Proof.
  revert st rec. induction fs as [|f fs IH]; intros st rec Hne Hst; [done|].
  destruct fs as [|f2 fs].
  - cbn [map join]. rewrite read_field.
    + unfold after_sep. rewrite Ascii.eqb_refl. by cbn [rev].
    + destruct Hst as [-> | [-> Hf]]; [by left|]. right. split; [done|]. left. congruence.
    + by right.
  - assert (E : join "," (map write_field (f :: f2 :: fs))
                = (write_field f ++ String "," (join "," (map write_field (f2 :: fs))))%string)
      by reflexivity.
    rewrite E, <- str_app_assoc, str_app_cons.
    rewrite read_field; [|destruct Hst as [-> | [-> _]]; [by left | right; split; [done | by right]]|by left].
    unfold after_sep. change (Ascii.eqb "," lf) with false. rewrite (IH StartField (f :: rec)); [|discriminate|left; reflexivity].
    cbn [rev]. by rewrite <- app_assoc.
Qed.

Lemma writerow_join (fs : list string) :
  fs <> [EmptyString] -> writerow fs = (join "," (map write_field fs) ++ String lf EmptyString)%string.
Proof. intros Hfs. destruct fs as [|[|c f] [|f2 fs]]; done. Qed.

(** The writer loses nothing: whatever the records hold (commas, quotes,
    line breaks, empty fields, empty records), reading the text it
    writes gives the same records back. *)
Lemma read_write_csv (records : list (list string)) : read_csv (write_csv records) = records.
Proof.
  unfold read_csv, write_csv. induction records as [|r records IH]; [done|].
  cbn [map str_concat]. destruct (decide (r = [EmptyString])) as [->|Hr].
  - cbn [writerow]. rewrite !str_app_cons, str_app_nil_l. cbn -[str_concat map]. by rewrite IH.
  - rewrite writerow_join, <- str_app_assoc, str_app_cons, str_app_nil_l by done.
    destruct r as [|f r].
    + cbn [map join]. rewrite str_app_nil_l. cbn -[str_concat map]. by rewrite IH.
    + rewrite read_fields; [by rewrite IH|done|by right].
Qed.

(** ** What the export writes *)

(** A four-digit year is written the same by [str] and by [%Y]. *)
Lemma zpad4_year (y : Z) : 1000 <= y <= 9999 -> zpad 4 y = str_int y.
Proof.
  intros Hy. unfold zpad, str_int. rewrite (proj2 (Z.ltb_ge y 0)) by lia.
  assert (Hle : (String.length (str_nonneg y) <= 4)%nat)
    by (apply str_nonneg_length; [cbn; lia|lia]).
  assert (Hge : (4 <= String.length (str_nonneg y))%nat).
  { unfold str_nonneg. rewrite str_length_of_list, length_rev.
    apply (digits_rev_length_ge _ _ 3); [cbn; lia|].
    unfold digit_fuel. assert (9 <= Z.log2 y) by (change 9 with (Z.log2 512); apply Z.log2_le_mono; lia). lia. }
  replace (4 - String.length (str_nonneg y))%nat with O by lia. done.
Qed.

(** A timestamp without fraction is the text SQLite stores. *)
Lemma timestamp_isoformat (dt : datetime) :
  1000 <= year dt <= 9999 -> microsecond dt = 0 -> timestamp_text Seconds dt = isoformat dt.
Proof.
  intros Hy Hus. unfold timestamp_text, isoformat, date_text.
  rewrite Hus, zpad4_year by done. cbn [Z.eqb]. by rewrite <- !str_app_assoc.
Qed.

Lemma strptime_whole_seconds (s : string) (dt : datetime) :
  strptime s = Ok dt -> microsecond dt = 0 /\ valid dt = true.
Proof.
  unfold strptime. repeat case_match; try discriminate. intros [= <-]. by split.
Qed.

(** What the store gives: valid datetimes without microseconds. *)
Lemma get_all_orders_whole_seconds (d : db) (os : list Order) :
  get_all_orders d = Ok os ->
  Forall (fun o => microsecond (created_at o) = 0 /\ valid (created_at o) = true) os.
Proof.
  unfold get_all_orders. destruct (orders d) as [rows|]; [|discriminate].
  generalize (sort_desc rows) as l. intros l. revert os.
  induction l as [|r l IH]; intros os; cbn [rows_to_orders]; [by intros [= <-]|].
  unfold row_to_order, map_err. destruct (strptime (r_created r)) as [c|] eqn:Hc; cbn; [|discriminate].
  destruct (rows_to_orders l) as [os'|]; cbn; [|discriminate]. intros [= <-].
  constructor; [by apply strptime_whole_seconds in Hc|]. by apply IH.
Qed.

Lemma column_resolution_seconds (dts : list datetime) :
  Forall (fun dt => microsecond dt = 0) dts -> column_resolution dts = Seconds.
Proof.
  intros Hall. unfold column_resolution.
  assert (H : forall p : datetime -> bool, (forall dt, microsecond dt = 0 -> p dt = false) ->
              existsb p dts = false).
  { intros p Hp. apply not_true_iff_false. rewrite existsb_exists. intros (dt & Hin & Hdt).
    rewrite List.Forall_forall in Hall. by rewrite Hp in Hdt by auto. }
  rewrite !H; [done| |]; intros dt ->; reflexivity.
Qed.

Lemma zip_with_map_r {A B C} (f : A -> B -> C) (g : A -> B) (l : list A) :
  zip_with f l (map g l) = map (fun a => f a (g a)) l.
Proof. induction l as [|a l IH]; cbn; congruence. Qed.

(** C14: The file [export_orders_to_csv] writes reads back, with the [csv]
    module's reader, as the header row and one record per order, in the
    order of [get_all_orders], whose cells are the order's id, name,
    number, address and items verbatim (commas, quotes and line breaks
    included), its total with ".0", its status, and the very text SQLite
    stores for its [created_at]; this holds when some order is not at
    midnight (otherwise the column holds dates only) and the years have
    four digits. *)
Theorem export_reads_back (d : db) (os : list Order) :
  get_all_orders d = Ok os ->
  existsb (fun o => negb (is_midnight (created_at o))) os = true ->
  Forall (fun o => 1000 <= year (created_at o)) os ->
  exists text, export_orders_to_csv d = Ok text
    /\ read_csv text = csv_header :: map (fun o => order_record o (isoformat (created_at o))) os.
Proof.
  intros Hget Hnm Hy. pose proof (get_all_orders_whole_seconds d os Hget) as Hws.
  unfold export_orders_to_csv. rewrite Hget. cbn [rbind]. eexists. split; [reflexivity|].
  rewrite read_write_csv. unfold export_records. destruct os as [|o os']; [done|].
  f_equal. unfold datetime_column.
  assert (Hf : forallb is_midnight (map created_at (o :: os')) = false).
  { apply not_true_iff_false. intros Hall. rewrite List.forallb_forall in Hall.
    apply existsb_exists in Hnm as (o' & Hin & Ho'). apply negb_true_iff in Ho'.
    rewrite Hall in Ho'; [done|]. by apply in_map. }
  rewrite Hf, column_resolution_seconds.
  2: { apply List.Forall_map. eapply Forall_impl; [exact Hws|]. by intros ? [? _]. }
  rewrite map_map, zip_with_map_r. apply map_ext_in. intros o1 Hin. f_equal.
  rewrite List.Forall_forall in Hws, Hy. destruct (Hws o1 Hin) as [Hus Hv].
  specialize (Hy o1 Hin). apply timestamp_isoformat; [|done].
  unfold valid in Hv. bool_prop. lia.
Qed.

(** An empty table is exported as one empty line: the file has no header
    row. *)
Theorem export_empty_store_no_header (d : db) :
  get_all_orders d = Ok [] -> export_orders_to_csv d = Ok (String lf EmptyString) /\ read_csv (String lf EmptyString) = [nil].
Proof. intros Hget. unfold export_orders_to_csv. by rewrite Hget. Qed.

(** ** Witnesses *)

Lemma export_reads_back_witness :
  exists os, get_all_orders (init_sample_data (init_db empty_db)) = Ok os
    /\ List.length os = 4%nat
    /\ exists text, export_orders_to_csv (init_sample_data (init_db empty_db)) = Ok text
         /\ read_csv text = csv_header :: map (fun o => order_record o (isoformat (created_at o))) os.
Proof.
  destruct (get_all_orders (init_sample_data (init_db empty_db))) as [os|e] eqn:E;
    [|vm_compute in E; discriminate].
  assert (Hos : existsb (fun o => negb (is_midnight (created_at o))) os = true
                /\ Forall (fun o => 1000 <= year (created_at o)) os /\ List.length os = 4%nat)
    by (vm_compute in E; injection E as <-; split_and!; [reflexivity|repeat constructor; cbn; lia|reflexivity]).
  destruct Hos as (H1 & H2 & H3).
  exists os. exact (conj eq_refl (conj H3 (export_reads_back _ os E H1 H2))).
Defined.

End Csv.
