(* ===== verification/Automation.v ===== *)
(** The rule-based responder of [src/utils/automation.py], class
    [AutomationRules]: four rules tried in the insertion order of their
    dict, each a regular expression that is an alternation of literal
    words, searched in the lower-cased message; the first rule that
    matches gives the reply.  The rules' words overlap the keyword lists
    of [MessageProcessor], and the theorems relate the two responders. *)

From stdpp Require Import base list strings.
From Stdlib Require Import String Ascii ZArith Lia.
From S2P Require Import Prelude PyStr MessageProcessor.

Module Automation.

(** A rule: the alternatives of its pattern [(w1|w2|...)] and its reply. *)
Record rule := mkRule { rule_name : string; pattern : list string; response : string }.

(** [self.rules], in dict order. *)
Definition rules : list rule := [
  mkRule "greeting" ["halo"; "hai"; "hello"; "hi"; "selamat"]
    "Halo! Terima kasih telah menghubungi kami. Ada yang bisa saya bantu?";
  mkRule "order" ["pesan"; "order"; "mau"; "ingin"; "beli"; "pesan"]
    "Silakan sebutkan menu yang ingin dipesan. Kami memiliki nasi goreng, ayam bakar, mie goreng, es teh, dan es jeruk.";
  mkRule "thanks" ["terima kasih"; "makasih"; "thanks"; "thank you"]
    "Sama-sama! Terima kasih telah berbelanja di toko kami. 😊";
  mkRule "delivery" ["kapan sampai"; "estimasi"; "berapa lama"; "delivery"]
    "Pesanan biasanya sampai dalam 30-45 menit. Terima kasih atas kesabarannya!"
]%string.

Definition default_response : string :=
  "Terima kasih telah menghubungi kami. Silakan ketik 'menu' untuk melihat daftar menu atau 'help' untuk bantuan.".

(** [re.search("(w1|w2|...)", s)] succeeds: the engine tries each start
    position from the left and, at each, the alternatives in order. *)
Fixpoint re_search_alts (alts : list string) (s : string) : bool :=
  existsb (fun w => prefix w s) alts ||
  match s with
  | EmptyString => false
  | String _ t => re_search_alts alts t
  end.

(** [process_message]: the reply of the first rule that matches. *)
Definition process_message (message : string) : string :=
  let message_lower := lower message in
  match List.find (fun r => re_search_alts (pattern r) message_lower) rules with
  | Some r => response r
  | None => default_response
  end.

(** ** Theorems *)

(** Searching an alternation of literals finds one exactly when one of
    the words occurs in the text. *)
Lemma existsb_orb {A} (f g : A -> bool) (l : list A) :
  existsb (fun x => f x || g x) l = existsb f l || existsb g l.
Proof.
  induction l as [|x l IH]; [done|]. cbn. rewrite IH.
  by destruct (f x), (g x), (existsb f l), (existsb g l).
Qed.

Lemma re_search_alts_contains_any (alts : list string) (s : string) :
  re_search_alts alts s = contains_any alts s.
Proof.
  unfold contains_any. induction s as [|c s IH]; cbn [re_search_alts contains].
  - rewrite orb_false_r. induction alts as [|w alts IHa]; [done|].
    cbn [existsb]. by rewrite orb_false_r, IHa.
  - by rewrite IH, existsb_orb.
Qed.

Lemma contains_any_same_words (ws1 ws2 : list string) (s : string) :
  (forall w, In w ws1 <-> In w ws2) -> contains_any ws1 s = contains_any ws2 s.
Proof.
  intros H. apply eq_true_iff_eq. rewrite !contains_any_spec.
  split; intros (w & Hw & Hc); exists w; split; try done; by apply H.
Qed.

(** C25: The two responders agree on the first two intents: the rule-based
    bot gives its greeting exactly when [MessageProcessor] classifies
    the message as a greeting, and its order reply exactly when it
    classifies it as an order. *)
Theorem automation_agrees_with_classify (message : string) :
  (process_message message = response (nth 0 rules (mkRule "" [] ""))
     <-> MessageProcessor.classify MessageProcessor.init message = MessageProcessor.Greeting) /\
  (process_message message = response (nth 1 rules (mkRule "" [] ""))
     <-> MessageProcessor.classify MessageProcessor.init message = MessageProcessor.OrderIntent).
Proof.
  unfold process_message, MessageProcessor.classify. cbn [List.find rules pattern].
  rewrite !re_search_alts_contains_any.
  rewrite (contains_any_same_words ["pesan"; "order"; "mau"; "ingin"; "beli"; "pesan"]%string
             (MessageProcessor.order_keywords MessageProcessor.init))
    by (intros w; cbn; tauto).
  cbn [MessageProcessor.greeting_keywords MessageProcessor.order_keywords MessageProcessor.init].
  destruct (contains_any _ (lower message)); [split; split; done|].
  destruct (contains_any _ (lower message)); [split; split; done|].
  destruct (contains_any ["terima kasih"; "makasih"; "thanks"; "thank you"]%string (lower message)),
    (contains_any ["kapan sampai"; "estimasi"; "berapa lama"; "delivery"]%string (lower message)),
    (contains "status" (lower message) || contains "kapan" (lower message));
    cbn; split; split; done.
Qed.

(** The delivery-time question of the dashboard demo mentions
    "pesanan", so the order rule answers it before the delivery rule. *)
Theorem delivery_question_gets_order_reply :
  process_message "Pesanan saya kapan sampai?" = response (nth 1 rules (mkRule "" [] "")).
Proof. vm_compute. reflexivity. Qed.

(** Every reply is non-empty. *)
Theorem automation_reply_nonempty (message : string) : process_message message <> EmptyString.
Proof.
  unfold process_message.
  destruct (List.find _ rules) as [r|] eqn:E; [|discriminate].
  apply find_some in E as [Hin _]. cbn in Hin.
  repeat destruct Hin as [<-|Hin]; try contradiction; discriminate.
Qed.

End Automation.
