(* ===== verification/Reporting.v ===== *)
(** The reporting views: [get_orders_by_status_count] and
    [get_top_customers] of [src/utils/database.py], and the aggregates
    the dashboard of [src/app.py] computes from the order lists (monthly
    revenue, daily revenue, orders per day, menu popularity, orders per
    hour).  Python dicts are the insertion-ordered dicts of [PyDict];
    pandas' [sort_values(..., ascending=False)] is a stable descending
    insertion sort (see the header of [Prelude] for this assumption). *)

From stdpp Require Import base list strings.
From Stdlib Require Import String Ascii ZArith Lia Sorted Permutation.
From S2P Require Import Prelude PyStr PyDict DateTime OrderStore.

Open Scope Z_scope.
Local Open Scope bot_scope.

Module Reporting.

Import DateTime.DateTime OrderStore.OrderStore.

(** ** Sorting a frame by one integer column, descending *)

Section SortDesc.
Context {X : Type} (col : X -> Z).

(** Insert [x] before the first row whose value is not greater, so rows
    with equal values keep their order. *)
Fixpoint insert_desc_by (x : X) (l : list X) : list X :=
  match l with
  | [] => [x]
  | y :: l' => if col y <=? col x then x :: l else y :: insert_desc_by x l'
  end.

(** [df.sort_values(col, ascending=False)]. *)
Definition sort_values_desc (l : list X) : list X := fold_right insert_desc_by [] l.

Lemma insert_desc_by_perm x l : Permutation (insert_desc_by x l) (x :: l).
Proof.
  induction l as [|y l IH]; cbn; [done|]. destruct (col y <=? col x); [done|].
  rewrite IH. apply perm_swap.
Qed.

Lemma sort_values_desc_perm l : Permutation (sort_values_desc l) l.
Proof.
  induction l as [|x l IH]; cbn; [done|]. by rewrite insert_desc_by_perm, IH.
Qed.

Lemma insert_desc_by_sorted x l :
  Sorted (fun a b => col b <= col a) l -> Sorted (fun a b => col b <= col a) (insert_desc_by x l).
Proof.
  induction 1 as [|y l Hs IH Hhd]; cbn; [by repeat constructor|].
  destruct (col y <=? col x) eqn:E; bool_prop.
  - constructor; [by constructor|]. constructor. lia.
  - constructor; [done|]. destruct l as [|z l]; cbn; [constructor; lia|].
    inversion Hhd; subst. destruct (col z <=? col x); constructor; lia.
Qed.

Lemma sort_values_desc_sorted l : Sorted (fun a b => col b <= col a) (sort_values_desc l).
Proof. induction l; cbn; [constructor|]. by apply insert_desc_by_sorted. Qed.

End SortDesc.

(** ** [get_orders_by_status_count] (database.py) *)

Definition status_count (all_orders : list Order) : dict string Z :=
  accumulate status (fun _ => 1) all_orders [].

Definition get_orders_by_status_count (d : db) : result store_error (dict string Z) :=
  let* all_orders := get_all_orders d in Ok (status_count all_orders).

(** ** [get_top_customers] (database.py) *)

(** The value of [customer_orders[wa]]: [{'name', 'count', 'total'}]. *)
Record customer := mkCustomer { c_name : string; c_count : Z; c_total : Z }.

(** One iteration of the grouping loop. *)
Definition add_customer (customer_orders : dict string customer) (order : Order)
    : dict string customer :=
  match dict_lookup (customer_wa order) customer_orders with
  | Some c => dict_set customer_orders (customer_wa order)
                (mkCustomer (c_name c) (c_count c + 1) (c_total c + total order))
  | None => dict_set customer_orders (customer_wa order)
              (mkCustomer (customer_name order) 1 (total order))
  end.

(** A row of the returned frame. *)
Record top_row := mkTop {
  WhatsApp : string; Nama : string; Jumlah_Pesanan : Z; Total_Pembelian : Z }.

Definition top_customers_of (all_orders : list Order) : list top_row :=
  let customer_orders := fold_left add_customer all_orders [] in
  let top_customers :=
    map (fun '(wa, data) => mkTop wa (c_name data) (c_count data) (c_total data))
      customer_orders in
  match top_customers with
  | [] => []
  | _ => sort_values_desc Total_Pembelian top_customers
  end.

Definition get_top_customers (d : db) : result store_error (list top_row) :=
  let* all_orders := get_all_orders d in Ok (top_customers_of all_orders).

(** ** Dashboard aggregates (app.py) *)

Definition is_completed (o : Order) : bool := String.eqb (status o) "completed".

(** [[o for o in monthly_orders if o.status == "completed"]]. *)
Definition completed_orders (monthly_orders : list Order) : list Order :=
  List.filter is_completed monthly_orders.

(** [sum(order.total for order in completed_orders)]. *)
Definition revenue (monthly_orders : list Order) : Z :=
  sumZ total (completed_orders monthly_orders).

(** [created_at.strftime("%Y-%m-%d")] for four-digit years. *)
Definition strftime_date (dt : datetime) : string := date_text dt.

(** The [daily_revenue] loop over the completed orders. *)
Definition daily_revenue (completed : list Order) : dict string Z :=
  fold_left (fun d o => dict_add_branch d (strftime_date (created_at o)) (total o)) completed [].

(** The [order_counts] loop of the seven-day chart. *)
Definition order_counts (weekly_orders : list Order) : dict string Z :=
  let dates := map (fun o => strftime_date (created_at o)) weekly_orders in
  accumulate (fun x => x) (fun _ => 1) dates [].

(** The [menu_items] loop of the popular-menu chart. *)
Definition menu_items_of (all_orders : list Order) : dict string Z :=
  fold_left (fun menu_items order =>
      fold_left (fun menu_items item => dict_add_branch menu_items (lower (strip item)) 1)
        (split_on "," (items order)) menu_items)
    all_orders [].

(** [menu_df.sort_values('Jumlah', ascending=False).head(5)]. *)
Definition top_menu (all_orders : list Order) : list (string * Z) :=
  firstn 5 (sort_values_desc snd (menu_items_of all_orders)).

(** The [hour_counts] loop: [hour_counts[h] = order_hours.count(h)] for
    [h in range(24)]. *)
Definition hour_counts (all_orders : list Order) : dict Z Z :=
  let order_hours := map (fun o => hour (created_at o)) all_orders in
  fold_left (fun d h => dict_set d h (Z.of_nat (count_if (Z.eqb h) order_hours)))
    (map Z.of_nat (List.seq 0 24)) [].

(** ** Theorems *)

Lemma add_customer_lookup (co : dict string customer) (order : Order) (wa : string) :
  dict_lookup wa (add_customer co order) =
    if bool_decide (customer_wa order = wa) then
      Some (match dict_lookup wa co with
            | Some c => mkCustomer (c_name c) (c_count c + 1) (c_total c + total order)
            | None => mkCustomer (customer_name order) 1 (total order)
            end)
    else dict_lookup wa co.
Proof.
  unfold add_customer. case_bool_decide as Hw.
  - subst. destruct (dict_lookup _ co); by rewrite dict_lookup_set_eq.
  - destruct (dict_lookup _ co); by rewrite dict_lookup_set_ne.
Qed.

(** What the grouping loop leaves under a handle [wa]: the first name
    seen, the number of orders, and the sum of their totals. *)
Lemma add_customers_lookup (os : list Order) (co : dict string customer) (wa : string) :
  dict_lookup wa (fold_left add_customer os co) =
    let mine := List.filter (fun o => bool_decide (customer_wa o = wa)) os in
    match dict_lookup wa co, List.find (fun o => bool_decide (customer_wa o = wa)) os with
    | Some c, _ => Some (mkCustomer (c_name c) (c_count c + Z.of_nat (List.length mine))
                           (c_total c + sumZ total mine))
    | None, Some o => Some (mkCustomer (customer_name o) (Z.of_nat (List.length mine)) (sumZ total mine))
    | None, None => None
    end.
Proof.
  revert co. induction os as [|o os IH]; intros co; cbn [fold_left List.filter List.find].
  - destruct (dict_lookup wa co) as [[]|]; cbn; [|done]. f_equal. f_equal; lia.
  - rewrite IH, add_customer_lookup. cbv zeta.
    case_bool_decide as Hw; cbn [length]; autorewrite with bot_simpl.
    + destruct (dict_lookup wa co) as [c|]; cbn; f_equal; f_equal; lia.
    + done.
Qed.

Lemma add_customers_NoDup (os : list Order) (co : dict string customer) :
  NoDup (dict_keys co) -> NoDup (dict_keys (fold_left add_customer os co)).
Proof.
  revert co. induction os as [|o os IH]; intros co Hco; [done|]. apply IH.
  unfold add_customer. destruct (dict_lookup _ co); by apply dict_set_NoDup.
Qed.

Definition customer_row (e : string * customer) : top_row :=
  let '(wa, data) := e in mkTop wa (c_name data) (c_count data) (c_total data).

Lemma top_customers_of_perm (os : list Order) :
  Permutation (top_customers_of os) (map customer_row (fold_left add_customer os [])).
Proof.
  unfold top_customers_of. change (fun '(wa, data) => _) with customer_row.
  destruct (map customer_row _) as [|x l] eqn:E; [done|]. rewrite <- E.
  apply sort_values_desc_perm.
Qed.

Lemma map_customer_row_keys (co : dict string customer) :
  map WhatsApp (map customer_row co) = dict_keys co.
Proof. unfold dict_keys. induction co as [|[wa c] co IH]; cbn; [done|]. by rewrite IH. Qed.

(** C10: the status histogram counts, for every status, the orders that
    have it, lists exactly the statuses that occur (a status no order has
    is absent, not zero), and has no duplicate key. *)
Theorem status_count_spec (all_orders : list Order) (s : string) :
  dict_get (status_count all_orders) s 0
    = Z.of_nat (List.length (List.filter (fun o => bool_decide (status o = s)) all_orders))
  /\ (s ∈ dict_keys (status_count all_orders) <-> exists o, In o all_orders /\ status o = s)
  /\ NoDup (dict_keys (status_count all_orders)).
Proof.
  unfold status_count. split_and!.
  - by rewrite accumulate_get, sumZ_one.
  - rewrite accumulate_keys. cbn. rewrite elem_of_nil. naive_solver.
  - apply accumulate_NoDup. constructor.
Qed.

(** C9: a row is in [get_top_customers]' frame exactly when its handle is
    the handle of some order, its name is the name on the first such
    order in [get_all_orders]' order, and its count and total are the
    number and the sum of the totals of that handle's orders. *)
Theorem top_customers_spec (all_orders : list Order) (r : top_row) :
  In r (top_customers_of all_orders) <->
  exists o, List.find (fun o => bool_decide (customer_wa o = WhatsApp r)) all_orders = Some o
    /\ Nama r = customer_name o
    /\ Jumlah_Pesanan r
         = Z.of_nat (List.length (List.filter (fun o => bool_decide (customer_wa o = WhatsApp r)) all_orders))
    /\ Total_Pembelian r
         = sumZ total (List.filter (fun o => bool_decide (customer_wa o = WhatsApp r)) all_orders).
Proof.
  pose proof (top_customers_of_perm all_orders) as Hp.
  transitivity (In r (map customer_row (fold_left add_customer all_orders [])));
    [split; apply Permutation_in; [done|by symmetry]|].
  rewrite in_map_iff.
  pose proof (add_customers_NoDup all_orders [] (NoDup_nil_2)) as Hnd.
  split.
  - intros [[wa c] [<- Hin]]. apply dict_lookup_In in Hin; [|done].
    rewrite add_customers_lookup in Hin. cbn in Hin |- *.
    destruct (List.find _ all_orders) as [o|]; [|done]. injection Hin as <-. by exists o.
  - intros (o & Hf & Hn & Hc & Ht). exists (WhatsApp r, mkCustomer (Nama r) (Jumlah_Pesanan r) (Total_Pembelian r)).
    split; [by destruct r|]. apply dict_lookup_In; [done|].
    rewrite add_customers_lookup. cbn. rewrite Hf, Hn, Hc, Ht. done.
Qed.

(** C21: the frame is sorted by total spend, largest first, and lists each
    handle once. *)
Theorem top_customers_sorted (all_orders : list Order) :
  Sorted (fun a b => Total_Pembelian b <= Total_Pembelian a) (top_customers_of all_orders)
  /\ NoDup (map WhatsApp (top_customers_of all_orders)).
Proof.
  split.
  - unfold top_customers_of. destruct (map _ _); [constructor|]. apply sort_values_desc_sorted.
  - rewrite (Permutation_map _ (top_customers_of_perm all_orders)), map_customer_row_keys.
    apply add_customers_NoDup. constructor.
Qed.

Lemma daily_revenue_accumulate (completed : list Order) :
  daily_revenue completed = accumulate (fun o => strftime_date (created_at o)) total completed [].
Proof. apply accumulate_branch. Qed.

(** C22: the revenue chart adds up to the revenue metric: the daily
    revenues sum to [revenue], each date's value is the sum of the
    totals of the completed orders of that date, and no date repeats. *)
Theorem daily_revenue_total (monthly_orders : list Order) (date : string) :
  sumZ snd (daily_revenue (completed_orders monthly_orders)) = revenue monthly_orders
  /\ dict_get (daily_revenue (completed_orders monthly_orders)) date 0
     = sumZ total (List.filter (fun o => bool_decide (strftime_date (created_at o) = date))
                     (completed_orders monthly_orders))
  /\ NoDup (dict_keys (daily_revenue (completed_orders monthly_orders))).
Proof.
  rewrite daily_revenue_accumulate. split_and!.
  - rewrite accumulate_sum. cbn. unfold revenue. lia.
  - rewrite accumulate_get. cbn. lia.
  - apply accumulate_NoDup. constructor.
Qed.

(** The fragments the menu loop counts: every comma-separated piece of
    every order's items, stripped and lower-cased. *)
Definition menu_fragments (all_orders : list Order) : list string :=
  flat_map (fun o => map (fun item => lower (strip item)) (split_on "," (items o))) all_orders.

Lemma fold_left_map_in {A B C} (f : C -> B -> C) (g : A -> B) (l : list A) (c : C) :
  fold_left (fun c a => f c (g a)) l c = fold_left f (map g l) c.
Proof. revert c. induction l as [|a l IH]; intros c; cbn; [done|]. apply IH. Qed.

Lemma menu_items_accumulate (all_orders : list Order) :
  menu_items_of all_orders = accumulate (fun x => x) (fun _ => 1) (menu_fragments all_orders) [].
Proof.
  unfold menu_items_of, menu_fragments. generalize (@nil (string * Z)).
  induction all_orders as [|o os IH]; intros d; cbn [fold_left flat_map]; [done|].
  rewrite IH, accumulate_app. f_equal.
  rewrite (fold_left_map_in (fun d x => dict_add_branch d x 1) (fun item => lower (strip item))).
  apply (accumulate_branch (fun x => x) (fun _ => 1)).
Qed.

(** C23: the popular-menu dict counts, for every text, the raw fragments
    equal to it (so "2 nasi goreng" and "nasi goreng" are separate keys),
    has a key exactly for each fragment that occurs, and none twice. *)
Theorem menu_items_spec (all_orders : list Order) (k : string) :
  dict_get (menu_items_of all_orders) k 0
    = Z.of_nat (List.length (List.filter (fun x => bool_decide (x = k)) (menu_fragments all_orders)))
  /\ (k ∈ dict_keys (menu_items_of all_orders) <-> In k (menu_fragments all_orders))
  /\ NoDup (dict_keys (menu_items_of all_orders)).
Proof.
  rewrite menu_items_accumulate. split_and!.
  - by rewrite accumulate_get, sumZ_one.
  - rewrite accumulate_keys. cbn. rewrite elem_of_nil. naive_solver.
  - apply accumulate_NoDup. constructor.
Qed.

Lemma StronglySorted_app_rel {X} (R : X -> X -> Prop) (l1 l2 : list X) x y :
  StronglySorted R (l1 ++ l2) -> In x l1 -> In y l2 -> R x y.
Proof.
  induction l1 as [|z l1 IH]; cbn; [done|]. intros Hs [<-|Hx] Hy; inversion Hs as [|? ? Hs' Hall]; subst.
  - rewrite List.Forall_forall in Hall. apply Hall, in_or_app. by right.
  - by apply IH.
Qed.

(** C40: the five entries of the popular-menu chart have counts at least
    as large as any entry left out. *)
Theorem top_menu_dominates (all_orders : list Order) (x y : string * Z) :
  In x (top_menu all_orders) -> In y (menu_items_of all_orders) -> ~ In y (top_menu all_orders) ->
  snd y <= snd x.
Proof.
  unfold top_menu. set (L := sort_values_desc snd (menu_items_of all_orders)).
  intros Hx Hy Hny.
  assert (Hs : StronglySorted (fun a b => snd b <= snd a) L).
  { apply Sorted_StronglySorted; [intros a b c; lia|]. apply sort_values_desc_sorted. }
  rewrite <- (firstn_skipn 5 L) in Hs.
  apply (StronglySorted_app_rel _ _ _ _ _ Hs Hx).
  assert (HyL : In y L) by (eapply Permutation_in; [symmetry; apply sort_values_desc_perm|done]).
  rewrite <- (firstn_skipn 5 L) in HyL. apply in_app_or in HyL as [|]; [done|done].
Qed.

Lemma fold_set_fresh {K} `{EqDecision K} (g : K -> Z) (ks : list K) (d : dict K Z) :
  NoDup ks -> (forall k, k ∈ ks -> k ∉ dict_keys d) ->
  fold_left (fun d h => dict_set d h (g h)) ks d = d ++ map (fun h => (h, g h)) ks.
Proof.
  intros Hnd. revert d. induction Hnd as [|k ks Hk Hnd IH]; intros d Hfresh; cbn; [by rewrite app_nil_r|].
  rewrite dict_set_fresh by (apply Hfresh; by left). rewrite IH, <- app_assoc; [done|].
  intros k' Hk'. unfold dict_keys. rewrite map_app, elem_of_app. cbn. rewrite list_elem_of_singleton.
  intros [Hd| ->]; [|done]. by apply (Hfresh k'); [right|].
Qed.

Lemma count_if_map {A B} (p : B -> bool) (f : A -> B) (l : list A) :
  count_if p (map f l) = count_if (fun a => p (f a)) l.
Proof.
  induction l as [|a l IH]; [done|]. cbn [map]. rewrite !count_if_cons, IH. done.
Qed.

(** the hour chart has the 24 buckets 0..23, in that order, each the
    number of orders created in that hour (zero buckets included). *)
Theorem hour_counts_buckets (all_orders : list Order) :
  hour_counts all_orders =
    map (fun h => (h, Z.of_nat (count_if (fun o => Z.eqb h (hour (created_at o))) all_orders)))
      (map Z.of_nat (List.seq 0 24)).
Proof.
  unfold hour_counts. rewrite fold_set_fresh.
  - cbn [app]. apply map_ext. intros h. by rewrite count_if_map.
  - apply NoDup_fmap_2; [intros ?? ?; lia|]. apply NoDup_seq.
  - intros k _. apply not_elem_of_nil.
Qed.

Lemma sum_indicator_seq (x : Z) (a n : nat) :
  sumZ (fun h => if Z.eqb h x then 1 else 0) (map Z.of_nat (List.seq a n))
    = if (Z.of_nat a <=? x) && (x <? Z.of_nat a + Z.of_nat n) then 1 else 0.
Proof.
  revert a. induction n as [|n IH]; intros a; cbn [List.seq map]; autorewrite with bot_simpl;
    [|rewrite IH]; repeat case_match; bool_prop; lia.
Qed.

(** C24: when every order's timestamp is a valid datetime (hour 0..23),
    the hour chart accounts for every order exactly once. *)
Theorem hour_counts_total (all_orders : list Order) :
  Forall (fun o => valid (created_at o) = true) all_orders ->
  sumZ snd (hour_counts all_orders) = Z.of_nat (List.length all_orders).
Proof.
  rewrite hour_counts_buckets, sumZ_map. cbn [snd].
  induction 1 as [|o os Hv Hos IH]; cbn [List.length].
  - clear. vm_compute. reflexivity.
  - rewrite (sumZ_ext _ (fun h => (if Z.eqb h (hour (created_at o)) then 1 else 0)
                                  + Z.of_nat (count_if (fun o => Z.eqb h (hour (created_at o))) os))).
    + unfold valid in Hv. bool_prop.
      rewrite sumZ_plus, sum_indicator_seq, IH.
      case_match; bool_prop; lia.
    + intros h _. rewrite count_if_cons. cbv beta. destruct (Z.eqb h _); lia.
Qed.

(** ** Reports across store operations *)

Lemma rows_to_orders_Forall2 (l : list row) (os : list Order) :
  rows_to_orders l = Ok os <-> Forall2 (fun r o => row_to_order r = Ok o) l os.
Proof.
  split.
  - revert os. induction l as [|r l IH]; intros os; cbn; [intros [= <-]; constructor|].
    destruct (row_to_order r) eqn:E; cbn; [|discriminate].
    destruct (rows_to_orders l) eqn:E2; cbn; [|discriminate]. intros [= <-].
    constructor; [done|]. by apply IH.
  - induction 1 as [|r o l os Hr _ IH]; cbn; [done|]. by rewrite Hr, IH.
Qed.

Lemma count_status_perm (s : string) (os os' : list Order) :
  Permutation os os' ->
  List.length (List.filter (fun o => bool_decide (status o = s)) os)
  = List.length (List.filter (fun o => bool_decide (status o = s)) os').
Proof.
  induction 1 as [|o os os' _ IH|o o' os|os os' os'' _ IH1 _ IH2]; cbn [List.filter];
    repeat case_bool_decide; cbn [List.length]; lia.
Qed.

(** C16: adding an order whose timestamp reads back raises the status
    histogram by one at the order's status and leaves every other
    status's count as it was. *)
Theorem status_count_after_add (d d' : db) (o : Order) (n : Z) (sc : dict string Z) :
  wf d -> valid (created_at o) = true -> microsecond (created_at o) = 0 ->
  add_order d o = Ok (d', n) -> get_orders_by_status_count d = Ok sc ->
  exists sc', get_orders_by_status_count d' = Ok sc'
    /\ forall s, dict_get sc' s 0 = dict_get sc s 0 + (if bool_decide (status o = s) then 1 else 0).
Proof.
  intros Hwf Hv Hus Hadd Hsc.
  destruct (add_order_ok _ _ _ _ Hwf Hadd) as (rows & Hrows & _ & _ & ->).
  unfold get_orders_by_status_count, get_all_orders in Hsc |- *. rewrite Hrows in Hsc. cbn [orders].
  destruct (rows_to_orders (sort_desc rows)) as [all|] eqn:Eall; cbn in Hsc; [|discriminate].
  injection Hsc as <-. apply rows_to_orders_Forall2 in Eall.
  match goal with |- context [sort_desc (rows ++ [?r])] => set (row := r) end.
  assert (Hr : row_to_order row = Ok (mkOrder (Some n) (customer_name o) (customer_wa o)
                 (customer_address o) (items o) (total o) (status o) (created_at o)))
    by (by apply row_to_order_isoformat).
  assert (Hperm : Permutation (sort_desc rows ++ [row]) (sort_desc (rows ++ [row])))
    by (by rewrite !sort_desc_perm).
  assert (HF : Forall2 (fun r o => row_to_order r = Ok o) (sort_desc rows ++ [row])
                 (all ++ [mkOrder (Some n) (customer_name o) (customer_wa o) (customer_address o)
                           (items o) (total o) (status o) (created_at o)]))
    by (apply Forall2_app; [done|by constructor]).
  destruct (Permutation_Forall2 Hperm HF) as (all' & Hp & Hf).
  exists (status_count all'). split.
  - apply rows_to_orders_Forall2 in Hf. by rewrite Hf.
  - intros s. unfold status_count. rewrite !accumulate_get, !sumZ_one.
    rewrite <- (count_status_perm s _ _ Hp), List.filter_app, length_app. cbn.
    case_bool_decide; cbn; lia.
Qed.


Lemma status_count_after_add_witness :
  exists d' n sc, add_order (init_sample_data (init_db empty_db)) ex_new_order = Ok (d', n)
    /\ get_orders_by_status_count (init_sample_data (init_db empty_db)) = Ok sc
    /\ exists sc', get_orders_by_status_count d' = Ok sc'
         /\ forall s, dict_get sc' s 0
                      = dict_get sc s 0 + (if bool_decide (status ex_new_order = s) then 1 else 0).
Proof.
  destruct (add_order (init_sample_data (init_db empty_db)) ex_new_order) as [[d' n]|e] eqn:E1;
    [|vm_compute in E1; discriminate].
  destruct (get_orders_by_status_count (init_sample_data (init_db empty_db))) as [sc|e] eqn:E2;
    [|vm_compute in E2; discriminate].
  exists d', n, sc. split; [done|]. split; [done|].
  assert (Hwf : wf (init_sample_data (init_db empty_db))) by apply wf_init_sample_data.
  exact (status_count_after_add _ d' ex_new_order n sc Hwf eq_refl eq_refl E1 E2).
Defined.

(** ** Scenarios of the specification *)

Definition ex_order (name wa its : string) (tot : Z) (st : string) (h : Z) : Order :=
  mkOrder None name wa "Jl. Merdeka 1" its tot st (mk 2024 1 15 h 0 0 0).

(** the top-customer scenario: two orders of one handle (30000 and
    20000, under two spellings of the name) and one of another (10000)
    give the first handle first, with count 2 and total 50000, under the
    name of its first order. *)
Theorem spec_top_customers_example :
  top_customers_of
    [ex_order "Budi" "628111" "nasi goreng" 30000 "completed" 10;
     ex_order "Budi S." "628111" "es teh" 20000 "pending" 11;
     ex_order "Ani" "628222" "mie goreng" 10000 "completed" 12]
  = [mkTop "628111" "Budi" 2 50000; mkTop "628222" "Ani" 1 10000].
Proof. vm_compute. reflexivity. Qed.

(** the revenue scenario: of a completed order of 55000, a pending
    one of 60000 and a processing one of 70000, only the completed one
    counts. *)
Theorem spec_revenue_example :
  revenue [ex_order "Budi" "628111" "nasi goreng" 55000 "completed" 10;
           ex_order "Ani" "628222" "ayam bakar" 60000 "pending" 11;
           ex_order "Citra" "628333" "es teh" 70000 "processing" 12] = 55000.
Proof. vm_compute. reflexivity. Qed.

(** the menu counts raw fragments: "2 Nasi Goreng" and "nasi goreng"
    are two keys. *)
Theorem spec_menu_fragments_example :
  menu_items_of [ex_order "Budi" "628111" "2 Nasi Goreng, Es Teh" 40000 "completed" 10;
                 ex_order "Ani" "628222" "nasi goreng" 15000 "pending" 11]
  = [("2 nasi goreng", 1); ("es teh", 1); ("nasi goreng", 1)].
Proof. vm_compute. reflexivity. Qed.

(** on a freshly created, empty store the top-customer frame and the
    status histogram are empty and every window of orders (today, week,
    month) is empty, so the revenue is zero, all without an error. *)
Theorem empty_store_reports :
  get_top_customers (init_db empty_db) = Ok []
  /\ get_orders_by_status_count (init_db empty_db) = Ok []
  /\ (forall p, filter_orders p (init_db empty_db) = Ok [])
  /\ revenue [] = 0.
Proof. split_and!; try intros p; reflexivity. Qed.

Definition ex_menu_orders : list Order :=
  [ex_order "Budi" "628111" "nasi goreng, es teh, ayam bakar, mie goreng, es jeruk, kopi"
     90000 "completed" 10;
   ex_order "Ani" "628222" "nasi goreng" 15000 "pending" 11].

Lemma top_menu_dominates_witness :
  In ("nasi goreng", 2) (top_menu ex_menu_orders) /\ In ("kopi", 1) (menu_items_of ex_menu_orders)
  /\ ~ In ("kopi", 1) (top_menu ex_menu_orders) /\ snd ("kopi", 1) <= snd ("nasi goreng", 2).
Proof.
  assert (H1 : In ("nasi goreng", 2) (top_menu ex_menu_orders)) by (vm_compute; tauto).
  assert (H2 : In ("kopi", 1) (menu_items_of ex_menu_orders)) by (vm_compute; tauto).
  assert (H3 : ~ In ("kopi", 1) (top_menu ex_menu_orders)) by (vm_compute; intuition discriminate).
  exact (conj H1 (conj H2 (conj H3 (top_menu_dominates ex_menu_orders _ _ H1 H2 H3)))).
Defined.

Lemma hour_counts_total_witness :
  Forall (fun o => valid (created_at o) = true) ex_menu_orders
  /\ sumZ snd (hour_counts ex_menu_orders) = 2.
Proof.
  assert (Hv : Forall (fun o => valid (created_at o) = true) ex_menu_orders)
    by (repeat constructor).
  exact (conj Hv (hour_counts_total ex_menu_orders Hv)).
Defined.

End Reporting.
