(* ===== verification/Gateway.v ===== *)
(** The messaging gateway of [src/utils/whatsapp_integration.py], class
    [WhatsAppIntegration], over an explicit state: the credentials, the
    Twilio client (present or not), the webhook URL, whether the webhook
    server was started, the message callback, and the messages the
    Twilio API accepted.  Each method is a function of the state and,
    where it calls Twilio, of the API's answer, which is an input of the
    step (the network is the environment's choice).  The callback is the
    interface [Responder], which the two responders of the repository
    implement. *)

From stdpp Require Import base list strings.
From Stdlib Require Import String Ascii ZArith Lia.
From S2P Require Import Prelude PyStr PyDict MessageProcessor Automation.

Open Scope Z_scope.

(** What the gateway expects of a message callback (the contract
    "Messaging Gateway -> Core": a reply for a text and a sender, never
    empty). *)
Class Responder := {
  respond : string -> string -> string;
  respond_nonempty : forall message sender, respond message sender <> EmptyString
}.

#[export] Instance message_processor_responder : Responder := {
  respond := MessageProcessor.process_message MessageProcessor.init;
  respond_nonempty := MessageProcessor.process_message_nonempty MessageProcessor.init
}.

#[export] Instance automation_responder : Responder := {
  respond := fun message _ => Automation.process_message message;
  respond_nonempty := fun message _ => Automation.automation_reply_nonempty message
}.

Module Gateway.

(** [str.replace(old, new)] for a non-empty [old]: every occurrence,
    left to right, without overlap; [skip] counts the characters of the
    last occurrence still to pass. *)
Fixpoint replace_go (old new : string) (skip : nat) (s : string) : string :=
  match s with
  | EmptyString => EmptyString
  | String c t =>
      match skip with
      | S k => replace_go old new k t
      | O => if prefix old s then (new ++ replace_go old new (String.length old - 1) t)%string
             else String c (replace_go old new 0 t)
      end
  end.

Definition replace (s old new : string) : string := replace_go old new 0 s.

(** A call of [client.messages.create]: the account of the client that
    makes it, and its [from_], [to] and [body]. *)
Record message := mkMessage { account : string * string; from_ : string; to : string; body : string }.

Inductive error :=
  | NotInitialized                     (* "Twilio client not initialized" *)
  | TwilioRestException (code : Z)     (* the API refused the request *)
  | CredentialsRequired.               (* raised by [Client(...)] *)

Record state := mkState {
  account_sid : option string;
  auth_token : option string;
  whatsapp_number : option string;
  client : option (string * string);
  webhook_url : option string;
  server_started : bool;
  message_callback : option (string -> string -> string);
  sent : list message
}.

(** [__init__]. *)
Definition init : state := mkState None None None None None false None [].

Definition with_sent (s : state) (m : message) : state :=
  mkState (account_sid s) (auth_token s) (whatsapp_number s) (client s) (webhook_url s)
    (server_started s) (message_callback s) (sent s ++ [m]).

(** Python's truth value of an optional string. *)
Definition truthy (o : option string) : bool :=
  match o with Some s => negb (String.eqb s "") | None => false end.

Section Twilio.
(** [TWILIO_ACCOUNT_SID] and [TWILIO_AUTH_TOKEN] of the environment,
    [""] when unset: [Client] falls back on them for an empty argument. *)
Context (env_account_sid env_auth_token : string).

(** [set_credentials]: the fields are assigned first; [Client(...)]
    raises when it is left without a user name or a password. *)
Definition set_credentials (s : state) (sid token number : string) (url : option string)
    : state * result error unit :=
  let user := if String.eqb sid "" then env_account_sid else sid in
  let password := if String.eqb token "" then env_auth_token else token in
  let assigned c := mkState (Some sid) (Some token) (Some number) c url
                      (server_started s) (message_callback s) (sent s) in
  if String.eqb user "" || String.eqb password "" then (assigned (client s), Err CredentialsRequired)
  else (assigned (Some (user, password)), Ok tt).

End Twilio.

(** [send_message(to, body)], given the API's answer (a message SID or
    the error code of a [TwilioRestException]). *)
Definition send_message (s : state) (to_ body_ : string) (api : result Z string)
    : state * result error string :=
  match client s with
  | None => (s, Err NotInitialized)
  | Some c =>
      let to' := if startswith to_ "whatsapp:" then to_ else ("whatsapp:" ++ to_)%string in
      let m := mkMessage c ("whatsapp:" ++ default "None" (whatsapp_number s)) to' body_ in
      match api with
      | Ok sid => (with_sent s m, Ok sid)
      | Err code => (s, Err (TwilioRestException code))
      end
  end.

(** [setup_webhook(url)]. *)
Definition setup_webhook (s : state) (url : string) : state * bool :=
  (mkState (account_sid s) (auth_token s) (whatsapp_number s) (client s) (Some url)
     (server_started s) (message_callback s) (sent s), true).

(** [start_webhook_server]: refuses without a webhook URL; the server
    thread then hands every POST to [_handle_webhook]. *)
Definition start_webhook_server (s : state) : state * bool :=
  if truthy (webhook_url s) then
    (mkState (account_sid s) (auth_token s) (whatsapp_number s) (client s) (webhook_url s)
       true (message_callback s) (sent s), true)
  else (s, false).

(** [set_message_callback(callback)]. *)
Definition set_message_callback (s : state) (cb : string -> string -> string) : state :=
  mkState (account_sid s) (auth_token s) (whatsapp_number s) (client s) (webhook_url s)
    (server_started s) (Some cb) (sent s).

(** [_handle_webhook(request)]: the form values of the POST, the API's
    answer if a reply is sent, and the HTTP status returned. *)
Definition handle_webhook (s : state) (values : dict string string) (api : result Z string)
    : state * Z :=
  let incoming_msg := strip (dict_get values "Body" "") in
  let sender := dict_get values "From" "" in
  let sender := if startswith sender "whatsapp:" then replace sender "whatsapp:" "" else sender in
  match message_callback s with
  | None => (s, 200)
  | Some cb =>
      let response := cb incoming_msg sender in
      if String.eqb response "" then (s, 200)
      else match send_message s sender response api with
           | (s', Ok _) => (s', 200)
           | (s', Err _) => (s', 500)
           end
  end.

(** An exception raised by [self.client.api.accounts(sid).fetch()],
    by its text [str(e)]: a [TwilioRestException] (the API refused the
    credentials), or any other exception (a connection error, a timeout,
    an unexpected answer). *)
Inductive fetch_error :=
  | FetchTwilio (e : string)
  | FetchOther (e : string).

(** [validate_credentials()], given the outcome of the account fetch.
    Without a client, [self.client.api] raises [AttributeError] before
    any fetch, and the generic handler catches it. *)
Definition validate_credentials (s : state) (api : result fetch_error unit) : bool * string :=
  if negb (truthy (account_sid s) && truthy (auth_token s) && truthy (whatsapp_number s)) then
    (false, "Credentials belum lengkap")
  else match client s with
       | None => (false, "Error validasi: 'NoneType' object has no attribute 'api'")
       | Some _ =>
           match api with
           | Ok _ => (true, "Credentials valid")
           | Err (FetchTwilio e) => (false, "Credentials tidak valid: " ++ e)%string
           | Err (FetchOther e) => (false, "Error validasi: " ++ e)%string
           end
       end.

(** ** Reachable states *)

(** Every method, with any arguments, environment and API answer. *)
Inductive step : state -> state -> Prop :=
  | step_set_credentials s env_sid env_token sid token number url :
      step s (fst (set_credentials env_sid env_token s sid token number url))
  | step_send_message s to_ body_ api : step s (fst (send_message s to_ body_ api))
  | step_setup_webhook s url : step s (fst (setup_webhook s url))
  | step_start_webhook_server s : step s (fst (start_webhook_server s))
  | step_set_message_callback s cb : step s (set_message_callback s cb)
  | step_handle_webhook s values api : step s (fst (handle_webhook s values api)).

Inductive reachable : state -> Prop :=
  | reachable_init : reachable init
  | reachable_step s s' : reachable s -> step s s' -> reachable s'.

(** What [app.py] does with its gateway: the sidebar's "Simpan
    Konfigurasi" button calls [set_credentials(account_sid, auth_token,
    whatsapp_number)] and nothing else. *)
Inductive app_reachable : state -> Prop :=
  | app_init : app_reachable init
  | app_save s env_sid env_token sid token number :
      app_reachable s -> app_reachable (fst (set_credentials env_sid env_token s sid token number None)).

(** Set credentials have a client. *)
Definition wf (s : state) : Prop :=
  truthy (account_sid s) = true -> truthy (auth_token s) = true -> client s <> None.

(** ** Theorems *)

Lemma replace_go_skip (old new p r : string) :
  replace_go old new (String.length p) (p ++ r) = replace_go old new 0 r.
Proof. induction p as [|c p IH]; [done|]. rewrite str_app_cons. exact IH. Qed.

Lemma contains_prefix_false (p s : string) : contains p s = false -> prefix p s = false.
Proof. destruct s; cbn [contains]; by intros [? ?]%orb_false_elim. Qed.

Lemma replace_go_absent (old new r : string) :
  contains old r = false -> replace_go old new 0 r = r.
Proof.
  induction r as [|c r IH]; [done|]. intros Hc.
  cbn [replace_go]. rewrite (contains_prefix_false _ _ Hc).
  cbn [contains] in Hc. apply orb_false_elim in Hc as [_ Hc]. by rewrite IH.
Qed.

(** Removing a leading occurrence of a word that does not occur again. *)
Lemma replace_leading (old new r : string) :
  old <> EmptyString -> contains old r = false -> replace (old ++ r) old new = (new ++ r)%string.
Proof.
  intros Hne Hc. unfold replace. destruct old as [|c o]; [done|].
  rewrite str_app_cons. cbn [replace_go]. rewrite <- str_app_cons, prefix_app.
  replace (String.length (String c o) - 1)%nat with (String.length o) by (cbn; lia).
  by rewrite replace_go_skip, replace_go_absent.
Qed.

Lemma send_message_ok (s : state) (c : string * string) (to_ body_ sid : string) :
  client s = Some c ->
  send_message s to_ body_ (Ok sid)
  = (with_sent s (mkMessage c ("whatsapp:" ++ default "None" (whatsapp_number s))
                   (if startswith to_ "whatsapp:" then to_ else "whatsapp:" ++ to_) body_), Ok sid).
Proof. intros Hc. unfold send_message. by rewrite Hc. Qed.

(** C11: the gateway's round trip: with a client, a responder as the
    callback and the API accepting the message, a POST from
    "whatsapp:<n>" is answered with status 200 and exactly one message,
    sent to "whatsapp:<n>" (the address it came from) from the bot's
    number, whose body is the responder's reply to the stripped text and
    to the sender without its prefix. *)
Theorem webhook_reply_roundtrip `{Responder} (s : state) (values : dict string string)
    (c : string * string) (n sid : string) :
  client s = Some c -> message_callback s = Some respond ->
  dict_get values "From" "" = ("whatsapp:" ++ n)%string -> contains "whatsapp:" n = false ->
  handle_webhook s values (Ok sid)
  = (with_sent s (mkMessage c ("whatsapp:" ++ default "None" (whatsapp_number s))
                   ("whatsapp:" ++ n) (respond (strip (dict_get values "Body" "")) n)), 200).
Proof.
  intros Hc Hcb Hfrom Hn. unfold handle_webhook. rewrite Hfrom, Hcb.
  unfold startswith. rewrite prefix_app, replace_leading by done.
  rewrite str_app_nil_l.
  destruct (String.eqb_spec (respond (strip (dict_get values "Body" "")) n) "") as [He|_].
  { by apply respond_nonempty in He. }
  rewrite (send_message_ok _ c) by done. unfold startswith.
  by rewrite (contains_prefix_false _ _ Hn).
Qed.

(** C31: when the reply cannot be delivered (no client yet, or the API
    refuses it) the webhook answers 500 and the state is unchanged. *)
Theorem webhook_failure `{Responder} (s : state) (values : dict string string) (api : result Z string) :
  message_callback s = Some respond ->
  (client s = None \/ exists code, api = Err code) ->
  handle_webhook s values api = (s, 500).
Proof.
  intros Hcb Hfail. unfold handle_webhook. rewrite Hcb.
  match goal with |- context [String.eqb (respond ?m ?x) ""] =>
    destruct (String.eqb_spec (respond m x) "") as [He|_]; [by apply respond_nonempty in He|] end.
  unfold send_message. destruct Hfail as [-> | [code ->]]; [done|]. by destruct (client s).
Qed.

(** C30: the application never registers a message callback, so every
    webhook call it could receive is answered 200 without any reply
    being sent: the bot does not answer WhatsApp messages. *)
Theorem app_never_replies (s : state) (values : dict string string) (api : result Z string) :
  app_reachable s -> handle_webhook s values api = (s, 200).
Proof.
  intros Hr. assert (Hcb : message_callback s = None).
  { induction Hr as [|s es et sid tok num Hr IH]; [done|].
    unfold set_credentials. cbn zeta. by case_match. }
  unfold handle_webhook. by rewrite Hcb.
Qed.

Lemma wf_send_message s to_ body_ api : wf s -> wf (fst (send_message s to_ body_ api)).
Proof.
  unfold wf, send_message, with_sent. intros Hwf.
  repeat case_match; cbn; first [exact Hwf | intros; congruence | intros H1 H2; by destruct (Hwf H1 H2)].
Qed.

Lemma gateway_wf_step s s' : wf s -> step s s' -> wf s'.
Proof.
  intros Hwf Hs. destruct Hs; cbn; try exact Hwf.
  - unfold wf, set_credentials. cbn zeta.
    case_match; cbn; intros H1 H2; bool_prop; rewrite ?H1, ?H2 in *; cbn in *; congruence.
  - by apply wf_send_message.
  - unfold start_webhook_server. by case_match.
  - unfold handle_webhook. destruct (message_callback s); [|exact Hwf]. case_match; [exact Hwf|].
    destruct (send_message _ _ _ _) as [s1 r] eqn:E.
    match type of E with send_message ?s ?t ?b ?a = _ =>
      pose proof (wf_send_message s t b a Hwf) as Hw; rewrite E in Hw end.
    by destruct r.
Qed.

Lemma gateway_reachable_wf s : reachable s -> wf s.
Proof. induction 1; [by cbn|]. eauto using gateway_wf_step. Qed.

(** C18: in every reachable gateway state, [validate_credentials]
    reports "Credentials belum lengkap" when a credential is missing or
    empty, and otherwise the outcome of the account fetch: valid when it
    succeeds, "Credentials tidak valid" for a [TwilioRestException] and
    "Error validasi" for any other exception it raises.  The
    [AttributeError] of a missing client never reaches the generic
    handler: the credentials are never set without a client. *)
Theorem validate_credentials_spec (s : state) (api : result fetch_error unit) :
  reachable s ->
  validate_credentials s api =
    if truthy (account_sid s) && truthy (auth_token s) && truthy (whatsapp_number s) then
      match api with
      | Ok _ => (true, "Credentials valid")
      | Err (FetchTwilio e) => (false, "Credentials tidak valid: " ++ e)%string
      | Err (FetchOther e) => (false, "Error validasi: " ++ e)%string
      end
    else (false, "Credentials belum lengkap").
Proof.
  intros Hr. pose proof (gateway_reachable_wf s Hr) as Hwf. unfold validate_credentials, wf in *.
  destruct (truthy (account_sid s)) eqn:E1, (truthy (auth_token s)) eqn:E2,
    (truthy (whatsapp_number s)); try done.
  cbn. destruct (client s); [done|]. by destruct Hwf.
Qed.

(** ** Scenarios *)

Definition configured : state :=
  fst (set_credentials "" "" init "AC0123" "secret" "+14155238886" None).

Definition ex_request : dict string string :=
  [("Body", "  Halo, saya mau pesan 2 nasi goreng  "); ("From", "whatsapp:+628123456789");
   ("MessageSid", "SM01")]%string.

(** C34: a [set_credentials] call that raises (the SID, or the token,
    empty both in the call and in the environment) has already
    overwritten the stored credentials and number, and keeps the old
    client: [validate_credentials] then reports the credentials
    incomplete, whatever the API would answer, while [send_message]
    still sends through the old account, from the new number. *)
Theorem failed_reconfiguration_mixes_accounts (env_sid env_token : string) (s : state)
    (c : string * string) (sid token number to_ body_ msid : string) (api : result fetch_error unit) :
  client s = Some c ->
  (sid = "" /\ env_sid = "" \/ token = "" /\ env_token = "")%string ->
  let '(s2, r) := set_credentials env_sid env_token s sid token number None in
  r = Err CredentialsRequired
  /\ account_sid s2 = Some sid /\ whatsapp_number s2 = Some number /\ client s2 = Some c
  /\ validate_credentials s2 api = (false, "Credentials belum lengkap")
  /\ send_message s2 to_ body_ (Ok msid)
     = (with_sent s2 (mkMessage c ("whatsapp:" ++ number)
                       (if startswith to_ "whatsapp:" then to_ else "whatsapp:" ++ to_) body_), Ok msid).
Proof.
  intros Hc Hempty. unfold set_credentials.
  destruct Hempty as [[-> ->] | [-> ->]]; cbn -[send_message validate_credentials];
    rewrite ?orb_true_r; split_and!; try done;
    try (unfold validate_credentials; cbn; by rewrite ?andb_false_r);
    by rewrite (send_message_ok _ c) by (cbn; exact Hc).
Qed.

Lemma webhook_reply_roundtrip_witness :
  handle_webhook (set_message_callback configured (@respond automation_responder)) ex_request (Ok "SM02")
  = (with_sent (set_message_callback configured (@respond automation_responder))
       (mkMessage ("AC0123", "secret") "whatsapp:+14155238886" "whatsapp:+628123456789"
          (Automation.process_message "Halo, saya mau pesan 2 nasi goreng")), 200).
Proof.
  refine (webhook_reply_roundtrip (H := automation_responder) _ ex_request ("AC0123", "secret")
            "+628123456789" "SM02" _ _ _ _); vm_compute; reflexivity.
Defined.

Lemma webhook_failure_witness :
  handle_webhook (set_message_callback init (@respond message_processor_responder)) ex_request (Ok "SM02")
  = (set_message_callback init (@respond message_processor_responder), 500).
Proof.
  refine (webhook_failure (H := message_processor_responder) _ ex_request (Ok "SM02") _ _);
    [reflexivity | left; reflexivity].
Defined.

Lemma app_never_replies_witness :
  app_reachable configured /\ handle_webhook configured ex_request (Ok "SM02") = (configured, 200).
Proof.
  assert (Hr : app_reachable configured) by (apply app_save, app_init).
  exact (conj Hr (app_never_replies configured ex_request (Ok "SM02") Hr)).
Defined.

Lemma validate_credentials_spec_witness :
  reachable configured
  /\ validate_credentials configured (Err (FetchOther "timed out")) = (false, "Error validasi: timed out").
Proof.
  assert (Hr : reachable configured)
    by (eapply reachable_step; [apply reachable_init | apply step_set_credentials]).
  split; [exact Hr|].
  rewrite (validate_credentials_spec configured (Err (FetchOther "timed out")) Hr). vm_compute. reflexivity.
Defined.

Lemma failed_reconfiguration_mixes_accounts_witness :
  client configured = Some ("AC0123", "secret")%string
  /\ ((""  = "" /\ "" = "") \/ ("" = "" /\ "" = ""))%string
  /\ let '(s2, r) := set_credentials "" "" configured "" "" "+628999" None in
     r = Err CredentialsRequired
     /\ account_sid s2 = Some "" /\ whatsapp_number s2 = Some "+628999"
     /\ client s2 = Some ("AC0123", "secret")%string
     /\ validate_credentials s2 (Ok tt) = (false, "Credentials belum lengkap")
     /\ send_message s2 "+628111" "Halo" (Ok "SM02")
        = (with_sent s2 (mkMessage ("AC0123", "secret") ("whatsapp:" ++ "+628999")
                          (if startswith "+628111" "whatsapp:" then "+628111" else "whatsapp:" ++ "+628111")
                          "Halo"), Ok "SM02")%string.
Proof.
  assert (Hc : client configured = Some ("AC0123", "secret")%string) by reflexivity.
  assert (He : ((""  = "" /\ "" = "") \/ ("" = "" /\ "" = ""))%string) by (left; split; reflexivity).
  exact (conj Hc (conj He (failed_reconfiguration_mixes_accounts "" "" configured _ "" "" "+628999"
                              "+628111" "Halo" "SM02" (Ok tt) Hc He))).
Defined.

End Gateway.
