(* ===== verification/Dashboard.v ===== *)
(** The dashboard of [src/app.py] as the script Streamlit reruns on every
    interaction: a page writer that appends elements to the page and
    stops at the first exception, the orders tab ([tab2]) with its
    status filter, expanders, status select boxes and update buttons,
    the metric panels, and the tables built from the store and the
    reports.  The buttons that write to the store are steps of the
    relation [app_step] on the database state of [OrderStore]. *)

From stdpp Require Import base list strings.
From Stdlib Require Import String Ascii ZArith Lia Sorted Permutation.
From S2P Require Import Prelude PyStr PyDict MessageProcessor DateTime OrderStore Reporting.

Open Scope Z_scope.
Local Open Scope bot_scope.

Module Dashboard.

Import DateTime.DateTime OrderStore.OrderStore Reporting.Reporting.

(** ** The page writer *)

(** What the script puts on the page. *)
Inductive element :=
  | Text (s : string)                  (* st.header / st.write *)
  | Metric (label value : string)      (* st.metric(label, value) *)
  | Expander (label : string)          (* st.expander(label) *)
  | Selectbox (key : string) (index : nat)
  | Button (key : string)
  | Alert (s : string)                 (* st.info / st.success *)
  | TextInput (label value : string)   (* st.text_input *)
  | Chart (title : string) (xs : list string) (ys : list Z)   (* a plotly figure, st.bar_chart *)
  | Table (rows : list (list string)). (* st.dataframe *)

(** The exceptions that stop the script. *)
Inductive app_error :=
  | StoreError (e : store_error)              (* raised by a DatabaseManager method *)
  | ValueErrorNotInList (x : string)          (* list.index(x) *)
  | DuplicateWidgetID (key : string).         (* two widgets with one key *)

(** The page so far: its elements and the widget keys in use. *)
Record page := mkPage { elements : list element; keys : list string }.

Definition empty_page : page := mkPage [] [].

(** A script fragment: it extends the page, and returns a value or the
    exception that stops the run (the page keeps what was written). *)
Definition M (A : Type) : Type := page -> page * result app_error A.

#[export] Instance M_ret : MRet M := fun A a p => (p, Ok a).
#[export] Instance M_bind : MBind M := fun A B k m p =>
  match m p with
  | (p', Ok a) => k a p'
  | (p', Err e) => (p', Err e)
  end.

Definition raise {A} (e : app_error) : M A := fun p => (p, Err e).

Definition lift {A} (r : result store_error A) : M A :=
  match r with Ok a => mret a | Err e => raise (StoreError e) end.

Definition write (s : string) : M unit :=
  fun p => (mkPage (elements p ++ [Text s]) (keys p), Ok tt).

Definition open_expander (label : string) : M unit :=
  fun p => (mkPage (elements p ++ [Expander label]) (keys p), Ok tt).

(** A keyed widget: Streamlit refuses a key already used in this run. *)
Definition widget (k : string) (el : element) : M unit :=
  fun p => if existsb (String.eqb k) (keys p) then (p, Err (DuplicateWidgetID k))
           else (mkPage (elements p ++ [el]) (keys p ++ [k]), Ok tt).

(** [for x in l: body(x)]. *)
Fixpoint for_each {A} (l : list A) (body : A -> M unit) : M unit :=
  match l with
  | [] => mret tt
  | x :: l' => _ ← body x; for_each l' body
  end.

(** ** The orders tab (app.py, [with tab2]) *)

Definition status_options : list string :=
  ["pending"; "confirmed"; "processing"; "completed"; "cancelled"]%string.

(** [l.index(x)]: the first position of [x], or [ValueError]. *)
Fixpoint py_index (x : string) (l : list string) : option nat :=
  match l with
  | [] => None
  | y :: l' => if String.eqb x y then Some 0%nat else S <$> py_index x l'
  end.

(** [f"{order.id}"]. *)
Definition str_id (i : option Z) : string :=
  match i with Some n => str_int n | None => "None" end.

(** [created_at.strftime('%d/%m/%Y %H:%M')] for four-digit years. *)
Definition strftime_dmy_hm (dt : datetime) : string :=
  (zpad 2 (day dt) ++ "/" ++ zpad 2 (month dt) ++ "/" ++ zpad 4 (year dt) ++ " "
   ++ zpad 2 (hour dt) ++ ":" ++ zpad 2 (minute dt))%string.

(** The orders the filter selects. *)
Definition load_orders (d : db) (status_filter : string) : result store_error (list Order) :=
  if String.eqb status_filter "Semua" then get_all_orders d
  else get_orders_by_status d status_filter.

(** The body of [for order in orders:]: one expander. *)
Definition render_order (order : Order) : M unit :=
  _ ← open_expander ("Pesanan #" ++ str_id (id order) ++ " - " ++ customer_name order
                     ++ " - " ++ status order)%string;
  _ ← write ("**Pelanggan:** " ++ customer_name order)%string;
  _ ← write ("**WhatsApp:** " ++ customer_wa order)%string;
  _ ← write ("**Alamat:** " ++ customer_address order)%string;
  _ ← write ("**Tanggal:** " ++ strftime_dmy_hm (created_at order))%string;
  _ ← write ("**Items:** " ++ items order)%string;
  _ ← write ("**Total:** Rp " ++ fmt_thousands (total order))%string;
  _ ← write ("**Status:** " ++ status order)%string;
  index ← match py_index (status order) status_options with
          | Some i => mret i
          | None => raise (ValueErrorNotInList (status order))
          end;
  _ ← widget ("status_" ++ str_id (id order))%string
             (Selectbox ("status_" ++ str_id (id order)) index);
  widget ("update_" ++ str_id (id order))%string (Button ("update_" ++ str_id (id order))).

Definition orders_tab (d : db) (status_filter : string) : M unit :=
  _ ← write "Manajemen Pesanan";
  orders ← lift (load_orders d status_filter);
  for_each orders render_order.


(** ** The metric panels *)

Definition metric (label value : string) : M unit :=
  fun p => (mkPage (elements p ++ [Metric label value]) (keys p), Ok tt).

(** [f"Rp {x:,.0f}"] of a total (an integral [REAL]). *)
Definition fmt_rp (x : Z) : string := ("Rp " ++ fmt_thousands x)%string.

(** [format(p / q, ".0f")]: the quotient rounded to an integer, ties to
    even. *)
Definition round_half_even (p q : Z) : Z :=
  let k := p / q in
  match Z.compare (2 * (p mod q)) q with
  | Lt => k
  | Gt => k + 1
  | Eq => if Z.even k then k else k + 1
  end.

(** [avg_order_value = revenue / len(completed_orders) if completed_orders
    else 0], as it is displayed. *)
Definition avg_order_value (completed : list Order) : Z :=
  match completed with
  | [] => 0
  | _ => round_half_even (sumZ total completed) (Z.of_nat (List.length completed))
  end.

(** The sidebar's "Statistik Hari Ini". *)
Definition sidebar_stats (now : datetime) (d : db) : M unit :=
  _ ← write "Statistik Hari Ini";
  today_orders ← lift (get_today_orders now d);
  pending_orders ← lift (get_pending_orders d);
  _ ← metric "Pesanan Hari Ini" (str_int (Z.of_nat (List.length today_orders)));
  metric "Pesanan Tertunda" (str_int (Z.of_nat (List.length pending_orders))).

(** The three columns of [tab1]. *)
Definition dashboard_metrics (now : datetime) (d : db) : M unit :=
  _ ← write "Pesanan Hari Ini";
  today_orders ← lift (get_today_orders now d);
  _ ← metric "Jumlah Pesanan" (str_int (Z.of_nat (List.length today_orders)));
  _ ← write "Pesanan Bulan Ini";
  monthly_orders ← lift (get_monthly_orders now d);
  _ ← metric "Jumlah Pesanan" (str_int (Z.of_nat (List.length monthly_orders)));
  _ ← write "Total Pendapatan";
  metric "Pendapatan" (fmt_rp (revenue monthly_orders)).

(** The summary cards of [tab4]; the later sections of the tab use its
    [all_orders] and [completed_orders]. *)
Definition summary_cards (now : datetime) (d : db) : M (list Order * list Order) :=
  _ ← write "📈 Summary Overview";
  all_orders ← lift (get_all_orders d);
  today_orders ← lift (get_today_orders now d);
  monthly_orders ← lift (get_monthly_orders now d);
  let completed := completed_orders monthly_orders in
  _ ← metric "Total Pesanan" (str_int (Z.of_nat (List.length all_orders)));
  _ ← metric "Pesanan Hari Ini" (str_int (Z.of_nat (List.length today_orders)));
  _ ← metric "Pendapatan Bulan Ini" (fmt_rp (sumZ total completed));
  _ ← metric "Rata-Rata Nilai Pesanan" (fmt_rp (avg_order_value completed));
  mret (all_orders, completed).

(** [pd.DataFrame.from_dict(status_counts, orient='index').reset_index()]:
    one (Status, Jumlah) row per key, in the dict's order. *)
Definition status_table (status_counts : dict string Z) : list (string * Z) := status_counts.

(** [top_customers.head(5)]. *)
Definition top_5_customers (d : db) : result store_error (list top_row) :=
  let* top_customers := get_top_customers d in Ok (firstn 5 top_customers).

(** A row of the "Data Mentah" table, with
    [created_at.strftime('%Y-%m-%d %H:%M')]. *)
Definition raw_row (order : Order) : string * string * string * string * Z * string * string :=
  (str_id (id order), customer_name order, customer_wa order, items order, total order,
   status order,
   (date_text (created_at order) ++ " " ++ zpad 2 (hour (created_at order)) ++ ":"
    ++ zpad 2 (minute (created_at order)))%string).

(** The buttons of the app that write to the store: [DatabaseManager()]
    ([_init_db]) at the top of every run, "Initialize Sample Data", and
    "Perbarui Status" with a status of the select box. *)
Inductive app_step : db -> db -> Prop :=
  | app_open d : app_step d (init_db d)
  | app_sample d : app_step d (init_sample_data d)
  | app_update d order_id new_status d' :
      In new_status status_options ->
      update_order_status d order_id new_status = Ok d' -> app_step d d'.

Inductive app_reachable : db -> Prop :=
  | app_new : app_reachable (init_db empty_db)
  | app_next d d' : app_reachable d -> app_step d d' -> app_reachable d'.

(** ** The status invariant of the states the app reaches *)

(** Every stored status is one the select box offers. *)
Definition statuses_ok (d : db) : Prop :=
  match orders d with
  | Some rows => Forall (fun r => In (r_status r) status_options) rows
  | None => True
  end.

Lemma app_step_step d d' : app_step d d' -> step d d'.
Proof. destruct 1; [apply step_init_db|apply step_init_sample_data|by eapply step_update_status]. Qed.

Lemma app_reachable_reachable d : app_reachable d -> reachable d.
Proof. induction 1; [constructor|]. eapply reachable_step; eauto using app_step_step. Qed.

Lemma statuses_ok_step d d' : statuses_ok d -> app_step d d' -> statuses_ok d'.
Proof.
  intros Hok Hs. destruct Hs as [d|d|d i st d' Hin Hup]; unfold statuses_ok in *.
  - unfold init_db. destruct (orders d) eqn:E; cbn; [by rewrite E|done].
  - vm_compute. repeat constructor; cbn; tauto.
  - unfold update_order_status in Hup. destruct (orders d) as [rows|]; [|done].
    injection Hup as <-. cbn. apply Forall_map. eapply Forall_impl; [exact Hok|].
    intros r Hr. by destruct (Z.eqb (rid r) i).
Qed.

(** C13: in every state the app can reach from a fresh database file, every
    stored order has a status among the five the select box offers. *)
Theorem app_statuses_ok (d : db) : app_reachable d -> statuses_ok d.
Proof.
  induction 1 as [|d d' _ IH Hs]; [cbn; constructor|]. by apply (statuses_ok_step d).
Qed.

Lemma app_reachable_inv (d : db) : app_reachable d -> wf d /\ statuses_ok d.
Proof.
  induction 1 as [|d d' _ [Hwf Hok] Hs].
  - split; [|cbn; constructor]. unfold wf. cbn. split; [unfold MAX_ROWID; lia|split; constructor].
  - split; [eapply wf_step; eauto using app_step_step|by apply (statuses_ok_step d)].
Qed.

(** ** The orders tab renders in every reachable state *)

Lemma row_to_order_fields (r : row) (o : Order) :
  row_to_order r = Ok o -> id o = Some (rid r) /\ status o = r_status r.
Proof.
  unfold row_to_order, map_err. destruct (strptime (r_created r)); cbn; [|discriminate].
  by intros [= <-].
Qed.

Lemma rows_to_orders_map (l : list row) (os : list Order) :
  rows_to_orders l = Ok os ->
  map id os = map (fun r => Some (rid r)) l /\ map status os = map r_status l.
Proof.
  revert os. induction l as [|r l IH]; intros os; cbn; [by intros [= <-]|].
  destruct (row_to_order r) as [o|] eqn:E; cbn; [|discriminate].
  destruct (rows_to_orders l) as [os'|]; cbn; [|discriminate]. intros [= <-]. cbn [map].
  apply row_to_order_fields in E as [-> ->]. destruct (IH os' eq_refl) as [-> ->]. done.
Qed.

(** What the loop of the tab needs of its orders: statuses the select
    box offers, and distinct non-negative ids. *)
Definition listable (os : list Order) : Prop :=
  Forall (fun s => In s status_options) (map status os)
  /\ Forall (fun i => exists n, i = Some n /\ 0 <= n) (map id os)
  /\ NoDup (map id os).

Lemma listable_filter (p : Order -> bool) (os : list Order) :
  listable os -> listable (List.filter p os).
Proof.
  induction os as [|o os IH]; [done|]. intros (Hs & Hi & Hnd). cbn in Hs, Hi, Hnd.
  apply Forall_cons in Hs as [Hs1 Hs], Hi as [Hi1 Hi]. apply NoDup_cons in Hnd as [Hn Hnd].
  destruct (IH (conj Hs (conj Hi Hnd))) as (Hs' & Hi' & Hnd'). cbn [List.filter].
  destruct (p o); [|done]. cbn. split_and!; try by constructor.
  constructor; [|done]. intros (o' & Heq & Hin)%list_elem_of_In%in_map_iff.
  apply Hn, list_elem_of_In, in_map_iff. exists o'. split; [done|].
  by apply filter_In in Hin as [? _].
Qed.

Lemma NoDup_map_rid (rows : list row) :
  StronglySorted (fun a b => rid a < rid b) rows -> NoDup (map rid rows).
Proof.
  induction 1 as [|r rows _ IH Hall]; cbn; constructor; [|done].
  intros (r' & Heq & Hin)%list_elem_of_In%in_map_iff.
  rewrite List.Forall_forall in Hall. specialize (Hall r' Hin). lia.
Qed.

Lemma load_orders_listable (d : db) (status_filter : string) (os : list Order) :
  wf d -> statuses_ok d -> load_orders d status_filter = Ok os -> listable os.
Proof.
  intros [_ Hwf] Hok. unfold statuses_ok in Hok.
  assert (Hall : forall all, get_all_orders d = Ok all -> listable all).
  { intros all. unfold get_all_orders. destruct (orders d) as [rows|]; [|discriminate].
    destruct Hwf as [Hsorted Hbound]. intros Hrows.
    apply rows_to_orders_map in Hrows as [Hid Hst].
    pose proof (sort_desc_perm rows) as Hp. unfold listable. rewrite Hid, Hst.
    split_and!.
    - apply List.Forall_map. eapply Permutation_Forall; [symmetry; exact Hp|]. exact Hok.
    - apply List.Forall_map. eapply Permutation_Forall; [symmetry; exact Hp|].
      eapply Forall_impl; [exact Hbound|]. intros r Hr. cbn in Hr. exists (rid r). split; [done|lia].
    - rewrite <- map_map. apply NoDup_fmap_2; [intros ?? [=]; done|].
      rewrite (Permutation_map rid Hp). by apply NoDup_map_rid. }
  unfold load_orders, get_orders_by_status, filter_orders.
  destruct (String.eqb status_filter "Semua"); [apply Hall|].
  destruct (get_all_orders d) as [all|] eqn:E; cbn; [|discriminate]. intros [= <-].
  by apply listable_filter, Hall.
Qed.

Definition is_expander (el : element) : bool :=
  match el with Expander _ => true | _ => false end.

(** The keys of the two widgets of an order's expander. *)
Definition order_keys (o : Order) : list string :=
  [("status_" ++ str_id (id o))%string; ("update_" ++ str_id (id o))%string].

Lemma py_index_In (x : string) (l : list string) : In x l -> exists i, py_index x l = Some i.
Proof.
  induction l as [|y l IH]; [done|]. intros [->|Hin]; cbn.
  - rewrite String.eqb_refl. eauto.
  - destruct (String.eqb x y); [eauto|]. destruct (IH Hin) as [i ->]. eauto.
Qed.

Lemma existsb_eqb_false (k : string) (l : list string) : ~ In k l -> existsb (String.eqb k) l = false.
Proof.
  intros Hk. apply not_true_iff_false. rewrite existsb_exists.
  intros (k' & Hin & ->%String.eqb_eq). done.
Qed.

Lemma status_update_keys (x y : string) : ("status_" ++ x)%string <> ("update_" ++ y)%string.
Proof. intros H. apply (f_equal (String.get 0)) in H. vm_compute in H. discriminate. Qed.

(** One expander: its eight elements, one of them the expander, and
    its two keys, when the status is offered and the keys are new. *)
Lemma render_order_ok (o : Order) (p : page) :
  In (status o) status_options -> Forall (fun k => ~ In k (keys p)) (order_keys o) ->
  exists els, render_order o p = (mkPage (elements p ++ els) (keys p ++ order_keys o), Ok tt)
              /\ count_if is_expander els = 1%nat.
Proof.
  intros Hst Hk. destruct (py_index_In _ _ Hst) as [i Hi].
  apply Forall_cons in Hk as [Hk1 Hk]. apply Forall_cons in Hk as [Hk2 _].
  unfold render_order, mbind, M_bind, mret, M_ret, open_expander, write, widget.
  rewrite Hi. cbn -[py_index]. rewrite existsb_eqb_false by done. cbn -[py_index].
  rewrite existsb_eqb_false; [|rewrite in_app_iff; intros [|[Heq|[]]];
                                [done|by apply (status_update_keys (str_id (id o)) (str_id (id o)))]].
  eexists. split; [by rewrite <- !app_assoc|reflexivity].
Qed.

Lemma order_keys_disjoint (o o' : Order) (a b : Z) :
  id o = Some a -> id o' = Some b -> 0 <= a -> 0 <= b -> a <> b ->
  Forall (fun k => ~ In k (order_keys o)) (order_keys o').
Proof.
  intros Ha Hb Ha0 Hb0 Hne. unfold order_keys. rewrite Ha, Hb. cbn [str_id].
  repeat constructor; cbn; intros [H|[H|[]]];
    try (apply str_app_inv_l, str_int_inj in H; lia);
    by eapply status_update_keys.
Qed.

Lemma for_each_render_ok (os : list Order) (p : page) :
  listable os -> Forall (fun o => Forall (fun k => ~ In k (keys p)) (order_keys o)) os ->
  exists p', for_each os render_order p = (p', Ok tt)
             /\ count_if is_expander (elements p') = (count_if is_expander (elements p) + List.length os)%nat.
Proof.
  revert p. induction os as [|o os IH]; intros p Hl Hk.
  { exists p. cbn. split; [done|lia]. }
  destruct Hl as (Hs & Hi & Hnd). cbn [map] in Hs, Hi, Hnd.
  apply Forall_cons in Hs as [Hs1 Hs], Hi as [(a & Ha & Ha0) Hi].
  apply NoDup_cons in Hnd as [Hn Hnd]. apply Forall_cons in Hk as [Hk1 Hk].
  destruct (render_order_ok o p Hs1 Hk1) as (els & Hr & Hc).
  destruct (IH (mkPage (elements p ++ els) (keys p ++ order_keys o))) as (p' & Hp' & Hc').
  - by split_and!.
  - apply List.Forall_forall. intros o' Ho'.
    rewrite List.Forall_forall in Hk. specialize (Hk o' Ho').
    rewrite List.Forall_forall in Hi. destruct (Hi (id o') (in_map _ _ _ Ho')) as (b & Hb & Hb0).
    assert (Hab : a <> b).
    { intros <-. apply Hn. rewrite list_elem_of_In, Ha, <- Hb. by apply in_map. }
    pose proof (order_keys_disjoint o o' a b Ha Hb Ha0 Hb0 Hab) as Hd.
    rewrite List.Forall_forall in Hk, Hd |- *. intros k Hkin. cbn. rewrite in_app_iff.
    intros [|]; [by apply (Hk k)|by apply (Hd k)].
  - exists p'. cbn [for_each]. unfold mbind, M_bind at 1. rewrite Hr. split; [done|].
    rewrite Hc'. cbn [elements]. rewrite count_if_app, Hc. cbn [List.length]. lia.
Qed.

(** C12: in every state the app reaches, the orders tab renders without an
    exception for every status filter whose orders load: one expander per
    order, no [ValueError] from [list.index] and no duplicate widget key
    (the ids are distinct, so the keys [status_<id>] and [update_<id>]
    are). *)
Theorem orders_tab_renders (d : db) (status_filter : string) (os : list Order) :
  app_reachable d -> load_orders d status_filter = Ok os ->
  exists p, orders_tab d status_filter empty_page = (p, Ok tt)
            /\ count_if is_expander (elements p) = List.length os.
Proof.
  intros Hr Hload. destruct (app_reachable_inv d Hr) as [Hwf Hok].
  pose proof (load_orders_listable d status_filter os Hwf Hok Hload) as Hl.
  destruct (for_each_render_ok os (mkPage [Text "Manajemen Pesanan"] []) Hl) as (p & Hp & Hc).
  { apply List.Forall_forall. intros o _. repeat constructor; cbn; tauto. }
  exists p. unfold orders_tab, mbind, M_bind, write, lift. cbn -[for_each load_orders].
  rewrite Hload. cbn -[for_each]. rewrite Hp. split; [done|]. rewrite Hc. done.
Qed.

(** ** The average order value *)

Lemma round_half_even_between (p q lo hi : Z) :
  0 < q -> lo * q <= p <= hi * q -> lo <= round_half_even p q <= hi.
Proof.
  intros Hq Hp. unfold round_half_even.
  pose proof (Z.div_mod p q ltac:(lia)) as Hdm. pose proof (Z.mod_pos_bound p q Hq) as Hm.
  assert (Hlo : lo <= p / q) by (apply Z.div_le_lower_bound; lia).
  assert (Hhi : p / q <= hi) by (apply Z.div_le_upper_bound; lia).
  assert (Hup : 0 < p mod q -> p / q + 1 <= hi) by nia.
  destruct (Z.compare_spec (2 * (p mod q)) q); [case_match|..]; lia.
Qed.

Lemma sumZ_between {A} (f : A -> Z) (l : list A) (lo hi : Z) :
  Forall (fun x => lo <= f x <= hi) l ->
  lo * Z.of_nat (List.length l) <= sumZ f l <= hi * Z.of_nat (List.length l).
Proof.
  induction 1 as [|x l Hx _ IH]; cbn [List.length]; autorewrite with bot_simpl; lia.
Qed.

(** C26: the displayed average order value lies between the smallest and
    the largest total of the completed orders. *)
Theorem avg_order_value_bounds (completed : list Order) (lo hi : Z) :
  completed <> [] -> Forall (fun o => lo <= total o <= hi) completed ->
  lo <= avg_order_value completed <= hi.
Proof.
  intros Hne Hb. unfold avg_order_value. destruct completed as [|o os]; [done|].
  apply round_half_even_between; [cbn [List.length]; lia|]. by apply sumZ_between.
Qed.

(** ** Scenarios *)

Lemma py_index_None (x : string) (l : list string) : ~ In x l -> py_index x l = None.
Proof.
  induction l as [|y l IH]; [done|]. intros Hx. cbn.
  destruct (String.eqb_spec x y) as [->|_]; [by destruct Hx; left|].
  rewrite IH; [done|]. intros Hin. by apply Hx; right.
Qed.

(** An order whose status the select box does not offer: its expander
    opens and its fields are written, then [list.index] raises. *)
Lemma render_order_raises (o : Order) (p : page) :
  ~ In (status o) status_options ->
  exists els, render_order o p = (mkPage (elements p ++ els) (keys p), Err (ValueErrorNotInList (status o)))
              /\ count_if is_expander els = 1%nat.
Proof.
  intros Hst. unfold render_order, mbind, M_bind, mret, M_ret, open_expander, write, raise.
  rewrite (py_index_None _ _ Hst). cbn -[py_index].
  eexists. split; [by rewrite <- !app_assoc|reflexivity].
Qed.

Lemma for_each_app {A} (l1 l2 : list A) (body : A -> M unit) (p : page) :
  for_each (l1 ++ l2) body p
  = match for_each l1 body p with
    | (p', Ok _) => for_each l2 body p'
    | (p', Err e) => (p', Err e)
    end.
Proof.
  revert p. induction l1 as [|x l1 IH]; intros p; [done|]. cbn [app for_each].
  unfold mbind, M_bind. destruct (body x p) as [p1 [u|e]]; [apply IH|done].
Qed.

(** C32: the orders tab stops at the first listed order whose status
    the select box does not offer (a status [update_order_status]
    accepts, since it takes any string): the orders before it render
    their expanders, its own expander opens, and [list.index] raises
    [ValueError]; nothing after it is drawn. *)
Theorem off_menu_status_breaks_orders_tab (d : db) (status_filter : string)
    (pre : list Order) (o : Order) (post : list Order) :
  load_orders d status_filter = Ok (pre ++ o :: post) -> listable pre ->
  ~ In (status o) status_options ->
  exists p, orders_tab d status_filter empty_page = (p, Err (ValueErrorNotInList (status o)))
            /\ count_if is_expander (elements p) = S (List.length pre).
Proof.
  intros Hload Hl Hst.
  destruct (for_each_render_ok pre (mkPage [Text "Manajemen Pesanan"] []) Hl) as (p1 & Hp1 & Hc1).
  { apply List.Forall_forall. intros o' _. repeat constructor; cbn; tauto. }
  destruct (render_order_raises o p1 Hst) as (els & Hr & Hc).
  exists (mkPage (elements p1 ++ els) (keys p1)).
  unfold orders_tab, mbind, M_bind, write, lift. cbn -[for_each load_orders].
  rewrite Hload. cbn -[for_each]. rewrite for_each_app, Hp1. cbn [for_each].
  unfold mbind, M_bind at 1. rewrite Hr. split; [done|].
  unfold count_if in Hc1, Hc. cbn in Hc1. rewrite List.filter_app, length_app, Hc1, Hc. lia.
Qed.

Definition ex_completed : list Order :=
  [ex_order "Budi" "628111" "nasi goreng" 55000 "completed" 10;
   ex_order "Ani" "628222" "ayam bakar" 47000 "completed" 11;
   ex_order "Citra" "628333" "es teh" 65000 "completed" 12].

Lemma avg_order_value_bounds_witness :
  ex_completed <> [] /\ Forall (fun o => 47000 <= total o <= 65000) ex_completed
  /\ 47000 <= avg_order_value ex_completed <= 65000.
Proof.
  assert (H1 : ex_completed <> []) by discriminate.
  assert (H2 : Forall (fun o => 47000 <= total o <= 65000) ex_completed)
    by (repeat constructor; cbn; lia).
  exact (conj H1 (conj H2 (avg_order_value_bounds ex_completed 47000 65000 H1 H2))).
Defined.

Lemma orders_tab_renders_witness :
  app_reachable (init_sample_data (init_db empty_db))
  /\ exists p, orders_tab (init_sample_data (init_db empty_db)) "completed" empty_page = (p, Ok tt)
               /\ count_if is_expander (elements p) = 1%nat.
Proof.
  assert (Hr : app_reachable (init_sample_data (init_db empty_db)))
    by (eapply app_next; [apply app_new|apply app_sample]).
  split; [exact Hr|].
  destruct (load_orders (init_sample_data (init_db empty_db)) "completed") as [os|e] eqn:E;
    [|vm_compute in E; discriminate].
  assert (Hlen : List.length os = 1%nat) by (vm_compute in E; injection E as <-; reflexivity).
  rewrite <- Hlen. exact (orders_tab_renders _ _ os Hr E).
Defined.

Lemma app_statuses_ok_witness :
  app_reachable (init_sample_data (init_db empty_db))
  /\ statuses_ok (init_sample_data (init_db empty_db)).
Proof.
  assert (Hr : app_reachable (init_sample_data (init_db empty_db)))
    by (eapply app_next; [apply app_new|apply app_sample]).
  exact (conj Hr (app_statuses_ok _ Hr)).
Defined.

Lemma off_menu_status_breaks_orders_tab_witness :
  match update_order_status (init_sample_data (init_db empty_db)) 2 "done" with
  | Ok d' =>
      exists pre o post, load_orders d' "Semua" = Ok (pre ++ o :: post) /\ listable pre
        /\ ~ In (status o) status_options
        /\ exists p, orders_tab d' "Semua" empty_page = (p, Err (ValueErrorNotInList (status o)))
                     /\ count_if is_expander (elements p) = S (List.length pre)
  | Err _ => False
  end.
Proof.
  destruct (update_order_status (init_sample_data (init_db empty_db)) 2 "done") as [d'|e] eqn:Eu;
    vm_compute in Eu; [|discriminate]. injection Eu as Eu. subst d'.
  match goal with |- exists pre o post, load_orders ?D _ = _ /\ _ =>
    destruct (load_orders D "Semua") as [all|e] eqn:El end;
    pose proof El as El'; vm_compute in El'; [|discriminate]. injection El' as El'.
  assert (Hall : exists o1 o2 o3 o4, all = [o1; o2; o3; o4]
                   /\ status o2 = "done"%string /\ listable [o1]).
  { subst all. do 4 eexists. split; [reflexivity|]. split; [reflexivity|].
    split_and!; cbn; (constructor; [|constructor]).
    - repeat first [left; reflexivity | right].
    - eexists; split; [reflexivity|lia].
    - first [by apply not_elem_of_nil | cbn; tauto]. }
  destruct Hall as (o1 & o2 & o3 & o4 & -> & Hs & Hl).
  assert (Hst : ~ In (status o2) status_options) by (rewrite Hs; cbn; intuition discriminate).
  exists [o1], o2, [o3; o4].
  exact (conj eq_refl (conj Hl (conj Hst (off_menu_status_breaks_orders_tab _ "Semua" [o1] o2 [o3; o4] El Hl Hst)))).
Defined.

End Dashboard.
