(* ===== verification/App.v ===== *)
(** One run of the Streamlit script [src/app.py], from its first line to
    its footer, as Streamlit executes it on every interaction: the
    components it builds at the top ([DatabaseManager()], whose
    [_init_db] runs each time, [MessageProcessor()] and a fresh
    [WhatsAppIntegration()]), the sidebar with its credential form, and
    the four tabs, each of which runs in every run.  A run sees which
    button was pressed (the event that caused it), the texts typed and
    the options chosen; it draws the page, may write the store or the
    export file, and stops at the first exception or at [st.rerun()],
    after which Streamlit runs the script again without the click.  What
    persists from one run to the next is the database file and the
    export file: the gateway object is built anew by every run. *)

From stdpp Require Import base list strings.
From Stdlib Require Import String Ascii ZArith Lia Sorted Permutation.
From S2P Require Import Prelude PyStr PyDict MessageProcessor DateTime OrderStore Csv Reporting Gateway Dashboard.

Open Scope Z_scope.
Local Open Scope bot_scope.

Module App.

Import DateTime.DateTime OrderStore.OrderStore Csv.Csv Reporting.Reporting Dashboard.Dashboard.

(** ** What a run reads and writes *)

(** What persists across runs: the SQLite file and the CSV export. *)
Record world := mkWorld { store : db; export_file : option string }.

(** The state of a run: the page drawn so far, the files, and the run's
    own [WhatsAppIntegration] object. *)
Record run := mkRun { pg : page; files : world; gw : Gateway.state }.

(** What stops a run. *)
Inductive stop :=
  | Raised (e : app_error)                  (* an exception of the page or the store *)
  | TwilioRaised (e : Gateway.error)        (* raised by [Client(...)] in [set_credentials] *)
  | RerunRequested.                         (* [st.rerun()] *)

(** The widget states a run sees: the button whose press caused the run,
    the text of each text input, and the option chosen in a select box
    (by widget id), if the user changed it. *)
Record inputs := mkInputs {
  clicked : option string;
  text_of : string -> string;
  choice_of : string -> option nat
}.

Definition R (A : Type) : Type := run -> run * result stop A.

#[export] Instance R_ret : MRet R := fun A a r => (r, Ok a).
#[export] Instance R_bind : MBind R := fun A B k m r =>
  match m r with
  | (r', Ok a) => k a r'
  | (r', Err e) => (r', Err e)
  end.

(** A page fragment of [Dashboard], in a run. *)
Definition on_page {A} (m : M A) : R A :=
  fun r => let '(p', res) := m (pg r) in
           (mkRun p' (files r) (gw r), map_err Raised res).

(** A page fragment that reads the store. *)
Definition with_store {A} (m : db -> M A) : R A :=
  fun r => on_page (m (store (files r))) r.

Definition get_store : R db := fun r => (r, Ok (store (files r))).

(** A write of the store that can raise. *)
Definition update_store (f : db -> result store_error db) : R unit :=
  fun r => match f (store (files r)) with
           | Ok d' => (mkRun (pg r) (mkWorld d' (export_file (files r))) (gw r), Ok tt)
           | Err e => (r, Err (Raised (StoreError e)))
           end.

Definition set_export (text : string) : R unit :=
  fun r => (mkRun (pg r) (mkWorld (store (files r)) (Some text)) (gw r), Ok tt).

Definition rerun : R unit := fun r => (r, Err RerunRequested).

Definition alert (s : string) : M unit :=
  fun p => (mkPage (elements p ++ [Alert s]) (keys p), Ok tt).

Definition chart (title : string) (xs : list string) (ys : list Z) : M unit :=
  fun p => (mkPage (elements p ++ [Chart title xs ys]) (keys p), Ok tt).

Definition table (rows : list (list string)) : M unit :=
  fun p => (mkPage (elements p ++ [Table rows]) (keys p), Ok tt).

(** The id of a widget without a key: Streamlit computes it from the
    widget's kind and parameters; the labels separate the widgets of
    this script, so the model keeps the kind and the label. *)
Definition auto_id (kind label : string) : string := ("$$ID-" ++ kind ++ "-" ++ label)%string.

Section Widgets.
Context (inp : inputs).

(** [st.button(label, key=k)]: true in the run its press caused. *)
Definition button (k : string) : R bool :=
  _ ← on_page (widget k (Button k));
  mret (bool_decide (clicked inp = Some k)).

(** [st.text_input(label)]. *)
Definition text_input (label : string) : R string :=
  let v := text_of inp label in
  _ ← on_page (widget (auto_id "text_input" label) (TextInput label v));
  mret v.

(** The value of the select box [k]: the option the user chose, or the
    one at the index [i] the script gives. *)
Definition selected (k : string) (options : list string) (i : nat) : string :=
  match choice_of inp k with
  | Some j => if decide (j < List.length options)%nat then nth j options "" else nth i options ""
  | None => nth i options ""
  end.

(** [st.selectbox(label, options, index=i, key=k)]. *)
Definition selectbox (k : string) (options : list string) (i : nat) : R string :=
  _ ← on_page (widget k (Selectbox k i));
  mret (selected k options i).

End Widgets.

(** [for x in l: body(x)] in a run. *)
Fixpoint for_each_run {A} (l : list A) (body : A -> R unit) : R unit :=
  match l with
  | [] => mret tt
  | x :: l' => _ ← body x; for_each_run l' body
  end.

(** [if b: body]. *)
Definition when (b : bool) (body : R unit) : R unit := if b then body else mret tt.

Definition set_gateway (s : Gateway.state) : R unit := fun r => (mkRun (pg r) (files r) s, Ok tt).

(** ** The script *)

Definition save_id : string := auto_id "button" "Simpan Konfigurasi".
Definition filter_id : string := auto_id "selectbox" "Filter Status".
Definition status_id (order : Order) : string := ("status_" ++ str_id (id order))%string.
Definition update_id (order : Order) : string := ("update_" ++ str_id (id order))%string.

(** [sample_messages] of [tab3]: sender, body, timestamp. *)
Definition sample_messages : list (string * string * string) := [
  ("+628123456789", "Halo, saya ingin memesan nasi goreng", "2023-10-15 10:30:15");
  ("+628987654321", "Apakah masih buka? Saya mau pesan ayam bakar", "2023-10-15 10:25:42");
  ("+628112233445", "Pesanan saya kapan sampai?", "2023-10-15 09:45:18")]%string.

Definition process_id (msg : string * string * string) : string :=
  let '(from, _, _) := msg in ("process_" ++ from)%string.

Definition export_ids : list string :=
  map (auto_id "button") ["📊 Ekspor Laporan Bulanan"; "👥 Ekspor Data Pelanggan"; "📈 Ekspor Analytics"]%string.

Section Script.
Context (now : datetime) (env_account_sid env_auth_token : string) (inp : inputs).

(** Lines 24-33: the components, the title. *)
Definition header : R unit :=
  _ ← update_store (fun d => Ok (init_db d));          (* db_manager = DatabaseManager() *)
  _ ← set_gateway Gateway.init;                         (* whatsapp = WhatsAppIntegration() *)
  _ ← on_page (write "🤖 Agentic AI Chatbot untuk Otomatisasi Pesanan WhatsApp");
  on_page (write "Bot ini akan membantu mengotomatiskan proses pemesanan melalui WhatsApp tanpa perlu menjawab manual.").

(** [whatsapp.set_credentials(account_sid, auth_token, whatsapp_number)]. *)
Definition save_credentials (sid token number : string) : R unit :=
  fun r => let '(s', res) := Gateway.set_credentials env_account_sid env_auth_token (gw r) sid token number None in
           (mkRun (pg r) (files r) s', map_err TwilioRaised res).

(** Lines 36-59: the sidebar. *)
Definition sidebar : R unit :=
  _ ← on_page (write "Konfigurasi");
  _ ← on_page (write "Konfigurasi WhatsApp API");
  account_sid ← text_input inp "Account SID";
  auth_token ← text_input inp "Auth Token";
  whatsapp_number ← text_input inp "Nomor WhatsApp Bot";
  save ← button inp save_id;
  _ ← when save (_ ← save_credentials account_sid auth_token whatsapp_number;
                 on_page (alert "Konfigurasi disimpan!"));
  _ ← on_page (write "Status Bot");
  _ ← on_page (alert "Bot aktif dan siap menerima pesanan");
  with_store (sidebar_stats now).

(** Lines 64-97: [tab1]. *)
Definition tab1 : R unit :=
  _ ← on_page (write "Dashboard Pesanan");
  _ ← with_store (dashboard_metrics now);
  _ ← on_page (write "Grafik Pesanan 7 Hari Terakhir");
  weekly_orders ← with_store (fun d => lift (get_weekly_orders now d));
  match weekly_orders with
  | [] => on_page (alert "Belum ada pesanan dalam 7 hari terakhir")
  | _ => let oc := order_counts weekly_orders in on_page (chart "" (dict_keys oc) (dict_values oc))
  end.

(** Lines 111-138: one order of [tab2], with the effect of its button:
    the status chosen in its select box is written, then the script
    reruns. *)
Definition order_expander (order : Order) : R unit :=
  _ ← on_page (render_order order);
  when (bool_decide (clicked inp = Some (update_id order))) (
    let new_status := selected inp (status_id order) status_options
                        (default 0%nat (py_index (status order) status_options)) in
    _ ← update_store (fun d => match id order with
                               | Some i => update_order_status d i new_status
                               | None => Ok d
                               end);
    _ ← on_page (alert "Status diperbarui!");
    rerun).

(** Lines 99-138: [tab2]. *)
Definition tab2 : R unit :=
  _ ← on_page (write "Manajemen Pesanan");
  status_filter ← selectbox inp filter_id ("Semua" :: status_options) 0;
  orders ← with_store (fun d => lift (load_orders d status_filter));
  for_each_run orders order_expander.

(** Lines 153-161: one sample message and its "Proses Pesan" button. *)
Definition chat_message (msg : string * string * string) : R unit :=
  let '(from, body, timestamp) := msg in
  _ ← on_page (write ("**" ++ from ++ "** (" ++ timestamp ++ ")"));
  _ ← on_page (write body);
  pressed ← button inp (process_id msg);
  when pressed
    (on_page (alert ("Respon: " ++ MessageProcessor.process_message MessageProcessor.init body from))).

(** Lines 140-161: [tab3]. *)
Definition tab3 : R unit :=
  _ ← on_page (write "Pesan Masuk Terbaru");
  _ ← on_page (alert "Fitur ini memerlukan integrasi dengan API WhatsApp seperti Twilio");
  for_each_run sample_messages chat_message.

(** [db_manager.export_orders_to_csv()]: the file is rewritten. *)
Definition export_csv : R unit :=
  text ← with_store (fun d => lift (export_orders_to_csv d));
  set_export text.

(** Lines 206-243: the revenue chart of the completed orders. *)
Definition revenue_section (completed : list Order) : R unit :=
  _ ← on_page (write "💰 Trend Pendapatan");
  let daily := daily_revenue completed in
  match daily with
  | [] => on_page (alert "Belum ada data pendapatan untuk ditampilkan")
  | _ => on_page (chart "Trend Pendapatan Harian" (dict_keys daily) (dict_values daily))
  end.

(** Lines 245-283: the pie and the bar chart of the status counts. *)
Definition status_section : R unit :=
  _ ← on_page (write "📋 Distribusi Status Pesanan");
  status_counts ← with_store (fun d => lift (get_orders_by_status_count d));
  let status_df := status_table status_counts in
  _ ← on_page (match status_counts with
               | [] => alert "Belum ada data status pesanan"
               | _ => chart "Distribusi Status Pesanan" (map fst status_df) (map snd status_df)
               end);
  on_page (match status_counts with
           | [] => alert "Belum ada data status pesanan"
           | _ => chart "Jumlah Pesanan per Status" (map fst status_df) (map snd status_df)
           end).

(** Lines 285-343: the top customers and the popular menu. *)
Definition top_section (all_orders : list Order) : R unit :=
  _ ← on_page (write "🏆 Top Performers");
  _ ← on_page (write "**👥 Pelanggan Teratas**");
  top_5 ← with_store (fun d => lift (top_5_customers d));
  _ ← on_page (match top_5 with
               | [] => alert "Belum ada data pelanggan"
               | _ => chart "Top 5 Pelanggan by Spending" (map Nama top_5) (map Total_Pembelian top_5)
               end);
  _ ← on_page (write "**🍽️ Menu Populer**");
  on_page (match all_orders with
           | [] => alert "Belum ada data pesanan untuk analisis menu"
           | _ => match menu_items_of all_orders with
                  | [] => alert "Belum ada data menu"
                  | _ => let menu_df := top_menu all_orders in
                         chart "Top 5 Menu Paling Populer" (map fst menu_df) (map snd menu_df)
                  end
           end).

(** Lines 345-370: orders per hour. *)
Definition timeline_section (all_orders : list Order) : R unit :=
  _ ← on_page (write "⏰ Analisis Waktu Pesanan");
  on_page (match all_orders with
           | [] => alert "Belum ada data untuk analisis waktu"
           | _ => let hc := hour_counts all_orders in
                  chart "Distribusi Pesanan per Jam" (map (fun kv => str_int (fst kv)) hc) (map snd hc)
           end).

(** A row of a data frame shown with [st.dataframe], its numbers as
    decimal text. *)
Definition top_row_cells (t : top_row) : list string :=
  [WhatsApp t; Nama t; str_int (Jumlah_Pesanan t); str_int (Total_Pembelian t)].

Definition raw_cells (order : Order) : list string :=
  let '(i, name, wa, its, tot, st, tanggal) := raw_row order in [i; name; wa; its; str_int tot; st; tanggal].

(** Lines 372-409: the three detail tables. *)
Definition detail_section (all_orders : list Order) : R unit :=
  _ ← on_page (write "📋 Data Detail");
  status_counts ← with_store (fun d => lift (get_orders_by_status_count d));
  _ ← on_page (match status_counts with
               | [] => alert "Belum ada data pesanan"
               | _ => table (map (fun kv => [fst kv; str_int (snd kv)]) status_counts)
               end);
  top_customers ← with_store (fun d => lift (get_top_customers d));
  _ ← on_page (match top_customers with
               | [] => alert "Belum ada data pelanggan"
               | _ => table (map top_row_cells top_customers)
               end);
  on_page (match all_orders with
           | [] => alert "Belum ada data pesanan"
           | _ => table (map raw_cells all_orders)
           end).

(** Lines 411-427: the export buttons. *)
Definition export_section : R unit :=
  _ ← on_page (write "💾 Opsi Ekspor Data");
  monthly ← button inp (nth 0 export_ids "");
  _ ← when monthly (_ ← export_csv; on_page (alert "Laporan bulanan berhasil diekspor!"));
  customers ← button inp (nth 1 export_ids "");
  _ ← when customers (on_page (alert "Fitur ekspor data pelanggan akan segera tersedia"));
  analytics ← button inp (nth 2 export_ids "");
  when analytics (on_page (alert "Fitur ekspor analytics akan segera tersedia")).

(** Lines 163-427: [tab4]. *)
Definition tab4 : R unit :=
  _ ← on_page (write "📊 Analytics & Laporan");
  init ← button inp "init_sample_data";
  _ ← when init (_ ← update_store (fun d => Ok (init_sample_data d));
                 _ ← on_page (alert "Data contoh berhasil diinisialisasi!");
                 rerun);
  export ← button inp "export_data";
  _ ← when export (_ ← export_csv; on_page (alert "Data berhasil diekspor!"));
  '(all_orders, completed) ← with_store (summary_cards now);
  _ ← revenue_section completed;
  _ ← status_section;
  _ ← top_section all_orders;
  _ ← timeline_section all_orders;
  _ ← detail_section all_orders;
  export_section.

(** Lines 35-431: what the script draws after its components. *)
Definition page_body : R unit :=
  _ ← sidebar;
  _ ← tab1;
  _ ← tab2;
  _ ← tab3;
  _ ← tab4;
  _ ← on_page (write "---");
  on_page (write "**Agentic AI Chatbot** © 2023 - Otomatiskan pesanan WhatsApp tanpa repot").

(** The whole script, lines 1-431. *)
Definition script : R unit :=
  _ ← header;
  page_body.

End Script.

(** A run from the files on disk, with an empty page. *)
Definition start (w : world) : run := mkRun empty_page w Gateway.init.

Definition app_run (now : datetime) (env_sid env_token : string) (inp : inputs) (w : world)
    : run * result stop unit :=
  script now env_sid env_token inp (start w).

(** An interaction: the run the event causes and, when it calls
    [st.rerun()], the run Streamlit starts at once, which sees no click. *)
Definition no_click (inp : inputs) : inputs := mkInputs None (text_of inp) (choice_of inp).

Definition interact (now : datetime) (env_sid env_token : string) (inp : inputs) (w : world)
    : run * result stop unit :=
  match app_run now env_sid env_token inp w with
  | (r, Err RerunRequested) => app_run now env_sid env_token (no_click inp) (files r)
  | outcome => outcome
  end.

(** ** The store's reads succeed in the states the app reaches *)

(** The table exists and every stored [created_at] parses. *)
Definition parsable (d : db) : Prop :=
  match orders d with
  | Some rows => Forall (fun r => exists c, strptime (r_created r) = Ok c) rows
  | None => False
  end.

Lemma parsable_step (d d' : db) : parsable d -> app_step d d' -> parsable d'.
Proof.
  unfold parsable. intros Hp Hs. destruct Hs as [d|d|d i st d' _ Hup].
  - unfold init_db. destruct (orders d) eqn:E; cbn; [by rewrite E|done].
  - assert (Hb : match orders (init_sample_data d) with
                 | Some rows => forallb (fun r => if strptime (r_created r) is Ok _ then true else false) rows
                 | None => false
                 end = true) by (vm_compute; reflexivity).
    destruct (orders (init_sample_data d)) as [rows|]; [|done].
    apply List.Forall_forall. intros r Hin. rewrite List.forallb_forall in Hb.
    specialize (Hb r Hin). destruct (strptime (r_created r)); [eauto|done].
  - unfold update_order_status in Hup. destruct (orders d) as [rows|]; [|done].
    injection Hup as <-. cbn. apply Forall_map. eapply Forall_impl; [exact Hp|].
    intros r Hr. by destruct (Z.eqb (rid r) i).
Qed.

Lemma app_reachable_parsable (d : db) : app_reachable d -> parsable d.
Proof. induction 1; [cbn; constructor|]. eauto using parsable_step. Qed.

Lemma rows_to_orders_ok (rows : list row) :
  Forall (fun r => exists c, strptime (r_created r) = Ok c) rows -> exists os, rows_to_orders rows = Ok os.
Proof.
  induction 1 as [|r rows [c Hc] _ [os IH]]; [by eexists|].
  cbn. unfold row_to_order, map_err. rewrite Hc, IH. by eexists.
Qed.

Lemma get_all_orders_ok (d : db) : app_reachable d -> exists all, get_all_orders d = Ok all.
Proof.
  intros Hr. pose proof (app_reachable_parsable d Hr) as Hp. unfold parsable, get_all_orders in *.
  destruct (orders d) as [rows|]; [|done]. apply rows_to_orders_ok.
  eapply Permutation_Forall; [symmetry; apply sort_desc_perm|exact Hp].
Qed.

Lemma sub_days_ok (now : datetime) (n : Z) :
  0 <= n -> n < toordinal now <= MAXORDINAL -> exists since, sub_days now n = Ok since.
Proof.
  intros Hn Hnow. unfold sub_days.
  rewrite (proj2 (Z.ltb_lt _ _)), (proj2 (Z.leb_le _ _)) by lia. cbn.
  destruct (ord2ymd _) as [[y m] dd]. by eexists.
Qed.

(** ** A Hoare logic for runs *)

(** A page fragment that adds no widget and returns [a]. *)
Definition quiet {A} (m : M A) (a : A) : Prop :=
  forall p, exists els, m p = (mkPage (elements p ++ els) (keys p), Ok a).

Lemma quiet_ret {A} (a : A) : quiet (mret a) a.
Proof. intros [els ks]. exists []. by rewrite app_nil_r. Qed.

Lemma quiet_bind {A B} (m : M A) (a : A) (k : A -> M B) (b : B) :
  quiet m a -> quiet (k a) b -> quiet (x ← m; k x) b.
Proof.
  intros Hm Hk p. destruct (Hm p) as [els1 E1]. unfold mbind, M_bind. rewrite E1.
  destruct (Hk (mkPage (elements p ++ els1) (keys p))) as [els2 E2]. rewrite E2.
  exists (els1 ++ els2). by rewrite app_assoc.
Qed.

Lemma quiet_lift {A} (a : A) : quiet (lift (Ok a)) a.
Proof. apply quiet_ret. Qed.

Lemma quiet_write s : quiet (write s) tt.
Proof. intros p. by eexists. Qed.

Lemma quiet_metric l v : quiet (metric l v) tt.
Proof. intros p. by eexists. Qed.

Lemma quiet_alert s : quiet (alert s) tt.
Proof. intros p. by eexists. Qed.

Lemma quiet_chart t xs ys : quiet (chart t xs ys) tt.
Proof. intros p. by eexists. Qed.

Lemma quiet_table rows : quiet (table rows) tt.
Proof. intros p. by eexists. Qed.

#[export] Hint Resolve quiet_ret quiet_lift quiet_write quiet_metric quiet_alert quiet_chart quiet_table : bot.

(** Proves [quiet] of a chain of page writes whose reads are known. *)
Ltac quiet_chain :=
  first [ solve [eauto with bot]
        | eapply quiet_bind; [solve [eauto with bot]|]; cbv beta; quiet_chain ].

Section Hoare.
Context (inp : inputs).

(** A run may stop only by [st.rerun()], after a click, with a store the
    app can reach. *)
Definition stops_well (e : stop) (r : run) : Prop :=
  e = RerunRequested /\ clicked inp <> None /\ app_reachable (store (files r)).

Definition hoare {A} (P : run -> Prop) (m : R A) (Q : A -> run -> Prop) : Prop :=
  forall r, P r -> exists r' res, m r = (r', res) /\
    match res with Ok a => Q a r' | Err e => stops_well e r' end.

Lemma hoare_bind {A B} (P : run -> Prop) (m : R A) (Q : A -> run -> Prop) (k : A -> R B)
    (S : B -> run -> Prop) :
  hoare P m Q -> (forall a, hoare (Q a) (k a) S) -> hoare P (x ← m; k x) S.
Proof.
  intros Hm Hk r Hr. destruct (Hm r Hr) as (r1 & res1 & E1 & H1).
  unfold mbind, R_bind. rewrite E1. destruct res1 as [a|e]; [exact (Hk a r1 H1)|].
  by exists r1, (Err e).
Qed.

Lemma hoare_conseq {A} (P P' : run -> Prop) (m : R A) (Q Q' : A -> run -> Prop) :
  hoare P m Q -> (forall r, P' r -> P r) -> (forall a r, Q a r -> Q' a r) -> hoare P' m Q'.
Proof.
  intros H HP HQ r Hr. destruct (H r (HP r Hr)) as (r' & res & E & Hres).
  exists r', res. split; [done|]. destruct res; [by apply HQ|done].
Qed.

(** Sequencing when the first part's value is known. *)
Lemma hoare_seq {A B} (P : run -> Prop) (m : R A) (a : A) (P' : run -> Prop) (k : A -> R B)
    (S : B -> run -> Prop) :
  hoare P m (fun x r => x = a /\ P' r) -> hoare P' (k a) S -> hoare P (x ← m; k x) S.
Proof. intros Hm Hk. eapply hoare_bind; [exact Hm|]. intros x r [-> Hr]. by apply Hk. Qed.

Lemma hoare_pre_ex {A B} (P : B -> run -> Prop) (m : R A) (Q : A -> run -> Prop) :
  (forall b, hoare (P b) m Q) -> hoare (fun r => exists b, P b r) m Q.
Proof. intros H r [b Hb]. exact (H b r Hb). Qed.

Lemma hoare_pre_pure {A} (P : run -> Prop) (F : Prop) (m : R A) (Q : A -> run -> Prop) :
  (F -> hoare P m Q) -> hoare (fun r => P r /\ F) m Q.
Proof. intros H r [Hr HF]. exact (H HF r Hr). Qed.

Lemma hoare_ret {A} (P : run -> Prop) (a : A) : hoare P (mret a) (fun x r => x = a /\ P r).
Proof. intros r Hr. by exists r, (Ok a). Qed.

(** The store is [d] and the widget keys so far are [L]. *)
Definition at_keys (d : db) (L : list string) (r : run) : Prop := store (files r) = d /\ keys (pg r) = L.

Lemma hoare_quiet {A} (P : run -> Prop) (m : M A) (a : A) :
  quiet m a -> (forall p els w g, P (mkRun p w g) -> keys p = keys (mkPage (elements p ++ els) (keys p)) ->
                                 P (mkRun (mkPage (elements p ++ els) (keys p)) w g)) ->
  hoare P (on_page m) (fun x r => x = a /\ P r).
Proof.
  intros Hq HP [p w g] Hr. destruct (Hq p) as [els E]. unfold on_page. cbn [pg files gw]. rewrite E.
  eexists _, _. split; [reflexivity|]. split; [done|]. by apply HP.
Qed.

Lemma hoare_page {A} (d : db) (L : list string) (m : M A) (a : A) :
  quiet m a -> hoare (at_keys d L) (on_page m) (fun x r => x = a /\ at_keys d L r).
Proof. intros Hq. apply hoare_quiet; [done|]. by intros p els w g [? ?]. Qed.

Lemma hoare_with_store {A} (d : db) (L : list string) (m : db -> M A) (a : A) :
  quiet (m d) a -> hoare (at_keys d L) (with_store m) (fun x r => x = a /\ at_keys d L r).
Proof.
  intros Hq r Hr. unfold with_store. destruct Hr as [Hd HL]. rewrite Hd.
  apply (hoare_page d L); [done|]. by split.
Qed.

(** A page write after the store was written: the store stays reachable. *)
Lemma hoare_page_reachable {A} (m : M A) (a : A) :
  quiet m a ->
  hoare (fun r => app_reachable (store (files r))) (on_page m)
        (fun x r => x = a /\ app_reachable (store (files r))).
Proof. intros Hq. by apply hoare_quiet. Qed.

Lemma hoare_widget (d : db) (L : list string) (k : string) (el : element) :
  ~ In k L -> hoare (at_keys d L) (on_page (widget k el)) (fun x r => x = tt /\ at_keys d (L ++ [k]) r).
Proof.
  intros Hk [p w g] [Hd HL]. cbn in Hd, HL. unfold on_page, widget. cbn [pg files gw].
  rewrite HL, existsb_eqb_false by done. eexists _, _. split; [reflexivity|]. by split.
Qed.

Lemma hoare_button (d : db) (L : list string) (k : string) :
  ~ In k L ->
  hoare (at_keys d L) (button inp k) (fun b r => b = bool_decide (clicked inp = Some k) /\ at_keys d (L ++ [k]) r).
Proof. intros Hk. eapply hoare_seq; [by apply hoare_widget|]. apply hoare_ret. Qed.

Lemma hoare_text_input (d : db) (L : list string) (label : string) :
  ~ In (auto_id "text_input" label) L ->
  hoare (at_keys d L) (text_input inp label)
        (fun v r => v = text_of inp label /\ at_keys d (L ++ [auto_id "text_input" label]) r).
Proof. intros Hk. unfold text_input. eapply hoare_seq; [by apply hoare_widget|]. apply hoare_ret. Qed.

Lemma hoare_selectbox (d : db) (L : list string) (k : string) (options : list string) (i : nat) :
  ~ In k L ->
  hoare (at_keys d L) (selectbox inp k options i)
        (fun v r => v = selected inp k options i /\ at_keys d (L ++ [k]) r).
Proof. intros Hk. eapply hoare_seq; [by apply hoare_widget|]. apply hoare_ret. Qed.

Lemma hoare_when (P : run -> Prop) (b : bool) (body : R unit) :
  (b = true -> hoare P body (fun x r => x = tt /\ P r)) -> hoare P (when b body) (fun x r => x = tt /\ P r).
Proof. destruct b; [auto|]. intros _. apply hoare_ret. Qed.

(** A write of the store that leads to a reachable state, a page write,
    and [st.rerun()]: the run stops well. *)
Lemma hoare_write_rerun (P : run -> Prop) (f : db -> result store_error db) (msg : string)
    (Q : unit -> run -> Prop) :
  clicked inp <> None ->
  (forall r, P r -> exists d', f (store (files r)) = Ok d' /\ app_reachable d') ->
  hoare P (_ ← update_store f; _ ← on_page (alert msg); rerun) Q.
Proof.
  intros Hc Hf r Hr. destruct (Hf r Hr) as (d' & Ef & Hd').
  unfold mbind, R_bind, update_store at 1. rewrite Ef. cbn -[on_page].
  unfold on_page, alert. cbn. eexists _, _. split; [reflexivity|]. by split_and!.
Qed.

End Hoare.

(** ** Every run completes *)

(** The keys of the widgets of an order's expander. *)
Definition is_order_key (k : string) : bool := prefix "status_" k || prefix "update_" k.

Lemma fresh_app (L K : list string) (k : string) : ~ In k L -> ~ In k K -> ~ In k (L ++ K).
Proof. rewrite in_app_iff. tauto. Qed.

(** A widget key of a section is not among the keys drawn before it:
    those are [L], given fresh for the section's keys, and the section's
    own earlier keys, which differ from it. *)
Ltac key_fresh :=
  rewrite <- ?app_assoc; cbn [app];
  match goal with
  | HK : Forall (fun k => ~ In k ?L) _ |- ~ In _ (?L ++ _) =>
      apply fresh_app;
      [ apply (proj1 (List.Forall_forall _ _) HK); cbn; tauto
      | let Hk := fresh in
        intros Hk; cbn in Hk; repeat destruct Hk as [Hk|Hk]; try contradiction;
        vm_compute in Hk; discriminate Hk ]
  | HK : Forall (fun k => ~ In k ?L) _ |- ~ In _ ?L =>
      apply (proj1 (List.Forall_forall _ _) HK); cbn; tauto
  end.

(** One step of a section: a page write, a read of the store, or a
    widget whose key is fresh. *)
Ltac hstep :=
  rewrite <- ?app_assoc; cbn [app];
  first
  [ eapply hoare_seq; [apply hoare_page; quiet_chain|]
  | eapply hoare_seq; [apply hoare_with_store; quiet_chain|]
  | eapply hoare_seq; [apply hoare_text_input; key_fresh|]
  | eapply hoare_seq; [apply hoare_button; key_fresh|]
  | eapply hoare_seq; [apply hoare_selectbox; key_fresh|] ];
  cbv beta.

Definition sidebar_keys : list string :=
  map (auto_id "text_input") ["Account SID"; "Auth Token"; "Nomor WhatsApp Bot"]%string ++ [save_id].

(** "Simpan Konfigurasi" is pressed only with credentials [Client] accepts
    (a typed value, or the environment's when the field is empty). *)
Definition creds_ok (env_sid env_token : string) (inp : inputs) : Prop :=
  clicked inp = Some save_id ->
  (if String.eqb (text_of inp "Account SID") "" then env_sid else text_of inp "Account SID") <> EmptyString
  /\ (if String.eqb (text_of inp "Auth Token") "" then env_token else text_of inp "Auth Token") <> EmptyString.

(** The components and the title: the store is opened, which keeps a
    reachable state. *)
Lemma header_start (w : world) :
  header (start w) = (mkRun (mkPage [Text "🤖 Agentic AI Chatbot untuk Otomatisasi Pesanan WhatsApp";
                                     Text "Bot ini akan membantu mengotomatiskan proses pemesanan melalui WhatsApp tanpa perlu menjawab manual."] [])
                            (mkWorld (init_db (store w)) (export_file w)) Gateway.init, Ok tt).
Proof. reflexivity. Qed.

Section Completion.
Context (now : datetime) (env_sid env_token : string) (inp : inputs) (d : db).
Hypothesis Hd : app_reachable d.
Hypothesis Hnow : 30 < toordinal now <= MAXORDINAL.

(** The orders of [d] and the start of the 7- and 30-day windows. *)
Definition all_of : list Order := match get_all_orders d with Ok a => a | Err _ => [] end.
Definition since_of (n : Z) : datetime := match sub_days now n with Ok s => s | Err _ => now end.

Lemma get_all_orders_eq : get_all_orders d = Ok all_of.
Proof. unfold all_of. by destruct (get_all_orders_ok d Hd) as [all ->]. Qed.

Lemma sub_days_eq (n : Z) : 0 <= n <= 30 -> sub_days now n = Ok (since_of n).
Proof. intros Hn. unfold since_of. destruct (sub_days_ok now n) as [s ->]; [lia..|done]. Qed.

(** Rewrites every read of the store to its value. *)
Ltac reads :=
  unfold load_orders, top_5_customers, export_orders_to_csv, get_weekly_orders,
    get_monthly_orders, get_orders_by_status_count, get_top_customers, get_today_orders,
    get_pending_orders, get_orders_by_status, get_orders_since, filter_orders;
  rewrite ?get_all_orders_eq, ?(sub_days_eq 7), ?(sub_days_eq 30) by lia; cbn [rbind map_err].

Lemma sidebar_stats_quiet : quiet (sidebar_stats now d) tt.
Proof. unfold sidebar_stats. reads. quiet_chain. Qed.

Lemma dashboard_metrics_quiet : quiet (dashboard_metrics now d) tt.
Proof. unfold dashboard_metrics. reads. quiet_chain. Qed.

Definition completed_of : list Order :=
  completed_orders (List.filter (fun o => geb (created_at o) (since_of 30)) all_of).

Lemma summary_cards_quiet : quiet (summary_cards now d) (all_of, completed_of).
Proof. unfold summary_cards. reads. quiet_chain. Qed.

#[local] Hint Resolve sidebar_stats_quiet dashboard_metrics_quiet summary_cards_quiet : bot.

Lemma hoare_save (L : list string) (sid token number : string) :
  (if String.eqb sid "" then env_sid else sid) <> EmptyString ->
  (if String.eqb token "" then env_token else token) <> EmptyString ->
  hoare inp (at_keys d L) (save_credentials env_sid env_token sid token number)
        (fun x r => x = tt /\ at_keys d L r).
Proof.
  intros Hu Hp r Hr. unfold save_credentials, Gateway.set_credentials. cbv zeta.
  rewrite (proj2 (String.eqb_neq _ _) Hu), (proj2 (String.eqb_neq _ _) Hp). cbn.
  eexists _, _. split; [reflexivity|]. by split.
Qed.

Lemma sidebar_ok (L : list string) :
  Forall (fun k => ~ In k L) sidebar_keys -> creds_ok env_sid env_token inp ->
  hoare inp (at_keys d L) (sidebar now env_sid env_token inp)
        (fun x r => x = tt /\ at_keys d (L ++ sidebar_keys) r).
Proof.
  intros HK Hcr. unfold sidebar. do 6 hstep.
  eapply hoare_seq.
  { apply hoare_when. intros Hb%bool_decide_eq_true. destruct (Hcr Hb) as [Hu Hp].
    eapply hoare_seq; [by apply hoare_save|]. apply hoare_page, quiet_alert. }
  do 2 hstep.
  eapply hoare_conseq; [apply hoare_with_store, sidebar_stats_quiet|done|].
  intros x r [-> H]. split; [done|exact H].
Qed.

Lemma tab1_ok (L : list string) :
  hoare inp (at_keys d L) (tab1 now) (fun x r => x = tt /\ at_keys d L r).
Proof.
  unfold tab1. do 3 hstep.
  eapply hoare_seq; [apply hoare_with_store; reads; apply quiet_lift|]. cbv beta.
  case_match; apply hoare_page; quiet_chain.
Qed.

(** The orders the filter of [tab2] lists. *)
Definition listed (status_filter : string) : list Order :=
  if String.eqb status_filter "Semua" then all_of
  else List.filter (fun o => String.eqb (status o) status_filter) all_of.

Lemma load_orders_eq (status_filter : string) : load_orders d status_filter = Ok (listed status_filter).
Proof. unfold listed. reads. by destruct (String.eqb status_filter "Semua"). Qed.

Lemma listed_listable (status_filter : string) : listable (listed status_filter).
Proof.
  destruct (app_reachable_inv d Hd) as [Hwf Hok].
  exact (load_orders_listable d status_filter _ Hwf Hok (load_orders_eq status_filter)).
Qed.

Lemma hoare_render (L : list string) (o : Order) :
  In (status o) status_options -> Forall (fun k => ~ In k L) (order_keys o) ->
  hoare inp (at_keys d L) (on_page (render_order o)) (fun x r => x = tt /\ at_keys d (L ++ order_keys o) r).
Proof.
  intros Hs Hk [p w g] [Hd' HL]. cbn in Hd', HL. subst L.
  destruct (render_order_ok o p Hs Hk) as (els & E & _).
  unfold on_page. cbn [pg files gw]. rewrite E. eexists _, _. split; [reflexivity|]. by split.
Qed.

Lemma py_index_nth (x : string) (l : list string) (i : nat) : py_index x l = Some i -> nth i l "" = x.
Proof.
  revert i. induction l as [|y l IH]; intros i; cbn; [done|].
  destruct (String.eqb_spec x y) as [->|_]; [by intros [= <-]|].
  destruct (py_index x l) as [j|]; cbn; [|done]. intros [= <-]. by apply IH.
Qed.

(** The status the select box of an order gives is one of its options. *)
Lemma selected_status_In (k s : string) :
  In s status_options ->
  In (selected inp k status_options (default 0%nat (py_index s status_options))) status_options.
Proof.
  intros Hs. destruct (py_index_In s status_options Hs) as [i Hi].
  unfold selected. rewrite Hi. cbn [default Datatypes.id]. rewrite (py_index_nth s status_options i Hi).
  destruct (choice_of inp k) as [j|]; [|done]. case_decide; [by apply nth_In|done].
Qed.

Lemma order_expander_ok (L : list string) (o : Order) (i : Z) :
  In (status o) status_options -> id o = Some i -> Forall (fun k => ~ In k L) (order_keys o) ->
  hoare inp (at_keys d L) (order_expander inp o) (fun x r => x = tt /\ at_keys d (L ++ order_keys o) r).
Proof.
  intros Hs Hi Hk. unfold order_expander.
  eapply hoare_seq; [by apply hoare_render|].
  apply hoare_when. intros Hc%bool_decide_eq_true. cbv zeta.
  apply hoare_write_rerun; [by rewrite Hc|]. intros r [-> _]. rewrite Hi.
  pose proof (app_reachable_parsable d Hd) as Hp. unfold parsable in Hp.
  unfold update_order_status. destruct (orders d) eqn:Eo; [|done].
  eexists. split; [reflexivity|]. eapply app_next; [exact Hd|].
  eapply app_update; [by apply selected_status_In|]. unfold update_order_status. by rewrite Eo.
Qed.

Lemma for_each_expander_ok (L : list string) (os : list Order) :
  listable os -> Forall (fun o => Forall (fun k => ~ In k L) (order_keys o)) os ->
  hoare inp (at_keys d L) (for_each_run os (order_expander inp))
        (fun x r => x = tt /\ at_keys d (L ++ List.concat (map order_keys os)) r).
Proof.
  revert L. induction os as [|o os IH]; intros L Hl Hk.
  { cbn. rewrite app_nil_r. apply hoare_ret. }
  destruct Hl as (Hs & Hi & Hnd). cbn [map] in Hs, Hi, Hnd.
  apply Forall_cons in Hs as [Hs1 Hs], Hi as [(a & Ha & Ha0) Hi].
  apply NoDup_cons in Hnd as [Hn Hnd]. apply Forall_cons in Hk as [Hk1 Hk].
  cbn [for_each_run]. eapply hoare_seq; [by apply (order_expander_ok L o a)|].
  eapply hoare_conseq; [apply IH| |]; [by split_and!| |done|].
  - apply List.Forall_forall. intros o' Ho'.
    rewrite List.Forall_forall in Hk. specialize (Hk o' Ho').
    rewrite List.Forall_forall in Hi. destruct (Hi (id o') (in_map _ _ _ Ho')) as (b & Hb & Hb0).
    assert (Hab : a <> b).
    { intros <-. apply Hn. rewrite list_elem_of_In, Ha, <- Hb. by apply in_map. }
    pose proof (order_keys_disjoint o o' a b Ha Hb Ha0 Hb0 Hab) as Hd'.
    rewrite List.Forall_forall in Hk, Hd' |- *. intros k Hkin. rewrite in_app_iff.
    intros [|]; [by apply (Hk k)|by apply (Hd' k)].
  - intros x r [-> H]. split; [done|]. cbn [map List.concat]. by rewrite app_assoc.
Qed.

Lemma order_keys_order_key (o : Order) : Forall (fun k => is_order_key k = true) (order_keys o).
Proof.
  unfold order_keys, is_order_key. repeat constructor; rewrite prefix_app; [done|apply orb_true_r].
Qed.

Lemma tab2_ok (L : list string) :
  ~ In filter_id L -> Forall (fun k => is_order_key k = false) L ->
  hoare inp (at_keys d L) (tab2 inp)
        (fun x r => x = tt /\ exists K, at_keys d (L ++ filter_id :: K) r
                                        /\ Forall (fun k => is_order_key k = true) K).
Proof.
  intros Hf HL. unfold tab2. hstep.
  eapply hoare_seq; [by apply hoare_selectbox|]. cbv beta.
  eapply hoare_seq; [apply hoare_with_store; rewrite load_orders_eq; apply quiet_lift|]. cbv beta.
  eapply hoare_conseq; [apply for_each_expander_ok; [apply listed_listable|]|done|].
  - apply List.Forall_forall. intros o _. eapply Forall_impl; [apply order_keys_order_key|].
    intros k Hk Hin. cbv beta in Hk. rewrite List.Forall_forall in HL. rewrite in_app_iff in Hin.
    destruct Hin as [Hin|[<-|[]]]; [by rewrite (HL k Hin) in Hk|by vm_compute in Hk].
  - intros x r [-> H]. split; [done|]. eexists. rewrite <- app_assoc in H. split; [exact H|].
    apply Forall_concat, List.Forall_map, List.Forall_forall. intros o _. apply order_keys_order_key.
Qed.

Lemma for_each_run_ok {A} (body : A -> R unit) (key : A -> string) (L : list string) (l : list A) :
  (forall L' x, In x l -> ~ In (key x) L' ->
     hoare inp (at_keys d L') (body x) (fun u r => u = tt /\ at_keys d (L' ++ [key x]) r)) ->
  NoDup (map key l) -> Forall (fun k => ~ In k L) (map key l) ->
  hoare inp (at_keys d L) (for_each_run l body) (fun u r => u = tt /\ at_keys d (L ++ map key l) r).
Proof.
  revert L. induction l as [|x l IH]; intros L Hb Hnd Hk.
  { cbn. rewrite app_nil_r. apply hoare_ret. }
  cbn [map] in Hnd, Hk. apply NoDup_cons in Hnd as [Hn Hnd]. apply Forall_cons in Hk as [Hk1 Hk].
  cbn [for_each_run]. eapply hoare_seq; [apply Hb; [by left|done]|].
  eapply hoare_conseq; [apply IH| |]; [intros; apply Hb; [by right|done]|done| |done|].
  - apply List.Forall_forall. intros k Hin. rewrite in_app_iff. intros [H|[<-|[]]].
    + by apply (proj1 (List.Forall_forall _ _) Hk k Hin).
    + by apply Hn, list_elem_of_In.
  - intros u r [-> H]. split; [done|]. by rewrite <- app_assoc in H.
Qed.

Lemma chat_message_ok (L : list string) (msg : string * string * string) :
  ~ In (process_id msg) L ->
  hoare inp (at_keys d L) (chat_message inp msg) (fun u r => u = tt /\ at_keys d (L ++ [process_id msg]) r).
Proof.
  intros Hk. destruct msg as [[from body] ts]. unfold chat_message. do 2 hstep.
  eapply hoare_seq; [by apply hoare_button|]. cbv beta.
  apply hoare_when. intros _. apply hoare_page, quiet_alert.
Qed.

Lemma tab3_ok (L : list string) :
  Forall (fun k => ~ In k L) (map process_id sample_messages) ->
  hoare inp (at_keys d L) (tab3 inp) (fun u r => u = tt /\ at_keys d (L ++ map process_id sample_messages) r).
Proof.
  intros HK. unfold tab3. do 2 hstep.
  apply for_each_run_ok; [|by apply (bool_decide_unpack _); vm_compute|done].
  intros L' msg _ Hk. by apply chat_message_ok.
Qed.

Lemma hoare_export_csv (L : list string) :
  hoare inp (at_keys d L) export_csv (fun u r => u = tt /\ at_keys d L r).
Proof.
  unfold export_csv.
  eapply hoare_seq; [apply hoare_with_store; reads; apply quiet_lift|]. cbv beta.
  intros r [Hs HL]. eexists _, _. split; [reflexivity|]. by split.
Qed.

Lemma revenue_section_ok (L : list string) (completed : list Order) :
  hoare inp (at_keys d L) (revenue_section completed) (fun u r => u = tt /\ at_keys d L r).
Proof. unfold revenue_section. hstep. cbv zeta. case_match; apply hoare_page; quiet_chain. Qed.

Lemma status_section_ok (L : list string) :
  hoare inp (at_keys d L) status_section (fun u r => u = tt /\ at_keys d L r).
Proof.
  unfold status_section. hstep.
  eapply hoare_seq; [apply hoare_with_store; reads; apply quiet_lift|]. cbv beta zeta.
  destruct (status_count all_of); hstep; apply hoare_page; quiet_chain.
Qed.

Lemma top_section_ok (L : list string) (all_orders : list Order) :
  hoare inp (at_keys d L) (top_section all_orders) (fun u r => u = tt /\ at_keys d L r).
Proof.
  unfold top_section. do 2 hstep.
  eapply hoare_seq; [apply hoare_with_store; reads; apply quiet_lift|]. cbv beta.
  destruct (firstn 5 (top_customers_of all_of)); do 2 hstep;
    apply hoare_page; repeat case_match; quiet_chain.
Qed.

Lemma timeline_section_ok (L : list string) (all_orders : list Order) :
  hoare inp (at_keys d L) (timeline_section all_orders) (fun u r => u = tt /\ at_keys d L r).
Proof. unfold timeline_section. hstep. apply hoare_page. case_match; quiet_chain. Qed.

Lemma detail_section_ok (L : list string) (all_orders : list Order) :
  hoare inp (at_keys d L) (detail_section all_orders) (fun u r => u = tt /\ at_keys d L r).
Proof.
  unfold detail_section. hstep.
  eapply hoare_seq; [apply hoare_with_store; reads; apply quiet_lift|]. cbv beta.
  eapply hoare_seq; [apply hoare_page; case_match; quiet_chain|]. cbv beta.
  eapply hoare_seq; [apply hoare_with_store; reads; apply quiet_lift|]. cbv beta.
  eapply hoare_seq; [apply hoare_page; case_match; quiet_chain|]. cbv beta.
  apply hoare_page. case_match; quiet_chain.
Qed.

Lemma export_section_ok (L : list string) :
  Forall (fun k => ~ In k L) export_ids ->
  hoare inp (at_keys d L) (export_section inp) (fun u r => u = tt /\ at_keys d (L ++ export_ids) r).
Proof.
  intros HK. unfold export_section, export_ids. cbn [map nth]. fold export_ids. hstep.
  hstep. eapply hoare_seq; [apply hoare_when; intros _; eapply hoare_seq;
                            [apply hoare_export_csv|apply hoare_page, quiet_alert]|].
  hstep. eapply hoare_seq; [apply hoare_when; intros _; apply hoare_page, quiet_alert|].
  hstep. eapply hoare_conseq; [apply hoare_when; intros _; apply hoare_page, quiet_alert|done|].
  intros u r [-> H]. split; [done|]. by rewrite <- !app_assoc in H.
Qed.

Definition tab4_keys : list string := ["init_sample_data"; "export_data"]%string ++ export_ids.

Lemma tab4_ok (L : list string) :
  Forall (fun k => ~ In k L) tab4_keys ->
  hoare inp (at_keys d L) (tab4 now inp) (fun u r => u = tt /\ at_keys d (L ++ tab4_keys) r).
Proof.
  intros HK. unfold tab4. do 2 hstep.
  eapply hoare_seq.
  { apply hoare_when. intros Hc%bool_decide_eq_true. apply hoare_write_rerun; [by rewrite Hc|].
    intros r [-> _]. eexists. split; [reflexivity|]. eapply app_next; [exact Hd|apply app_sample]. }
  hstep. eapply hoare_seq.
  { apply hoare_when. intros _. eapply hoare_seq; [apply hoare_export_csv|apply hoare_page, quiet_alert]. }
  eapply hoare_seq; [apply hoare_with_store, summary_cards_quiet|]. cbv beta iota.
  eapply hoare_seq; [apply revenue_section_ok|].
  eapply hoare_seq; [apply status_section_ok|].
  eapply hoare_seq; [apply top_section_ok|].
  eapply hoare_seq; [apply timeline_section_ok|].
  eapply hoare_seq; [apply detail_section_ok|].
  rewrite <- !app_assoc. cbn [app].
  eapply hoare_conseq; [apply (export_section_ok (L ++ ["init_sample_data"; "export_data"]%string))| |].
  - apply List.Forall_forall. intros k Hk. apply fresh_app.
    + apply (proj1 (List.Forall_forall _ _) HK). unfold tab4_keys. by apply in_or_app; right.
    + intros Hin. unfold export_ids in Hk. cbn in Hk, Hin.
      repeat destruct Hk as [<-|Hk]; try contradiction;
        repeat destruct Hin as [Hin|Hin]; try contradiction; vm_compute in Hin; discriminate Hin.
  - done.
  - intros u r [-> H]. split; [done|]. by rewrite <- !app_assoc in H.
Qed.

(** The keys drawn so far are fixed keys [C] and keys of expanders [K]. *)
Lemma fresh_keys (ks C K L : list string) :
  Forall (fun k => ~ In k C /\ is_order_key k = false) ks -> Forall (fun k => is_order_key k = true) K ->
  (forall k, In k L -> In k C \/ In k K) -> Forall (fun k => ~ In k L) ks.
Proof.
  intros Hks HK HL. eapply Forall_impl; [exact Hks|]. intros k [HC Ho] Hin.
  destruct (HL k Hin) as [|Hk]; [done|]. rewrite (proj1 (List.Forall_forall _ _) HK k Hk) in Ho. done.
Qed.

Ltac concrete_fresh :=
  apply List.Forall_forall; intros ? Hk; cbn in Hk; repeat destruct Hk as [<-|Hk]; try contradiction;
  (split; [let H := fresh in intros H; vm_compute in H; repeat destruct H as [H|H];
             try discriminate H; contradiction
          | vm_compute; reflexivity]).

Lemma page_body_ok :
  creds_ok env_sid env_token inp ->
  hoare inp (at_keys d []) (page_body now env_sid env_token inp) (fun u r => u = tt /\ store (files r) = d).
Proof.
  intros Hcr. unfold page_body.
  eapply hoare_seq; [apply (sidebar_ok []); [apply List.Forall_forall; by intros ? ? ?|exact Hcr]|].
  eapply hoare_seq; [apply tab1_ok|]. cbn [app].
  eapply hoare_bind; [apply tab2_ok|].
  { let H := fresh in intros H; vm_compute in H; repeat destruct H as [H|H];
      try discriminate H; contradiction. }
  { apply List.Forall_forall. intros k Hk. vm_compute in Hk.
    repeat destruct Hk as [<-|Hk]; try contradiction; vm_compute; reflexivity. }
  intros u. cbv beta.
  apply (hoare_conseq inp (fun r => exists K, at_keys d (sidebar_keys ++ filter_id :: K) r
                                          /\ Forall (fun k => is_order_key k = true) K)
          _ _ (fun u0 r => u0 = tt /\ store (files r) = d)); [|by intros r [_ H]|done].
  apply hoare_pre_ex. intros K.
  apply hoare_pre_pure. intros HK.
  eapply hoare_seq; [apply tab3_ok|].
  { eapply (fresh_keys _ (sidebar_keys ++ [filter_id]) K); [concrete_fresh|done|].
    intros k. rewrite !in_app_iff. cbn. tauto. }
  eapply hoare_seq; [apply tab4_ok|].
  { eapply (fresh_keys _ (sidebar_keys ++ [filter_id] ++ map process_id sample_messages) K);
      [concrete_fresh|done|].
    intros k. rewrite !in_app_iff. cbn. tauto. }
  eapply hoare_seq; [apply hoare_page, quiet_write|].
  eapply hoare_conseq; [apply hoare_page, quiet_write|done|]. by intros u' r [-> [? _]].
Qed.

End Completion.

(** A run from a reachable store ends normally, or calls [st.rerun()]
    after a click; either way the store stays reachable. *)
Lemma app_run_outcome (now : datetime) (env_sid env_token : string) (inp : inputs) (w : world) :
  app_reachable (store w) -> 30 < toordinal now <= MAXORDINAL -> creds_ok env_sid env_token inp ->
  exists r res, app_run now env_sid env_token inp w = (r, res) /\ app_reachable (store (files r))
    /\ (res = Ok tt \/ (res = Err RerunRequested /\ clicked inp <> None)).
Proof.
  intros Hw Hnow Hcr. unfold app_run, script. unfold mbind at 1, R_bind at 1. rewrite header_start.
  assert (Hd : app_reachable (init_db (store w))) by (eapply app_next; [exact Hw|apply app_open]).
  match goal with |- context [page_body ?a ?b ?c ?i ?r0] =>
    destruct (page_body_ok a b c i _ Hd Hnow Hcr r0 (conj eq_refl eq_refl)) as (r & res & E & H) end.
  cbv beta. rewrite E. exists r, res. split; [done|]. destruct res as [[]|e].
  - destruct H as [_ ->]. auto.
  - destruct H as (-> & Hc & Hr). auto.
Qed.

(** C3: every interaction with the dashboard, from any store the app can
    reach and at any date at least 31 days after 0001-01-01, completes
    without an exception: the store reads succeed, no widget key is used
    twice, every stored status is in the select box, and a button that
    writes the store (a status update, the sample data) is followed by a
    rerun that completes.  The only exception left is a press of "Simpan
    Konfigurasi" without credentials, which [creds_ok] excludes.  The
    store after the interaction is again one the app can reach. *)
Theorem interact_completes (now : datetime) (env_sid env_token : string) (inp : inputs) (w : world) :
  app_reachable (store w) -> 30 < toordinal now <= MAXORDINAL -> creds_ok env_sid env_token inp ->
  exists r, interact now env_sid env_token inp w = (r, Ok tt) /\ app_reachable (store (files r)).
Proof.
  intros Hw Hnow Hcr. unfold interact.
  destruct (app_run_outcome now env_sid env_token inp w Hw Hnow Hcr)
    as (r & res & E & Hr & [-> | [-> _]]); rewrite E; [eauto|].
  assert (Hcr' : creds_ok env_sid env_token (no_click inp)) by (intros Hc; discriminate Hc).
  destruct (app_run_outcome now env_sid env_token (no_click inp) (files r) Hr Hnow Hcr')
    as (r2 & res2 & E2 & Hr2 & [-> | [_ Hc]]); [eauto|by destruct Hc].
Qed.

(** C15: pressing "Simpan Konfigurasi" with an empty Account SID, and no
    [TWILIO_ACCOUNT_SID] in the environment, stops the run with the
    exception [Client(...)] raises: the page ends in the sidebar, with
    none of the tabs drawn, and the store is only opened. *)
Theorem save_without_sid_stops (now : datetime) (env_token : string) (inp : inputs) (w : world) :
  clicked inp = Some save_id -> text_of inp "Account SID" = EmptyString ->
  exists r, app_run now "" env_token inp w = (r, Err (TwilioRaised Gateway.CredentialsRequired))
    /\ keys (pg r) = sidebar_keys /\ store (files r) = init_db (store w).
Proof.
  intros Hc Hs. unfold app_run, script. unfold mbind at 1, R_bind at 1. rewrite header_start.
  unfold page_body, sidebar, text_input, button, widget, save_credentials, Gateway.set_credentials,
    mbind, R_bind, on_page, write, M_bind, mret, M_ret, R_ret.
  cbn -[auto_id save_id]. rewrite Hc, Hs, bool_decide_eq_true_2 by done. cbn -[auto_id save_id].
  eexists. split; [reflexivity|]. by split.
Qed.

(** ** Scenarios *)

Definition sample_world : world := mkWorld (init_sample_data (init_db empty_db)) None.
Definition ex_now : datetime := mk 2024 1 20 12 0 0 0.

(** "Perbarui Status" of order 4, with "completed" chosen in its select box. *)
Definition ex_update : inputs :=
  mkInputs (Some "update_4"%string) (fun _ => EmptyString)
           (fun k => if String.eqb k "status_4" then Some 3%nat else None).

Definition ex_save : inputs := mkInputs (Some save_id) (fun _ => EmptyString) (fun _ => None).


(** The status update is written before the rerun, so the page of the
    interaction already lists order 4 as completed. *)
Example update_click_completes_order :
  let '(r, res) := interact ex_now "" "" ex_update sample_world in
  res = Ok tt /\ get_order (store (files r)) 4
  = Ok (Some (mkOrder (Some 4) "Dewi Lestari" "+628556677889" "Jl. Thamrin No. 89"
                "1 Nasi Goreng, 1 Ayam Bakar" 60000 "completed" (mk 2024 1 15 9 45 0 0)))
  /\ In (Expander "Pesanan #4 - Dewi Lestari - completed") (elements (pg r)).
Proof. vm_compute. split_and!; [reflexivity|reflexivity|tauto]. Qed.

(** ** Witnesses *)

Lemma interact_completes_witness :
  app_reachable (store sample_world) /\ (30 < toordinal ex_now <= MAXORDINAL)
  /\ creds_ok "" "" ex_update
  /\ exists r, interact ex_now "" "" ex_update sample_world = (r, Ok tt) /\ app_reachable (store (files r)).
Proof.
  assert (H1 : app_reachable (store sample_world))
    by (eapply app_next; [apply app_new|apply app_sample]).
  assert (H2 : 30 < toordinal ex_now <= MAXORDINAL) by (vm_compute; split; [reflexivity|discriminate]).
  assert (H3 : creds_ok "" "" ex_update) by (intros Hc; vm_compute in Hc; discriminate Hc).
  exact (conj H1 (conj H2 (conj H3 (interact_completes _ _ _ _ _ H1 H2 H3)))).
Defined.

Lemma save_without_sid_stops_witness :
  clicked ex_save = Some save_id /\ text_of ex_save "Account SID" = EmptyString
  /\ exists r, app_run ex_now "" "" ex_save sample_world = (r, Err (TwilioRaised Gateway.CredentialsRequired))
       /\ keys (pg r) = sidebar_keys /\ store (files r) = init_db (store sample_world).
Proof.
  assert (H1 : clicked ex_save = Some save_id) by reflexivity.
  assert (H2 : text_of ex_save "Account SID" = EmptyString) by reflexivity.
  exact (conj H1 (conj H2 (save_without_sid_stops ex_now "" ex_save sample_world H1 H2))).
Defined.

End App.
